(** * The RBI bank-file lookup service (app/rbi_api.py)

    A shallow embedding of the link cache, the index build, the schema
    normaliser, the two lookup flows and the bank list, with the
    properties of the design document stated and proved over it, and
    further properties of the code after them.

    Conventions of the embedding.
    - A Python [str] is a [string]; case mapping and white space are the
      ones Python applies to ASCII text.
    - A spreadsheet cell is a [value] (none, bool, int, float or str);
      Python's [float] is an interface ([PyFloat]), with the facts the
      proofs need of it stated apart ([PyFloatLaws]).
    - A [dict] is an association list in insertion order: assignment to
      a present key keeps its position, assignment to a new key appends.
    - Code that raises returns a [result]; code that reads or writes the
      process state (the link cache, the index file, the network) is a
      function from [state] to a result and a new state.  Every call that
      leaves the process is recorded in the state's trace.
    - The network, the clock, the spreadsheet reader and the outcome of
      writing the index file are parameters ([World]); the contents of
      the index file are part of the state.
    - An index file that can be read holds a list of records with text
      fields, as the build writes it; a file with JSON of another shape
      is outside the embedding. *)

From Stdlib Require Import String Ascii List ZArith NArith Bool Lia.
From Stdlib Require Import Decimal DecimalString.
Import ListNotations.

Local Open Scope string_scope.
Local Open Scope Z_scope.

Set Implicit Arguments.

(* ================================================================== *)
(** * Python string operations *)
(* ================================================================== *)

Module PyStr.

(** [str.isspace] on one ASCII character: TAB..CR, FS..US and SPACE. *)
Definition is_space (c : ascii) : bool :=
  let n := nat_of_ascii c in
  ((9 <=? n) && (n <=? 13) || (28 <=? n) && (n <=? 32))%nat.

Definition is_upper (c : ascii) : bool :=
  let n := nat_of_ascii c in ((65 <=? n) && (n <=? 90))%nat.

Definition is_lower (c : ascii) : bool :=
  let n := nat_of_ascii c in ((97 <=? n) && (n <=? 122))%nat.

Definition lower_char (c : ascii) : ascii :=
  if is_upper c then ascii_of_nat (nat_of_ascii c + 32) else c.

Definition upper_char (c : ascii) : ascii :=
  if is_lower c then ascii_of_nat (nat_of_ascii c - 32) else c.

Fixpoint map_chars (f : ascii -> ascii) (s : string) : string :=
  match s with
  | EmptyString => EmptyString
  | String c r => String (f c) (map_chars f r)
  end.

(** [s.lower()] and [s.upper()], as they act on ASCII text (on other
    text Python's case mappings are not these). *)
Definition lower : string -> string := map_chars lower_char.
Definition upper : string -> string := map_chars upper_char.

(** [s.lstrip()], [s.rstrip()] and [s.strip()]. *)
Fixpoint lstrip (s : string) : string :=
  match s with
  | EmptyString => EmptyString
  | String c r => if is_space c then lstrip r else s
  end.

Fixpoint rstrip (s : string) : string :=
  match s with
  | EmptyString => EmptyString
  | String c r =>
      match rstrip r with
      | EmptyString => if is_space c then EmptyString else String c EmptyString
      | r' => String c r'
      end
  end.

Definition strip (s : string) : string := rstrip (lstrip s).

(** [s.startswith(p)] and [s.endswith(p)]. *)
Definition startswith (s p : string) : bool := String.prefix p s.

Fixpoint endswith (s p : string) : bool :=
  (s =? p)%string ||
  match s with
  | EmptyString => false
  | String _ r => endswith r p
  end.

(** [p in s]: [p] occurs in [s] as a substring. *)
Fixpoint contains (s p : string) : bool :=
  String.prefix p s ||
  match s with
  | EmptyString => false
  | String _ r => contains r p
  end.

(** [c in s] for one character. *)
Fixpoint has_char (c : ascii) (s : string) : bool :=
  match s with
  | EmptyString => false
  | String d r => (d =? c)%char || has_char c r
  end.

(** [s[:n]]. *)
Definition take (n : nat) (s : string) : string := String.substring 0 n s.

(** A string made of white space only (the empty one included). *)
Fixpoint all_space (s : string) : bool :=
  match s with
  | EmptyString => true
  | String c r => is_space c && all_space r
  end.

(** A string with no white space in it. *)
Fixpoint no_space (s : string) : bool :=
  match s with
  | EmptyString => true
  | String c r => negb (is_space c) && no_space r
  end.

(** The last character. *)
Fixpoint last_char (s : string) : option ascii :=
  match s with
  | EmptyString => None
  | String c EmptyString => Some c
  | String _ r => last_char r
  end.

(** [len(s)] as a Python int. *)
Definition len (s : string) : Z := Z.of_nat (String.length s).

End PyStr.
Import PyStr.


(* ================================================================== *)
(** * Cell values and the [float] builtin *)
(* ================================================================== *)

(** Python's [float] type, taken as an interface: the conversions the
    program calls.  [None] stands for the exception the builtin raises
    ([ValueError], [TypeError] or [OverflowError]). *)
Class PyFloat : Type := {
  float : Type;
  (** [float(s)] on a [str]. *)
  float_of_string : string -> option float;
  (** [float(n)] on an [int]. *)
  float_of_int : Z -> option float;
  (** [f.is_integer()]. *)
  float_is_integer : float -> bool;
  (** [int(f)]: truncation; raises on infinities and NaN. *)
  int_of_float : float -> option Z;
  (** [math.isnan(f)], which is what [pd.isna] tests on a float. *)
  float_isnan : float -> bool;
  (** [bool(f)]: false on zero only. *)
  float_bool : float -> bool;
  (** [str(f)]. *)
  float_str : float -> string
}.

(** What the proofs use of Python's floats.  Nothing is assumed of the
    white space [float] skips around a literal: it skips less than
    [str.strip] removes (not the separators FS, GS, RS and US), so that
    [float(s.strip())] may succeed where [float(s)] raises. *)
Record PyFloatLaws (FL : PyFloat) : Prop := {
  (** The empty string is no float literal. *)
  float_of_empty : float_of_string "" = None;
  (** A literal that ends in [.0] has no fractional part: its float is
      integer-valued, or too large to be finite. *)
  float_of_dot0 :
    forall s f, endswith s ".0" = true -> float_of_string s = Some f ->
                float_is_integer f = true \/ int_of_float f = None;
  (** A float is printed with a [.0] tail only when it is integer-valued. *)
  float_str_dot0 :
    forall f, endswith (strip (float_str f)) ".0" = true ->
              float_is_integer f = true;
  (** The float of an int is integer-valued. *)
  float_of_int_integer :
    forall n f, float_of_int n = Some f -> float_is_integer f = true;
  (** An integer-valued float converts to an int. *)
  int_of_integer_float :
    forall f, float_is_integer f = true ->
              exists n, int_of_float f = Some n
}.

(** A scalar as pandas hands it out of a sheet, over the floats [F].
    Cells of other types (dates, times) are left out. *)
Inductive value_of (F : Type) : Type :=
| VNone                  (* None *)
| VBool (b : bool)
| VInt (n : Z)
| VFloat (f : F)         (* NaN included *)
| VStr (s : string).

Arguments VNone {F}.
Arguments VBool {F} b.
Arguments VInt {F} n.
Arguments VFloat {F} f.
Arguments VStr {F} s.

Abbreviation value := (value_of float) (only parsing).

Section Values.
Context {FL : PyFloat}.

(** [pd.isna(x)] on a scalar. *)
Definition isna (x : value) : bool :=
  match x with
  | VNone => true
  | VFloat f => float_isnan f
  | _ => false
  end.

(** [str(n)] on an int. *)
Definition str_of_int (n : Z) : string := NilZero.string_of_int (Z.to_int n).

(** [str(x)]. *)
Definition py_str (x : value) : string :=
  match x with
  | VNone => "None"
  | VBool true => "True"
  | VBool false => "False"
  | VInt n => str_of_int n
  | VFloat f => float_str f
  | VStr s => s
  end.

(** [bool(x)], the truth value an [if] tests. *)
Definition py_bool (x : value) : bool :=
  match x with
  | VNone => false
  | VBool b => b
  | VInt n => negb (n =? 0)
  | VFloat f => float_bool f
  | VStr s => negb (s =? "")%string
  end.

(** [float(x)]; [None] when it raises. *)
Definition py_float (x : value) : option float :=
  match x with
  | VNone => None
  | VBool b => float_of_int (if b then 1 else 0)
  | VInt n => float_of_int n
  | VFloat f => Some f
  | VStr s => float_of_string s
  end.

(** [coerce_number_like] (lines 107-122).  The first [try] block returns
    [int(f)] when the float is integer-valued; any exception in it is
    swallowed and control falls through to the string path. *)
Definition coerce_number_like (x : value) : value :=
  if isna x then VStr ""
  else
    let first_try :=
      match py_float x with
      | Some f => if float_is_integer f then int_of_float f else None
      | None => None
      end in
    match first_try with
    | Some n => VInt n
    | None =>
        let s := strip (py_str x) in
        if endswith s ".0" then
          match float_of_string s with
          | Some f =>
              match int_of_float f with
              | Some n => VInt n
              | None => VStr s
              end
          | None => VStr s
          end
        else VStr s
    end.

End Values.

(* ================================================================== *)
(** * Dictionaries *)
(* ================================================================== *)

Section Dict.
Variable V : Type.

(** A [dict] with [str] keys, in insertion order. *)
Definition dict := list (string * V).

Fixpoint dict_get (d : dict) (k : string) : option V :=
  match d with
  | [] => None
  | (k', v) :: r => if (k' =? k)%string then Some v else dict_get r k
  end.

(** [d[k] = v]: a present key keeps its place, a new key goes last. *)
Fixpoint dict_set (d : dict) (k : string) (v : V) : dict :=
  match d with
  | [] => [(k, v)]
  | (k', v') :: r =>
      if (k' =? k)%string then (k', v) :: r else (k', v') :: dict_set r k v
  end.

(** [k in d]. *)
Definition dict_mem (d : dict) (k : string) : bool :=
  match dict_get d k with Some _ => true | None => false end.

(** [dict(items)], and so [{k: v for k, v in items}]. *)
Definition dict_of_items (items : list (string * V)) : dict :=
  fold_left (fun d kv => dict_set d (fst kv) (snd kv)) items [].

Definition dict_keys (d : dict) : list string := map fst d.

End Dict.

(* ================================================================== *)
(** * Schema normaliser (lines 70-137) *)
(* ================================================================== *)

(** [find_ifsc_column] and [find_bank_column] (lines 75-87) are the same
    function up to the token. *)
Definition find_column (token : string) (cols : list string) : option string :=
  let exact := filter (fun c => (lower (strip c) =? token)%string) cols in
  match exact with
  | c :: _ => Some c
  | [] =>
      let fuzzy := filter (fun c => contains (lower (strip c)) token) cols in
      match fuzzy with
      | c :: _ => Some c
      | [] => None
      end
  end.

Definition find_ifsc_column : list string -> option string := find_column "ifsc".
Definition find_bank_column : list string -> option string := find_column "bank".

(** [OUT_KEYS] (line 90). *)
Definition OUT_KEYS : list string :=
  ["BANK"; "IFSC"; "BRANCH"; "ADDRESS"; "CITY1"; "CITY2"; "STATE"; "STD CODE"; "PHONE"].

(** [CANON_MAP] (lines 92-105). *)
Definition CANON_MAP : dict string :=
  [ ("bank", "BANK"); ("bank name", "BANK");
    ("ifsc", "IFSC"); ("ifsc code", "IFSC");
    ("branch", "BRANCH"); ("branch name", "BRANCH");
    ("address", "ADDRESS"); ("address1", "ADDRESS"); ("address line", "ADDRESS");
    ("city", "CITY1"); ("city1", "CITY1"); ("city 1", "CITY1");
    ("city2", "CITY2"); ("city 2", "CITY2");
    ("centre", "CITY1"); ("district", "CITY2");
    ("state", "STATE");
    ("std code", "STD CODE"); ("std", "STD CODE"); ("stdcode", "STD CODE");
    ("phone", "PHONE"); ("phone no", "PHONE"); ("phone number", "PHONE");
    ("telephone", "PHONE"); ("telephone no", "PHONE");
    ("contact", "PHONE"); ("contact no", "PHONE"); ("mobile", "PHONE") ].

Section Canon.
Context {FL : PyFloat}.

(** [out[k]] where the key is known to be there ([to_output_row] only
    reads keys of [OUT_KEYS], all present from its second line on). *)
Definition item (d : dict value) (k : string) : value :=
  match dict_get d k with Some v => v | None => VNone end.

(** ["" if pd.isna(v) else v]. *)
Definition blank_na (v : value) : value := if isna v then VStr "" else v.

(** [x.upper()] on the code field, which is a [str] by then. *)
Definition value_upper (v : value) : value :=
  match v with VStr s => VStr (upper s) | _ => v end.

(** Line 125: the raw keys trimmed and lower-cased. *)
Definition lowered_items (raw : list (string * value)) : dict value :=
  dict_of_items (map (fun kv => (lower (strip (fst kv)), snd kv)) raw).

(** Lines 127-129, one iteration. *)
Definition canon_step (out : dict value) (kv : string * value) : dict value :=
  match dict_get CANON_MAP (fst kv) with
  | Some k => dict_set out k (blank_na (snd kv))
  | None => out
  end.

(** Lines 132-133, one iteration. *)
Definition text_step (out : dict value) (k : string) : dict value :=
  dict_set out k
    (if isna (item out k) then VStr "" else VStr (strip (py_str (item out k)))).

(** [to_output_row] (lines 124-137).  [raw] is the list [raw.items()]. *)
Definition to_output_row (raw : list (string * value)) : dict value :=
  let tmp := lowered_items raw in
  let out := map (fun k => (k, VStr "")) OUT_KEYS in
  let out := fold_left canon_step tmp out in
  let out :=
    if py_bool (item out "CITY1") && negb (py_bool (item out "CITY2"))
    then dict_set out "CITY2" (item out "CITY1") else out in
  let out :=
    fold_left text_step
      ["BANK"; "IFSC"; "BRANCH"; "STATE"; "ADDRESS"; "CITY1"; "CITY2"] out in
  let out := dict_set out "STD CODE" (coerce_number_like (item out "STD CODE")) in
  let out := dict_set out "PHONE" (coerce_number_like (item out "PHONE")) in
  let out := dict_set out "IFSC" (value_upper (item out "IFSC")) in
  out.

End Canon.

(* ================================================================== *)
(** * Sheets *)
(* ================================================================== *)

Definition bytes := list Byte.byte.

(** What [detect_engine] selects. *)
Inductive engine : Type := openpyxl | xlrd.

(** A [DataFrame]: column labels and rows of cells, one cell per label.
    Labels are arbitrary scalars as read, and [str] once normalised. *)
Record frame_of (F L : Type) : Type := Frame {
  columns : list L;
  rows : list (list (value_of F))
}.

Arguments Frame {F L} columns rows.
Arguments columns {F L} f.
Arguments rows {F L} f.

Abbreviation frame := (frame_of float) (only parsing).

Section Frames.
Context {FL : PyFloat}.

(** [normalize_columns] (lines 70-73). *)
Definition normalize_columns (df : frame value) : frame string :=
  Frame (map (fun c => strip (py_str c)) (columns df)) (rows df).

(** [df.empty]: no row or no column. *)
Definition frame_empty (L : Type) (df : frame L) : bool :=
  match rows df, columns df with
  | [], _ => true
  | _, [] => true
  | _, _ => false
  end.

(** [df.fillna("")]. *)
Definition fillna (L : Type) (df : frame L) : frame L :=
  Frame (columns df) (map (map blank_na) (rows df)).

(** [df.to_dict(orient="records")]: per row, [dict(zip(columns, row))]. *)
Definition to_records (df : frame string) : list (dict value) :=
  map (fun row => dict_of_items (combine (columns df) row)) (rows df).

(** The positions at which a label occurs. *)
Fixpoint positions_from (i : nat) (c : string) (cols : list string) : list nat :=
  match cols with
  | [] => []
  | c' :: r =>
      if (c' =? c)%string then i :: positions_from (S i) c r
      else positions_from (S i) c r
  end.

Definition positions : string -> list string -> list nat := positions_from 0.

Definition cell (row : list value) (i : nat) : value := nth i row VNone.

(** [df[col]] as a Series.  When the label is borne by several columns
    pandas returns a frame instead, which has no [.str] accessor: the
    expression of line 284 then raises, as it does on an unknown label. *)
Definition series (df : frame string) (col : string) : option (list value) :=
  match positions col (columns df) with
  | [i] => Some (map (fun row => cell row i) (rows df))
  | _ => None
  end.

(** [df[mask]]. *)
Definition frame_where (L : Type) (df : frame L) (mask : list bool) : frame L :=
  Frame (columns df) (map snd (filter fst (combine mask (rows df)))).

End Frames.

(* ================================================================== *)
(** * Process state, exceptions and the outside world *)
(* ================================================================== *)

(** The exceptions the handlers tell apart: FastAPI's [HTTPException],
    and every other [Exception]. *)
Inductive exn : Type :=
| HTTPException (status_code : Z) (detail : string)
| OtherError.

Inductive result (A : Type) : Type :=
| Ok (a : A)
| Raise (e : exn).
Arguments Ok {A} a.
Arguments Raise {A} e.

(** A candidate file: [{"title": ..., "url": ...}]. *)
Record link : Type := Link { title : string; url : string }.

(** An index record: [{"title", "url", "bank", "ifsc_prefix"}]. *)
Record index_record : Type := IndexRecord {
  rec_title : string;
  rec_url : string;
  bank : string;
  ifsc_prefix : string
}.

(** What [in_banks.json] holds: text [json.load] rejects, or an index.
    ([json.load] also accepts JSON that is no list of such records;
    properties that depend on the contents of the file are stated for a
    file that holds an index.) *)
Inductive index_file : Type :=
| Unreadable
| Stored (index : list index_record).

(** How lines 168-169 end: the file is written whole; or [open] raises
    and the file is as it was; or the write raises under way and leaves
    a text cut short. *)
Inductive write_outcome : Type :=
| Written
| NotOpened
| Cut.

(** The calls that leave the process. *)
Inductive event : Type :=
| GetPage                      (* requests.get(RBI_URL) *)
| Download (u : string).       (* requests.get(u, stream=True) *)

(** [_links_cache], the file at [INDEX_PATH], and the calls made so far
    (latest first). *)
Record state : Type := State {
  links_ts : Z;
  links_data : list link;
  index_on_disk : option index_file;
  trace : list event
}.

(** One step of [r.iter_content]: the next chunk, or a transport error. *)
Inductive chunk : Type :=
| Chunk (b : bytes)
| Broken.

(** The collaborators.  Each answer may depend on the calls made before
    it, so that a repeated request may be answered differently. *)
Class World {FL : PyFloat} : Type := {
  (** [time.time()], in seconds. *)
  time_time : list event -> Z;
  (** The [(href, text)] of every [<a href>] of the listing page, or
      [None] when the request or [raise_for_status] raises. *)
  get_page : list event -> option (list (string * string));
  (** [urllib.parse.urljoin]. *)
  urljoin : string -> string -> string;
  (** The chunks of a streamed download, or [None] when the request or
      [raise_for_status] raises. *)
  get_stream : list event -> string -> option (list chunk);
  (** [pd.ExcelFile(...).sheet_names], or [None] when it raises. *)
  excel_sheet_names : bytes -> engine -> option (list string);
  (** [pd.read_excel(..., sheet_name, engine, nrows)], or [None]. *)
  read_excel : bytes -> string -> engine -> option nat -> option (frame value);
  (** [str] of the Series a row yields for a label borne by several
      columns. *)
  series_str : list value -> string;
  (** What becomes of [open(INDEX_PATH, "w")] and [json.dump]. *)
  write_file : list event -> write_outcome
}.

Definition RBI_BASE : string := "https://www.rbi.org.in".
Definition MAX_DOWNLOAD_BYTES : Z := 25 * 1024 * 1024.
Definition CACHE_TTL_SECONDS : Z := 6 * 60 * 60.

(** The state-and-exception monad of the handlers. *)
Definition M (A : Type) : Type := state -> result A * state.

Definition ret {A} (a : A) : M A := fun s => (Ok a, s).

Definition raise {A} (e : exn) : M A := fun s => (Raise e, s).

Definition bind {A B} (m : M A) (k : A -> M B) : M B :=
  fun s =>
    match m s with
    | (Ok a, s') => k a s'
    | (Raise e, s') => (Raise e, s')
    end.

(** [try: m  except ...: h e]. *)
Definition try_except {A} (m : M A) (h : exn -> M A) : M A :=
  fun s =>
    match m s with
    | (Ok a, s') => (Ok a, s')
    | (Raise e, s') => h e s'
    end.

(** A pure step that may raise some [Exception]. *)
Definition lift {A} (o : option A) : M A :=
  match o with Some a => ret a | None => raise OtherError end.

Declare Scope monad_scope.
Delimit Scope monad_scope with monad.
Notation "x <- c ;; k" := (bind c (fun x => k))
  (at level 61, c at next level, right associativity) : monad_scope.
Notation "c ;;; k" := (bind c (fun _ => k))
  (at level 61, right associativity) : monad_scope.
Local Open Scope monad_scope.

Definition get_state : M state := fun s => (Ok s, s).

Definition log (e : event) : M unit :=
  fun s => (Ok tt, State (links_ts s) (links_data s) (index_on_disk s) (e :: trace s)).

Definition set_links_data (d : list link) : M unit :=
  fun s => (Ok tt, State (links_ts s) d (index_on_disk s) (trace s)).

Definition set_links_ts (t : Z) : M unit :=
  fun s => (Ok tt, State t (links_data s) (index_on_disk s) (trace s)).

Definition set_index_file (f : index_file) : M unit :=
  fun s => (Ok tt, State (links_ts s) (links_data s) (Some f) (trace s)).

(* ================================================================== *)
(** * Link list, download and index (lines 27-179) *)
(* ================================================================== *)

(** [s.split()]: the maximal runs of non-space characters. *)
Fixpoint split_ws (s cur : string) : list string :=
  match s with
  | EmptyString => if (cur =? "")%string then [] else [cur]
  | String c r =>
      if is_space c
      then (if (cur =? "")%string then split_ws r "" else cur :: split_ws r "")
      else split_ws r (cur ++ String c "")
  end.

(** [s.split("/")[-1]]. *)
Fixpoint last_segment (s : string) : string :=
  match s with
  | EmptyString => EmptyString
  | String c r =>
      if has_char "/" r then last_segment r
      else if (c =? "/")%char then r else s
  end.

(** [detect_engine] (lines 67-68). *)
Definition detect_engine (u : string) : engine :=
  if endswith (lower u) ".xlsx" then openpyxl else xlrd.

Section Service.
Context {FL : PyFloat} {W : World}.

(** The body of the loop of [fetch_xls_links] (lines 36-40). *)
Definition link_of_anchor (a : string * string) : list link :=
  let href := strip (fst a) in
  if endswith (lower href) ".xls" || endswith (lower href) ".xlsx" then
    let u :=
      if startswith (lower href) "http://" || startswith (lower href) "https://"
      then href else urljoin RBI_BASE href in
    let t := String.concat " " (split_ws (snd a) "") in
    [Link (if (t =? "")%string then last_segment u else t) u]
  else [].

(** [fetch_xls_links] (lines 30-43). *)
Definition fetch_xls_links : M (list link) :=
  s <- get_state ;;
  log GetPage ;;;
  anchors <- lift (get_page (trace s)) ;;
  let items := flat_map link_of_anchor anchors in
  match items with
  | [] => raise (HTTPException 404 "No Excel links found on RBI page.")
  | _ => ret items
  end.

(** [get_cached_links] (lines 45-50). *)
Definition get_cached_links : M (list link) :=
  s <- get_state ;;
  let now := time_time (trace s) in
  (if (now - links_ts s >? CACHE_TTL_SECONDS)
      || match links_data s with [] => true | _ => false end
   then
     items <- fetch_xls_links ;;
     set_links_data items ;;;
     set_links_ts now
   else ret tt) ;;;
  s' <- get_state ;;
  ret (links_data s').

(** The loop of [stream_download] (lines 58-64). *)
Fixpoint read_chunks (cs : list chunk) (buf : bytes) (total : Z) : result bytes :=
  match cs with
  | [] => Ok buf
  | Broken :: _ => Raise OtherError
  | Chunk b :: r =>
      match b with
      | [] => read_chunks r buf total
      | _ =>
          let total' := total + Z.of_nat (length b) in
          if total' >? MAX_DOWNLOAD_BYTES
          then Raise (HTTPException 413 "File too large.")
          else read_chunks r (buf ++ b)%list total'
      end
  end.

(** [stream_download] (lines 53-65). *)
Definition stream_download (u : string) : M bytes :=
  s <- get_state ;;
  log (Download u) ;;;
  cs <- lift (get_stream (trace s) u) ;;
  fun s' => (read_chunks cs [] 0, s').

(** [str(head_df.iloc[0][col])] (lines 161-162): [IndexError] on a frame
    with no row. *)
Definition first_row_str (df : frame string) (col : string) : option string :=
  match rows df with
  | [] => None
  | row :: _ =>
      match positions col (columns df) with
      | [] => None
      | [i] => Some (py_str (cell row i))
      | ps => Some (series_str (map (cell row) ps))
      end
  end.

(** [("" if not col else str(head_df.iloc[0][col]).strip().upper())]. *)
Definition first_row_value (df : frame string) (col : option string) : option string :=
  match col with
  | None => Some ""
  | Some c =>
      if (c =? "")%string then Some ""
      else option_map (fun s => upper (strip s)) (first_row_str df c)
  end.

Definition empty_record (it : link) : index_record :=
  IndexRecord (title it) (url it) "" "".

(** The [try] block of [build_index_file] for one candidate
    (lines 150-164); it yields the record to append. *)
Definition scan_candidate (it : link) : M index_record :=
  data <- stream_download (url it) ;;
  let eng := detect_engine (url it) in
  sheet_names <- lift (excel_sheet_names data eng) ;;
  match sheet_names with
  | [] => ret (empty_record it)
  | first_sheet :: _ =>
      head_df <- lift (read_excel data first_sheet eng (Some 1%nat)) ;;
      let head_df := normalize_columns head_df in
      let bank_col := find_bank_column (columns head_df) in
      let ifsc_col := find_ifsc_column (columns head_df) in
      bank_val <- lift (first_row_value head_df bank_col) ;;
      ifsc_val <- lift (first_row_value head_df ifsc_col) ;;
      let prefix := if len ifsc_val >=? 4 then take 4 ifsc_val else "" in
      ret (IndexRecord (title it) (url it) bank_val prefix)
  end.

(** One iteration of the loop of [build_index_file] (lines 148-167). *)
Definition index_candidate (it : link) : M index_record :=
  try_except (scan_candidate it) (fun _ => ret (empty_record it)).

(** The loop itself: [index] grows by one record per candidate. *)
Fixpoint index_candidates (items : list link) (index : list index_record)
  : M (list index_record) :=
  match items with
  | [] => ret index
  | it :: r =>
      e <- index_candidate it ;;
      index_candidates r (index ++ [e])
  end.

(** Lines 168-169: the index goes to the file, outside the handler of
    the loop. *)
Definition write_index (index : list index_record) : M unit :=
  s <- get_state ;;
  match write_file (trace s) with
  | Written => set_index_file (Stored index)
  | NotOpened => raise OtherError
  | Cut => set_index_file Unreadable ;;; raise OtherError
  end.

(** [build_index_file] (lines 140-170). *)
Definition build_index_file : M (list index_record) :=
  items <- get_cached_links ;;
  index <- index_candidates items [] ;;
  write_index index ;;;
  ret index.

(** [load_index] (lines 172-179). *)
Definition load_index : M (list index_record) :=
  s <- get_state ;;
  match index_on_disk s with
  | Some (Stored index) => ret index
  | _ => build_index_file
  end.

(* ================================================================== *)
(** * Lookup flows (lines 203-292) *)
(* ================================================================== *)

Definition NO_BANK : string := "No files matched the given bank.".
Definition NO_IFSC : string := "No rows found for the given IFSC.".

(** Lines 218-225 and 260-266, which differ in the predicate and the
    message only: filter the loaded index, and on a miss rebuild it and
    filter once more. *)
Definition select_candidates (p : index_record -> bool) (detail : string)
  : M (list index_record) :=
  index <- load_index ;;
  match filter p index with
  | [] =>
      index <- build_index_file ;;
      match filter p index with
      | [] => raise (HTTPException 404 detail)
      | candidates => ret candidates
      end
  | candidates => ret candidates
  end.

(** Lines 229-238 and 270-279, which differ in the message only: fetch
    the file of [entry] and read its first sheet. *)
Definition open_first_sheet (entry : index_record) (detail : string)
  : M (frame value) :=
  data <- stream_download (rec_url entry) ;;
  let eng := detect_engine (rec_url entry) in
  sheet_names <- lift (excel_sheet_names data eng) ;;
  match sheet_names with
  | [] => raise (HTTPException 404 detail)
  | first_sheet :: _ =>
      df <- lift (read_excel data first_sheet eng None) ;;
      if frame_empty df then raise (HTTPException 404 detail) else ret df
  end.

(** The two [except] clauses that close both flows. *)
Definition collapse {A} (detail : string) (e : exn) : M A :=
  match e with
  | HTTPException _ _ => raise e
  | OtherError => raise (HTTPException 404 detail)
  end.

(** [by_bank] (lines 203-245). *)
Definition by_bank (bank_arg : string) : M (list (dict value)) :=
  let query := upper (strip bank_arg) in
  if (query =? "")%string then raise (HTTPException 404 NO_BANK)
  else
    candidates <-
      select_candidates (fun e => contains (upper (bank e)) query) NO_BANK ;;
    match candidates with
    | [] => raise OtherError
    | entry :: _ =>
        try_except
          (df <- open_first_sheet entry NO_BANK ;;
           let df := normalize_columns df in
           ret (map to_output_row (to_records (fillna df))))
          (collapse NO_BANK)
    end.

(** [by_ifsc] (lines 247-292). *)
Definition by_ifsc (ifsc_arg : string) : M (list (dict value)) :=
  let code := upper (strip ifsc_arg) in
  if len code <? 11 then raise (HTTPException 404 NO_IFSC)
  else
    let prefix := take 4 code in
    candidates <-
      select_candidates (fun e => (ifsc_prefix e =? prefix)%string) NO_IFSC ;;
    match candidates with
    | [] => raise OtherError
    | entry :: _ =>
        try_except
          (df <- open_first_sheet entry NO_IFSC ;;
           let df := normalize_columns df in
           match find_ifsc_column (columns df) with
           | None => raise (HTTPException 404 NO_IFSC)
           | Some col =>
               if (col =? "")%string then raise (HTTPException 404 NO_IFSC)
               else
                 codes <- lift (series df col) ;;
                 let mask :=
                   map (fun v => (upper (py_str v) =? code)%string) codes in
                 if negb (existsb (fun b => b) mask)
                 then raise (HTTPException 404 NO_IFSC)
                 else
                   ret (map to_output_row
                          (to_records (fillna (frame_where df mask))))
           end)
          (collapse NO_IFSC)
    end.

End Service.

(* ================================================================== *)
(** * Vocabulary of the properties *)
(* ================================================================== *)

Section Vocabulary.
Context {FL : PyFloat} {W : World}.

(** The integer a value stands for when it parses as a float that equals
    its own truncation. *)
Definition integral_value (x : value) : option Z :=
  match py_float x with
  | Some f => if float_is_integer f then int_of_float f else None
  | None => None
  end.

(** The rendering of a number-like field: nothing for a missing value; an
    integer where the value is one, or where its trimmed text ends in
    [.0] and is one; the trimmed text otherwise. *)
Definition number_like (x : value) : value :=
  if isna x then VStr ""
  else
    match integral_value x with
    | Some n => VInt n
    | None =>
        let s := strip (py_str x) in
        match (if endswith s ".0" then integral_value (VStr s) else None) with
        | Some n => VInt n
        | None => VStr s
        end
    end.

(** The rendering of a text field. *)
Definition text_like (x : value) : value :=
  if isna x then VStr "" else VStr (strip (py_str x)).

(** The post-processing of lines 130-136, field by field. *)
Definition finish (c : string -> value) : dict value :=
  [ ("BANK", text_like (c "BANK"));
    ("IFSC", value_upper (text_like (c "IFSC")));
    ("BRANCH", text_like (c "BRANCH"));
    ("ADDRESS", text_like (c "ADDRESS"));
    ("CITY1", text_like (c "CITY1"));
    ("CITY2", text_like (if py_bool (c "CITY1") && negb (py_bool (c "CITY2"))
                         then c "CITY1" else c "CITY2"));
    ("STATE", text_like (c "STATE"));
    ("STD CODE", coerce_number_like (c "STD CODE"));
    ("PHONE", coerce_number_like (c "PHONE")) ].

(** How the value that reaches a field is rendered there. *)
Definition render (k : string) (x : value) : value :=
  if (k =? "STD CODE")%string || (k =? "PHONE")%string then number_like x
  else if (k =? "IFSC")%string then value_upper (text_like x)
  else text_like x.

(** The two roles of the design's [find_role_column], with their tokens
    and the function of the program that serves each. *)
Inductive role : Type := Entity | Code.

Definition role_token (r : role) : string :=
  match r with Entity => "bank" | Code => "ifsc" end.

Definition find_role_column (cols : list string) (r : role) : option string :=
  match r with
  | Entity => find_bank_column cols
  | Code => find_ifsc_column cols
  end.

(** The canonical field a raw header feeds, if any. *)
Definition canon_field (key : string) : option string :=
  dict_get CANON_MAP (lower (strip key)).

(** [feeds raw k x]: the raw row has the value [x] under a header that
    the table maps to the field [k]. *)
Definition feeds (raw : list (string * value)) (k : string) (x : value) : Prop :=
  exists key, In (key, x) raw /\ canon_field key = Some k.

(** The output dictionary as it stands after the mapping loop
    (line 129), before the fields are post-processed. *)
Definition mapped_fields (raw : list (string * value)) : dict value :=
  fold_left canon_step (lowered_items raw) (map (fun k => (k, VStr "")) OUT_KEYS).

(** The canonical row of one sheet row, as both flows compute it:
    [to_output_row] of the record of the row once [fillna("")] is done. *)
Definition canon_row (cols : list string) (row : list value) : dict value :=
  to_output_row (dict_of_items (combine cols (map blank_na row))).

(** [indexed items s index s']: starting in [s], the candidates [items]
    yield the records [index], one each and in order, and leave the
    process in [s']; a candidate whose scan raises yields its empty
    record. *)
Inductive indexed : list link -> state -> list index_record -> state -> Prop :=
| indexed_nil s : indexed [] s [] s
| indexed_scanned it r s e s1 es s2 :
    scan_candidate it s = (Ok e, s1) ->
    indexed r s1 es s2 ->
    indexed (it :: r) s (e :: es) s2
| indexed_failed it r s x s1 es s2 :
    scan_candidate it s = (Raise x, s1) ->
    indexed r s1 es s2 ->
    indexed (it :: r) s (empty_record it :: es) s2.

(** [resolves p s index entry s']: from [s], the index the flow settles on
    is [index], reached in [s'], and [entry] is its first record, in index
    order, that satisfies [p].  The index is the loaded one when it has
    such a record, and else the one rebuilt after the miss. *)
Definition resolves (p : index_record -> bool) (s : state)
    (index : list index_record) (entry : index_record) (s' : state) : Prop :=
  (load_index s = (Ok index, s') /\ find p index = Some entry)
  \/ exists index0 s0,
       load_index s = (Ok index0, s0) /\ find p index0 = None /\
       build_index_file s0 = (Ok index, s') /\ find p index = Some entry.

(** [detected_code it s v]: scanned from [s], the file of the candidate
    [it] downloads, opens, and shows [v] as the trimmed, upper-cased value
    of the code column in the first row of its first sheet ([v] is empty
    when the sheet has no code column). *)
Definition detected_code (it : link) (s : state) (v : string) : Prop :=
  exists data s' first_sheet others head_df,
    stream_download (url it) s = (Ok data, s') /\
    excel_sheet_names data (detect_engine (url it)) = Some (first_sheet :: others) /\
    read_excel data first_sheet (detect_engine (url it)) (Some 1%nat) = Some head_df /\
    first_row_value (normalize_columns head_df)
      (find_ifsc_column (columns (normalize_columns head_df))) = Some v.

(** The state once the listing page has been requested. *)
Definition after_get_page (s : state) : state :=
  State (links_ts s) (links_data s) (index_on_disk s) (GetPage :: trace s).

End Vocabulary.

(* ================================================================== *)
(** * A float implementation on decimal numerals *)
(* ================================================================== *)

(** An implementation of the [PyFloat] interface that computes, used to
    run the model on concrete sheets.  It keeps a finite float as the
    decimal numeral that denotes it, sign, integer digits and fraction
    digits, and reads and prints plain positional numerals ([12], [-3.50],
    [.5], [inf], [nan]) between the white space [float] skips; exponents
    and binary rounding are left out. *)
Module DecFloat.

Inductive t : Type :=
| Nan
| Inf (neg : bool)
| Fin (neg : bool) (ip fp : uint).

(** The text before the first dot and the text after it. *)
Fixpoint split_dot (s : string) : string * string :=
  match s with
  | EmptyString => (EmptyString, EmptyString)
  | String c r =>
      if (c =? ".")%char then (EmptyString, r)
      else let (a, b) := split_dot r in (String c a, b)
  end.

Definition split_sign (s : string) : bool * string :=
  match s with
  | String "+" r => (false, r)
  | String "-" r => (true, r)
  | _ => (false, s)
  end.

(** The white space [float] skips: TAB..CR and SPACE. *)
Definition is_float_space (c : ascii) : bool :=
  let n := nat_of_ascii c in
  ((9 <=? n) && (n <=? 13) || (n =? 32))%nat.

Fixpoint skip_left (s : string) : string :=
  match s with
  | EmptyString => EmptyString
  | String c r => if is_float_space c then skip_left r else s
  end.

Fixpoint skip_right (s : string) : string :=
  match s with
  | EmptyString => EmptyString
  | String c r =>
      match skip_right r with
      | EmptyString =>
          if is_float_space c then EmptyString else String c EmptyString
      | r' => String c r'
      end
  end.

Definition of_string (s : string) : option t :=
  let (neg, body) := split_sign (lower (skip_right (skip_left s))) in
  if (body =? "inf")%string || (body =? "infinity")%string then Some (Inf neg)
  else if (body =? "nan")%string then Some Nan
  else
    let (a, b) := split_dot body in
    if (a =? "")%string && (b =? "")%string then None
    else
      match NilEmpty.uint_of_string a, NilEmpty.uint_of_string b with
      | Some ip, Some fp => Some (Fin neg ip fp)
      | _, _ => None
      end.

Definition of_int (n : Z) : option t :=
  Some (Fin (n <? 0) (Decimal.abs (Z.to_int n)) Nil).

Fixpoint all_zeros (d : uint) : bool :=
  match d with
  | Nil => true
  | D0 r => all_zeros r
  | _ => false
  end.

Definition is_integer (f : t) : bool :=
  match f with
  | Fin _ _ fp => all_zeros fp
  | _ => false
  end.

Definition to_int (f : t) : option Z :=
  match f with
  | Fin neg ip _ => Some (if neg then - Z.of_uint ip else Z.of_uint ip)
  | _ => None
  end.

Definition isnan (f : t) : bool :=
  match f with Nan => true | _ => false end.

Definition to_bool (f : t) : bool :=
  match f with
  | Fin _ ip fp => negb (all_zeros ip && all_zeros fp)
  | _ => true
  end.

(** The fraction digits without their trailing zeros. *)
Fixpoint drop_zeros (d : uint) : uint :=
  match d with
  | Nil => Nil
  | D0 r => match drop_zeros r with Nil => Nil | r' => D0 r' end
  | D1 r => D1 (drop_zeros r)
  | D2 r => D2 (drop_zeros r)
  | D3 r => D3 (drop_zeros r)
  | D4 r => D4 (drop_zeros r)
  | D5 r => D5 (drop_zeros r)
  | D6 r => D6 (drop_zeros r)
  | D7 r => D7 (drop_zeros r)
  | D8 r => D8 (drop_zeros r)
  | D9 r => D9 (drop_zeros r)
  end.

Definition sign_str (neg : bool) : string := if neg then "-" else "".

Definition to_string (f : t) : string :=
  match f with
  | Nan => "nan"
  | Inf neg => sign_str neg ++ "inf"
  | Fin neg ip fp =>
      sign_str neg ++ NilZero.string_of_uint (unorm ip) ++ "." ++
      match drop_zeros fp with
      | Nil => "0"
      | d => NilEmpty.string_of_uint d
      end
  end.

End DecFloat.

Definition dec_float : PyFloat := {|
  float := DecFloat.t;
  float_of_string := DecFloat.of_string;
  float_of_int := DecFloat.of_int;
  float_is_integer := DecFloat.is_integer;
  int_of_float := DecFloat.to_int;
  float_isnan := DecFloat.isnan;
  float_bool := DecFloat.to_bool;
  float_str := DecFloat.to_string
|}.

(* ================================================================== *)
(** * A small world to run the service in *)
(* ================================================================== *)

(** Two files are listed.  The first downloads and holds one sheet of
    two banks' branches; the second cannot be fetched. *)
Module Demo.

#[local] Existing Instance dec_float.

Definition f (neg : bool) (ip fp : uint) : value := VFloat (DecFloat.Fin neg ip fp).

Definition sheet : frame value :=
  Frame
    [VStr " BANK "; VStr "IFSC"; VStr "Branch"; VStr "Centre";
     VStr "STD Code"; VStr "Contact"; VStr "Remarks"]
    [ [VStr "Example Bank"; VStr "exb00012345"; VStr " Main "; VStr "Pune";
       f false (D2 (D0 Nil)) (D0 Nil); VStr "abc"; VStr "n/a"];
      [VStr "Other Bank"; VStr "EXB00099999"; VNone; VStr "Agra";
       VStr "11.0"; VFloat DecFloat.Nan; VInt 7] ].

Definition head (nrows : option nat) (df : frame value) : frame value :=
  match nrows with
  | Some n => Frame (columns df) (firstn n (rows df))
  | None => df
  end.

Definition world : World := {|
  time_time := fun _ => 1000000;
  get_page := fun _ =>
    Some [("/docs/exb.xlsx", " Example   Bank "); ("/docs/gone.XLS", "");
          ("/about.html", "About")];
  urljoin := fun base href => base ++ href;
  get_stream := fun _ u =>
    if (u =? "https://www.rbi.org.in/docs/exb.xlsx")%string
    then Some [Chunk [Byte.x50; Byte.x4b]; Chunk []; Chunk [Byte.x03]]
    else None;
  excel_sheet_names := fun _ _ => Some ["Sheet1"; "Sheet2"];
  read_excel := fun _ _ _ nrows => Some (head nrows sheet);
  series_str := fun _ => "Series";
  write_file := fun _ => Written
|}.

(** The process at start: an empty link cache and no index file. *)
Definition start : state := State 0 [] None [].

Definition exb_url : string := "https://www.rbi.org.in/docs/exb.xlsx".
Definition gone_url : string := "https://www.rbi.org.in/docs/gone.XLS".

(** The candidates the listing page yields. *)
Definition listed : list link :=
  [Link "Example Bank" exb_url; Link "gone.XLS" gone_url].

(** The process once the candidates are cached. *)
Definition listed_state : state := State 1000000 listed None [GetPage].

Definition gone_record : index_record := IndexRecord "gone.XLS" gone_url "" "".

Definition exb_record : index_record :=
  IndexRecord "Example Bank" exb_url "EXAMPLE BANK" "EXB0".

(** An index on disk in which the record of the readable file comes
    second. *)
Definition stored_index : list index_record := [gone_record; exb_record].

Definition indexed_start : state := State 0 [] (Some (Stored stored_index)) [].

(** The process once the readable file has been downloaded again. *)
Definition fetched_state : state :=
  State 0 [] (Some (Stored stored_index)) [Download exb_url].

(** The second data row of the sheet, as a raw record. *)
Definition raw2 : list (string * value) :=
  [("BANK", VStr "Other Bank"); ("IFSC", VStr "EXB00099999");
   ("Branch", VNone); ("Centre", VStr "Agra"); ("STD Code", VStr "11.0");
   ("Contact", VFloat DecFloat.Nan); ("Remarks", VInt 7)].

(** The canonical rows of the two data rows. *)
Definition row1 : dict value :=
  [("BANK", VStr "Example Bank"); ("IFSC", VStr "EXB00012345");
   ("BRANCH", VStr "Main"); ("ADDRESS", VStr ""); ("CITY1", VStr "Pune");
   ("CITY2", VStr "Pune"); ("STATE", VStr ""); ("STD CODE", VInt 20);
   ("PHONE", VStr "abc")].

Definition row2 : dict value :=
  [("BANK", VStr "Other Bank"); ("IFSC", VStr "EXB00099999");
   ("BRANCH", VStr ""); ("ADDRESS", VStr ""); ("CITY1", VStr "Agra");
   ("CITY2", VStr "Agra"); ("STATE", VStr ""); ("STD CODE", VInt 11);
   ("PHONE", VStr "")].

End Demo.

(* ================================================================== *)
(** * The [/banks] endpoint (lines 186-201), and more vocabulary *)
(* ================================================================== *)

Section Banks.
Context {FL : PyFloat} {W : World}.
Local Open Scope monad_scope.

Definition NO_BANKS : string := "No banks found.".

(** [b in seen], the set [seen] kept as the list of its elements. *)
Definition in_seen (b : string) (seen : list string) : bool :=
  existsb (String.eqb b) seen.

(** The loop of [banks] (lines 194-198): [seen] and [out] grow together. *)
Fixpoint banks_loop (index : list index_record) (seen : list string)
    (out : list (dict string)) : list (dict string) :=
  match index with
  | [] => out
  | e :: r =>
      let b := upper (strip (bank e)) in
      if negb (b =? "")%string && negb (in_seen b seen)
      then banks_loop r (b :: seen) (out ++ [[("bank", b)]])
      else banks_loop r seen out
  end.

(** [banks] (lines 186-201). *)
Definition banks : M (list (dict string)) :=
  index <- load_index ;;
  match banks_loop index [] [] with
  | [] => raise (HTTPException 404 NO_BANKS)
  | out => ret out
  end.

(** The names [banks] lists for an index, given those seen before: the
    trimmed, upper-cased entity names that are not blank, each at its
    first occurrence. *)
Fixpoint fresh_names (index : list index_record) (seen : list string)
  : list string :=
  match index with
  | [] => []
  | e :: r =>
      let b := upper (strip (bank e)) in
      if negb (b =? "")%string && negb (in_seen b seen)
      then b :: fresh_names r (b :: seen)
      else fresh_names r seen
  end.

(** The bytes a stream carries: its chunks, end to end. *)
Definition payload (cs : list chunk) : bytes :=
  flat_map (fun c => match c with Chunk b => b | Broken => [] end) cs.

(** The state once the file at [u] has been requested. *)
Definition after_download (u : string) (s : state) : state :=
  State (links_ts s) (links_data s) (index_on_disk s) (Download u :: trace s).

(** The states in which the loop of the build reaches its candidates,
    one after the other: a scan leaves the request of its file behind,
    and nothing else. *)
Fixpoint scan_states (items : list link) (s : state) : list state :=
  match items with
  | [] => []
  | it :: r => s :: scan_states r (after_download (url it) s)
  end.

(** The code prefix of the record of a candidate reached in the state
    [st]: empty or four characters; the first four characters of the
    detected code value when that has four or more, and empty when it
    has fewer; empty when no code value is detected. *)
Definition prefix_rule (it : link) (st : state) (e : index_record) : Prop :=
  (ifsc_prefix e = "" \/ String.length (ifsc_prefix e) = 4%nat) /\
  (forall v, detected_code it st v ->
     ((4 <= String.length v)%nat -> ifsc_prefix e = take 4 v) /\
     ((String.length v < 4)%nat -> ifsc_prefix e = "")) /\
  (ifsc_prefix e <> "" ->
   exists v, detected_code it st v /\ (4 <= String.length v)%nat /\
             ifsc_prefix e = take 4 v).

(** A string of ASCII characters, on which [str.upper], [str.lower]
    and [str.strip] are the operations of [PyStr]. *)
Fixpoint ascii_only (s : string) : bool :=
  match s with
  | EmptyString => true
  | String c r => (nat_of_ascii c <? 128)%nat && ascii_only r
  end.

End Banks.

(** More states of the demo world. *)
Module Demo2.
Import Demo.
#[local] Existing Instance dec_float.

(** An index whose first record names the file that cannot be fetched. *)
Definition gone_named : index_record :=
  IndexRecord "gone.XLS" gone_url "GONE BANK" "GONE".

Definition named_index : list index_record :=
  [gone_named; exb_record; IndexRecord "copy" exb_url " example bank " "EXB0"].

Definition named_start : state := State 0 [] (Some (Stored named_index)) [].

(** The process once the index has been built from the start. *)
Definition built_state : state :=
  State 1000000 listed (Some (Stored [exb_record; gone_record]))
    [Download gone_url; Download exb_url; GetPage].

(** The demo world with an index file that cannot be opened for writing. *)
Definition ro_world : World := {|
  time_time := @time_time _ world;
  get_page := @get_page _ world;
  urljoin := @urljoin _ world;
  get_stream := @get_stream _ world;
  excel_sheet_names := @excel_sheet_names _ world;
  read_excel := @read_excel _ world;
  series_str := @series_str _ world;
  write_file := fun _ => NotOpened
|}.

(** The process once the build has failed to write the index. *)
Definition unwritten_state : state :=
  State 1000000 listed None [Download gone_url; Download exb_url; GetPage].

(** A sheet in which two labels are the same once trimmed, and a world
    that serves it. *)
Definition dup_sheet : frame value :=
  Frame [VStr "Bank"; VStr "IFSC"; VStr " IFSC "]
        [ [VStr "Dup Bank"; VStr "DUPB0000001"; VStr "DUPB0000001"] ].

Definition dup_url : string := "https://www.rbi.org.in/docs/dup.xlsx".

Definition dup_world : World := {|
  time_time := fun _ => 1000000;
  get_page := fun _ => Some [("/docs/dup.xlsx", "Dup Bank")];
  urljoin := fun base href => base ++ href;
  get_stream := fun _ _ => Some [Chunk [Byte.x50; Byte.x4b]];
  excel_sheet_names := fun _ _ => Some ["Sheet1"];
  read_excel := fun _ _ _ nrows => Some (head nrows dup_sheet);
  series_str := fun _ => "IFSC    DUPB0000001";
  write_file := fun _ => Written
|}.

(** An index on disk whose record has the prefix of the code in that
    sheet. *)
Definition dup_start : state :=
  State 0 [] (Some (Stored [IndexRecord "Dup Bank" dup_url "DUP BANK" "DUPB"])) [].

(** A raw row with one locality, in mixed case and with padded headers. *)
Definition raw3 : list (string * value) :=
  [(" Bank Name ", VStr " abc ltd "); ("ifsc", VStr " abcd0123456 ");
   ("CENTRE", VStr "Pune"); ("std", VInt 20)].

End Demo2.

(* ================================================================== *)
(** * Facts about the string operations *)
(* ================================================================== *)

Unset Implicit Arguments.

Module PyStrFacts.

Example strip_ex : strip "  ab c  " = "ab c". Proof. reflexivity. Qed.
Example lower_ex : lower "Bank Name" = "bank name". Proof. reflexivity. Qed.
Example upper_ex : upper "sbin0001234" = "SBIN0001234". Proof. reflexivity. Qed.
Example endswith_ex : endswith "11.0" ".0" = true. Proof. reflexivity. Qed.
Example contains_ex : contains "ifsc code" "ifsc" = true. Proof. reflexivity. Qed.

Lemma lstrip_head s :
  lstrip s = "" \/ exists c r, lstrip s = String c r /\ is_space c = false.
Proof.
  induction s as [|c r IH]; simpl.
  - now left.
  - destruct (is_space c) eqn:E; [exact IH|].
    right. now exists c, r.
Qed.

Lemma rstrip_idem s : rstrip (rstrip s) = rstrip s.
Proof.
  induction s as [|c r IH]; simpl; [reflexivity|].
  destruct (rstrip r) as [|d r'] eqn:E.
  - destruct (is_space c) eqn:Ec; simpl; [reflexivity|].
    now rewrite Ec.
  - remember (String d r') as t eqn:Et.
    simpl. rewrite IH. now subst t.
Qed.

Lemma rstrip_head c r :
  is_space c = false -> exists r', rstrip (String c r) = String c r'.
Proof.
  intros Hc. simpl. destruct (rstrip r) as [|d r'].
  - rewrite Hc. now exists "".
  - now exists (String d r').
Qed.

Lemma strip_idem s : strip (strip s) = strip s.
Proof.
  unfold strip.
  destruct (lstrip_head s) as [E | (c & r & E & Hc)]; rewrite E.
  - reflexivity.
  - destruct (rstrip_head c r Hc) as (r' & E').
    rewrite E'. cbn [lstrip]. rewrite Hc. rewrite <- E'. apply rstrip_idem.
Qed.

Lemma rstrip_empty s : rstrip s = "" <-> all_space s = true.
Proof.
  induction s as [|c r IH]; simpl; [tauto|].
  destruct (rstrip r) as [|d r'] eqn:E.
  - destruct (is_space c); simpl; [tauto|].
    split; discriminate.
  - split; [discriminate|].
    intros H. apply andb_true_iff in H as [_ H].
    apply IH in H. discriminate.
Qed.

Lemma all_space_lstrip s : all_space (lstrip s) = all_space s.
Proof.
  induction s as [|c r IH]; simpl; [reflexivity|].
  destruct (is_space c) eqn:E; simpl; [exact IH|].
  now rewrite E.
Qed.

Lemma strip_empty s : strip s = "" <-> all_space s = true.
Proof.
  unfold strip. rewrite rstrip_empty. now rewrite all_space_lstrip.
Qed.

Lemma has_char_lstrip c s : has_char c (lstrip s) = true -> has_char c s = true.
Proof.
  induction s as [|d r IH]; simpl; [easy|].
  destruct (is_space d); simpl; [|easy].
  intros H. rewrite (IH H). apply orb_true_r.
Qed.

Lemma has_char_rstrip c s : has_char c (rstrip s) = true -> has_char c s = true.
Proof.
  induction s as [|d r IH]; simpl; [easy|].
  destruct (rstrip r) as [|e r'].
  - destruct (is_space d); simpl; [discriminate|].
    rewrite orb_false_r. intros ->. reflexivity.
  - intros H. cbn [has_char] in H.
    apply orb_true_iff in H as [H | H].
    + now rewrite H.
    + rewrite (IH H). apply orb_true_r.
Qed.

Lemma has_char_strip c s : has_char c (strip s) = true -> has_char c s = true.
Proof. intros H. apply has_char_lstrip, has_char_rstrip, H. Qed.

Lemma endswith_nil p : endswith "" p = true -> p = "".
Proof.
  cbn [endswith]. rewrite orb_false_r. intros H.
  apply String.eqb_eq in H. now subst.
Qed.

Lemma endswith_cons d r p :
  endswith (String d r) p = true -> p = String d r \/ endswith r p = true.
Proof.
  cbn [endswith]. intros H. apply orb_true_iff in H as [H | H].
  - apply String.eqb_eq in H. now left.
  - now right.
Qed.

Lemma endswith_refl s : endswith s s = true.
Proof. destruct s; cbn [endswith]; now rewrite String.eqb_refl. Qed.

Lemma endswith_skip d r p : endswith r p = true -> endswith (String d r) p = true.
Proof. intros H. cbn [endswith]. rewrite H. apply orb_true_r. Qed.

Lemma endswith_has_char c s p :
  endswith s p = true -> has_char c p = true -> has_char c s = true.
Proof.
  induction s as [|d r IH]; intros H Hp.
  - apply endswith_nil in H. now subst p.
  - apply endswith_cons in H as [H | H].
    + now subst p.
    + simpl. rewrite (IH H Hp). apply orb_true_r.
Qed.

Lemma endswith_map_chars f s p :
  endswith s p = true -> endswith (map_chars f s) (map_chars f p) = true.
Proof.
  induction s as [|d r IH]; intros H.
  - apply endswith_nil in H. now subst p.
  - apply endswith_cons in H as [H | H].
    + subst p. apply endswith_refl.
    + apply (endswith_skip (f d)), IH, H.
Qed.

Lemma rstrip_no_space s : no_space s = true -> rstrip s = s.
Proof.
  induction s as [|c r IH]; simpl; [reflexivity|].
  intros H. apply andb_true_iff in H as [Hc Hr].
  rewrite (IH Hr). apply negb_true_iff in Hc. rewrite Hc.
  now destruct r.
Qed.

Lemma strip_no_space s : no_space s = true -> strip s = s.
Proof.
  intros H. unfold strip.
  destruct s as [|c r]; [reflexivity|].
  pose proof H as H'. simpl in H'. apply andb_true_iff in H' as [Hc _].
  apply negb_true_iff in Hc. cbn [lstrip]. rewrite Hc.
  now apply rstrip_no_space.
Qed.

Lemma no_space_app a b :
  no_space a = true -> no_space b = true -> no_space (a ++ b) = true.
Proof.
  induction a as [|c r IH]; simpl; [easy|].
  intros H Hb. apply andb_true_iff in H as [Hc Hr].
  now rewrite Hc, IH.
Qed.

Lemma last_char_app a b : b <> "" -> last_char (a ++ b) = last_char b.
Proof.
  intros Hb. induction a as [|c r IH]; simpl; [reflexivity|].
  rewrite <- IH. destruct (r ++ b) eqn:E; [|reflexivity].
  destruct r; simpl in E; [contradiction|discriminate].
Qed.

Lemma endswith_last_char s p c :
  endswith s p = true -> last_char p = Some c -> last_char s = Some c.
Proof.
  induction s as [|d r IH]; intros H Hp.
  - apply endswith_nil in H. now subst p.
  - apply endswith_cons in H as [H | H].
    + now subst p.
    + specialize (IH H Hp). simpl. destruct r; [discriminate|exact IH].
Qed.

Lemma take_length n s :
  (n <= String.length s)%nat -> String.length (take n s) = n.
Proof.
  unfold take. revert s. induction n as [|n IH]; intros s H.
  - now destruct s.
  - destruct s as [|c r]; simpl in *; [lia|].
    rewrite IH; [reflexivity|lia].
Qed.

End PyStrFacts.

(* ================================================================== *)
(** * The decimal floats satisfy the float laws *)
(* ================================================================== *)

Module DecFloatFacts.
Import PyStrFacts DecFloat.

Lemma digits_tail c a ip :
  NilEmpty.uint_of_string (String c a) = Some ip ->
  exists ip', NilEmpty.uint_of_string a = Some ip'.
Proof.
  simpl. destruct (NilEmpty.uint_of_string a) as [ip'|]; [|discriminate].
  intros _. now exists ip'.
Qed.

(** Text that ends in [.0] is not a run of digits. *)
Lemma dot0_not_digits s :
  endswith s ".0" = true -> NilEmpty.uint_of_string s = None.
Proof.
  induction s as [|c r IH]; intros H.
  - apply endswith_nil in H. discriminate.
  - apply endswith_cons in H as [H | H].
    + now inversion H.
    + simpl. now rewrite (IH H).
Qed.

(** In a numeral that ends in [.0] the fraction is the digit 0. *)
Lemma split_dot_dot0 body a b ip fp :
  endswith body ".0" = true -> split_dot body = (a, b) ->
  NilEmpty.uint_of_string a = Some ip -> NilEmpty.uint_of_string b = Some fp ->
  fp = D0 Nil.
Proof.
  revert a ip. induction body as [|c r IH]; intros a ip H Hs Ha Hb.
  - apply endswith_nil in H. discriminate.
  - simpl in Hs. destruct (c =? ".")%char eqn:Ec.
    + inversion Hs; subst a b; clear Hs.
      apply endswith_cons in H as [H | H].
      * inversion H; subst r. simpl in Hb. now inversion Hb.
      * rewrite (dot0_not_digits _ H) in Hb. discriminate.
    + destruct (split_dot r) as [a' b'] eqn:Er.
      inversion Hs; subst a b; clear Hs.
      apply endswith_cons in H as [H | H].
      * inversion H; subst c. discriminate.
      * destruct (digits_tail _ _ _ Ha) as [ip' Ha'].
        exact (IH a' ip' H eq_refl Ha' Hb).
Qed.

Lemma split_sign_dot0 s neg body :
  endswith s ".0" = true -> split_sign s = (neg, body) ->
  endswith body ".0" = true.
Proof.
  intros H Hs. destruct s as [|c r]; [apply endswith_nil in H; discriminate|].
  unfold split_sign in Hs.
  destruct (Ascii.eqb_spec c "+") as [->|Hp].
  - inversion Hs; subst. apply endswith_cons in H as [H|H]; [discriminate|exact H].
  - destruct (Ascii.eqb_spec c "-") as [->|Hm].
    + inversion Hs; subst. apply endswith_cons in H as [H|H]; [discriminate|exact H].
    + assert (body = String c r) as ->; [|exact H].
      destruct c as [[|] [|] [|] [|] [|] [|] [|] [|]];
        try (inversion Hs; reflexivity); exfalso; (now apply Hp) || (now apply Hm).
Qed.

Lemma skip_left_dot0 s :
  endswith s ".0" = true -> endswith (skip_left s) ".0" = true.
Proof.
  induction s as [|c r IH]; intros H; [exact H|].
  cbn [skip_left]. destruct (is_float_space c) eqn:Ec; [|exact H].
  apply endswith_cons in H as [H|H]; [|exact (IH H)].
  inversion H; subst c. discriminate.
Qed.

Lemma skip_right_dot0 s :
  endswith s ".0" = true -> endswith (skip_right s) ".0" = true.
Proof.
  induction s as [|c r IH]; intros H; [exact H|].
  apply endswith_cons in H as [H|H].
  - inversion H; subst. reflexivity.
  - specialize (IH H). cbn [skip_right].
    destruct (skip_right r) as [|d r'].
    + apply endswith_nil in IH. discriminate.
    + now apply endswith_skip.
Qed.

Lemma of_string_dot0 s f :
  endswith s ".0" = true -> of_string s = Some f ->
  is_integer f = true \/ to_int f = None.
Proof.
  intros H Hf. unfold of_string in Hf.
  apply skip_left_dot0, skip_right_dot0 in H.
  apply (endswith_map_chars lower_char) in H.
  change (map_chars lower_char) with lower in H.
  change (lower ".0") with ".0" in H.
  destruct (split_sign (lower (skip_right (skip_left s)))) as [neg body] eqn:Es.
  pose proof (split_sign_dot0 _ _ _ H Es) as Hb.
  destruct ((body =? "inf")%string || (body =? "infinity")%string).
  { inversion Hf. now right. }
  destruct (body =? "nan")%string.
  { inversion Hf. now right. }
  destruct (split_dot body) as [a b] eqn:Ed.
  destruct ((a =? "")%string && (b =? "")%string); [discriminate|].
  destruct (NilEmpty.uint_of_string a) as [ip|] eqn:Ea; [|discriminate].
  destruct (NilEmpty.uint_of_string b) as [fp|] eqn:Eb; [|discriminate].
  inversion Hf; subst f.
  rewrite (split_dot_dot0 _ _ _ _ _ Hb Ed Ea Eb). now left.
Qed.

Lemma digits_no_space d : no_space (NilEmpty.string_of_uint d) = true.
Proof. induction d; simpl; auto. Qed.

Lemma drop_zeros_all_zeros d : all_zeros d = true -> drop_zeros d = Nil.
Proof.
  induction d; simpl; try discriminate; [reflexivity|].
  intros H. now rewrite (IHd H).
Qed.

(** The printed fraction of a float with a fractional part does not end
    in the digit 0. *)
Lemma drop_zeros_last d :
  all_zeros d = false ->
  drop_zeros d <> Nil /\
  last_char (NilEmpty.string_of_uint (drop_zeros d)) <> Some "0"%char.
Proof.
  induction d as [|d IH|d IH|d IH|d IH|d IH|d IH|d IH|d IH|d IH|d IH];
    simpl; intros H; try discriminate.
  { destruct (IH H) as [Hn Hl].
    destruct (drop_zeros d) eqn:E; try contradiction; (split; [discriminate|]);
      simpl in *; exact Hl. }
  all: destruct (all_zeros d) eqn:Ez;
    [ rewrite (drop_zeros_all_zeros _ Ez); split; discriminate
    | destruct (IH eq_refl) as [Hn Hl]; split; [discriminate|];
      destruct (drop_zeros d) eqn:E; try contradiction; simpl in *; exact Hl ].
Qed.

Lemma to_string_no_space f : no_space (to_string f) = true.
Proof.
  destruct f as [|neg|neg ip fp]; [reflexivity|now destruct neg|].
  unfold to_string.
  repeat apply no_space_app; try reflexivity.
  - now destruct neg.
  - unfold NilZero.string_of_uint. destruct (unorm ip); try reflexivity;
      apply (digits_no_space (_ _)).
  - destruct (drop_zeros fp); try reflexivity; apply (digits_no_space (_ _)).
Qed.

Lemma to_string_dot0 f :
  endswith (strip (to_string f)) ".0" = true -> is_integer f = true.
Proof.
  rewrite (strip_no_space _ (to_string_no_space f)).
  destruct f as [|neg|neg ip fp]; [discriminate|now destruct neg|].
  unfold to_string, is_integer. intros H.
  destruct (all_zeros fp) eqn:Ez; [reflexivity|exfalso].
  destruct (drop_zeros_last _ Ez) as [Hn Hl].
  apply (endswith_last_char _ _ "0"%char) in H; [|reflexivity].
  destruct (drop_zeros fp) eqn:E; [contradiction|..].
  all: rewrite last_char_app in H
         by (destruct (NilZero.string_of_uint (unorm ip)); discriminate).
  all: rewrite last_char_app in H by discriminate.
  all: rewrite last_char_app in H by discriminate.
  all: exact (Hl H).
Qed.

(** The decimal floats are a model of the float laws. *)
Lemma dec_float_laws : PyFloatLaws dec_float.
Proof.
  constructor; simpl.
  - reflexivity.
  - exact of_string_dot0.
  - exact to_string_dot0.
  - intros n f H. inversion H. reflexivity.
  - intros [|neg|neg ip fp] H; try discriminate. eexists. reflexivity.
Qed.

End DecFloatFacts.

(* ================================================================== *)
(** * Facts about dictionaries *)
(* ================================================================== *)

Section DictFacts.
Variable V : Type.
Implicit Types (d acc : dict V) (k : string) (v : V) (items : list (string * V)).

Lemma dict_get_set_same d k v : dict_get (dict_set d k v) k = Some v.
Proof.
  induction d as [|[k' v'] r IH]; simpl.
  - now rewrite String.eqb_refl.
  - destruct (k' =? k)%string eqn:E; simpl; now rewrite E.
Qed.

Lemma dict_get_set_other d k k' v :
  k <> k' -> dict_get (dict_set d k v) k' = dict_get d k'.
Proof.
  intros Hk. induction d as [|[k0 v0] r IH]; simpl.
  - apply String.eqb_neq in Hk. now rewrite Hk.
  - destruct (k0 =? k)%string eqn:E; simpl.
    + apply String.eqb_eq in E. subst k0.
      apply String.eqb_neq in Hk. now rewrite Hk.
    + now rewrite IH.
Qed.

Lemma dict_keys_set_present d k v :
  In k (dict_keys d) -> dict_keys (dict_set d k v) = dict_keys d.
Proof.
  induction d as [|[k0 v0] r IH]; simpl; [easy|].
  intros H. destruct (k0 =? k)%string eqn:E; simpl; [reflexivity|].
  f_equal. apply IH. destruct H as [H|H]; [|exact H].
  apply String.eqb_neq in E. contradiction.
Qed.

Lemma in_dict_set d k v k' v' :
  In (k', v') (dict_set d k v) -> (k', v') = (k, v) \/ In (k', v') d.
Proof.
  induction d as [|[k0 v0] r IH]; simpl.
  - intros [H|[]]. left. now symmetry.
  - destruct (k0 =? k)%string eqn:E; simpl.
    + apply String.eqb_eq in E. subst k0.
      intros [H|H]; [left; now symmetry | right; now right].
    + intros [H|H]; [right; now left|].
      destruct (IH H) as [H'|H']; [now left | right; now right].
Qed.

Lemma in_dict_of_items_from items acc k v :
  In (k, v) (fold_left (fun d kv => dict_set d (fst kv) (snd kv)) items acc) ->
  In (k, v) items \/ In (k, v) acc.
Proof.
  revert acc. induction items as [|[k0 v0] r IH]; simpl; intros acc H.
  - now right.
  - destruct (IH _ H) as [H'|H']; [left; now right|].
    apply in_dict_set in H' as [H'|H']; [left; left; now symmetry | now right].
Qed.

Lemma in_dict_of_items items k v :
  In (k, v) (dict_of_items items) -> In (k, v) items.
Proof.
  intros H. apply in_dict_of_items_from in H as [H|[]]. exact H.
Qed.

(** Filtering on the keys commutes with assignment and with [dict]. *)
Lemma filter_dict_set (p : string -> bool) d k v :
  filter (fun kv => p (fst kv)) (dict_set d k v) =
  if p k then dict_set (filter (fun kv => p (fst kv)) d) k v
  else filter (fun kv => p (fst kv)) d.
Proof.
  induction d as [|[k0 v0] r IH]; simpl.
  - now destruct (p k).
  - destruct (k0 =? k)%string eqn:E; simpl.
    + apply String.eqb_eq in E. subst k0.
      destruct (p k); simpl; [now rewrite String.eqb_refl | reflexivity].
    + rewrite IH. destruct (p k0) eqn:E0, (p k) eqn:Ek; simpl;
        rewrite ?E; reflexivity.
Qed.

Lemma filter_dict_of_items_from (p : string -> bool) items acc :
  filter (fun kv => p (fst kv))
    (fold_left (fun d kv => dict_set d (fst kv) (snd kv)) items acc) =
  fold_left (fun d kv => dict_set d (fst kv) (snd kv))
    (filter (fun kv => p (fst kv)) items)
    (filter (fun kv => p (fst kv)) acc).
Proof.
  revert acc. induction items as [|[k0 v0] r IH]; simpl; intros acc.
  - reflexivity.
  - rewrite IH, filter_dict_set. simpl. now destruct (p k0).
Qed.

Lemma filter_dict_of_items (p : string -> bool) items :
  filter (fun kv => p (fst kv)) (dict_of_items items) =
  dict_of_items (filter (fun kv => p (fst kv)) items).
Proof. apply filter_dict_of_items_from. Qed.

Lemma dict_keys_set d k v k' :
  In k' (dict_keys (dict_set d k v)) <-> k' = k \/ In k' (dict_keys d).
Proof.
  induction d as [|[k0 v0] r IH]; simpl.
  - intuition.
  - destruct (k0 =? k)%string eqn:E; simpl.
    + apply String.eqb_eq in E. subst k0. intuition.
    + rewrite IH. intuition.
Qed.

Lemma dict_keys_of_items_from items acc k :
  In k (dict_keys (fold_left (fun d kv => dict_set d (fst kv) (snd kv)) items acc))
  <-> In k (map fst items) \/ In k (dict_keys acc).
Proof.
  revert acc. induction items as [|[k0 v0] r IH]; simpl; intros acc.
  - intuition.
  - rewrite IH, dict_keys_set. simpl. intuition.
Qed.

Lemma dict_keys_of_items items k :
  In k (dict_keys (dict_of_items items)) <-> In k (map fst items).
Proof.
  unfold dict_of_items. rewrite dict_keys_of_items_from. simpl. intuition.
Qed.

Lemma filter_map_fst (A : Type) (p : string -> bool) (g : A -> string * V) (l : list A) :
  filter (fun kv => p (fst kv)) (map g l) =
  map g (filter (fun a => p (fst (g a))) l).
Proof.
  induction l as [|a r IH]; simpl; [reflexivity|].
  destruct (p (fst (g a))); simpl; now rewrite IH.
Qed.

End DictFacts.

(* ================================================================== *)
(** * The coercion of number-like values *)
(* ================================================================== *)

Section CoerceFacts.
Context {FL : PyFloat}.
Hypothesis FL_ok : PyFloatLaws FL.
Import PyStrFacts.

Lemma digits_no_dot d : has_char "." (NilEmpty.string_of_uint d) = false.
Proof. induction d; simpl; auto. Qed.

Lemma str_of_int_no_dot n : has_char "." (str_of_int n) = false.
Proof.
  assert (H : forall d, has_char "." (NilZero.string_of_uint d) = false).
  { intros d. unfold NilZero.string_of_uint.
    destruct d; try reflexivity; apply (digits_no_dot (_ _)). }
  unfold str_of_int, NilZero.string_of_int.
  destruct (Z.to_int n) as [d|d]; [apply H|].
  cbn [has_char]. now rewrite H.
Qed.

Lemma no_dot_no_dot0 s : has_char "." s = false -> endswith (strip s) ".0" = false.
Proof.
  intros H. destruct (endswith (strip s) ".0") eqn:E; [|reflexivity].
  apply (endswith_has_char ".") in E; [|reflexivity].
  apply has_char_strip in E. congruence.
Qed.

(** [coerce_number_like] renders a value as [number_like] says.  Its
    second [try] can fire on a [str] only, one that [float] rejects as it
    stands and accepts once trimmed. *)
Lemma coerce_number_like_spec x : coerce_number_like x = number_like x.
Proof.
  unfold coerce_number_like, number_like.
  destruct (isna x) eqn:Ena; [reflexivity|].
  fold (integral_value x).
  destruct (integral_value x) as [n|] eqn:Ex; [reflexivity|].
  destruct (endswith (strip (py_str x)) ".0") eqn:E; [|reflexivity].
  unfold integral_value at 1. cbn [py_float].
  destruct (float_of_string (strip (py_str x))) as [f|] eqn:Ef; [|reflexivity].
  destruct (@float_of_dot0 FL FL_ok _ _ E Ef) as [Hi|Hn].
  - rewrite Hi. now destruct (int_of_float f).
  - rewrite Hn. now destruct (float_is_integer f).
Qed.

(** On a value that is no [str] the first [try] decides alone. *)
Lemma number_like_not_str x :
  (forall s, x <> VStr s) ->
  number_like x =
  if isna x then VStr ""
  else match integral_value x with
       | Some n => VInt n
       | None => VStr (strip (py_str x))
       end.
Proof.
  intros Hx. unfold number_like.
  destruct (isna x) eqn:Ena; [reflexivity|].
  destruct (integral_value x) as [n|] eqn:Ex; [reflexivity|].
  assert (Hno : endswith (strip (py_str x)) ".0" = false);
    [|now rewrite Hno].
  unfold integral_value in Ex.
  destruct x as [|b|n|f|s]; simpl in *.
  - discriminate.
  - now destruct b.
  - apply no_dot_no_dot0, str_of_int_no_dot.
  - destruct (endswith (strip (float_str f)) ".0") eqn:E; [|reflexivity].
    pose proof (@float_str_dot0 FL FL_ok _ E) as Hi. rewrite Hi in Ex.
    destruct (@int_of_integer_float FL FL_ok _ Hi) as [m Hm]. congruence.
  - now destruct (Hx s).
Qed.

(** So it does on a [str] that [float] reads the same trimmed or not. *)
Lemma number_like_plain_str s :
  float_of_string (strip s) = float_of_string s ->
  number_like (VStr s) =
  match integral_value (VStr s) with
  | Some n => VInt n
  | None => VStr (strip s)
  end.
Proof.
  intros Hs. unfold number_like. cbn [isna py_str].
  destruct (integral_value (VStr s)) as [n|] eqn:Ex; [reflexivity|].
  assert (Hx : integral_value (VStr (strip s)) = None)
    by (unfold integral_value in *; cbn [py_float] in *; now rewrite Hs).
  rewrite Hx. now destruct (endswith (strip s) ".0").
Qed.

Lemma coerce_empty : coerce_number_like (VStr "") = VStr "".
Proof.
  rewrite coerce_number_like_spec. unfold number_like, integral_value. simpl.
  now rewrite (@float_of_empty FL FL_ok).
Qed.

Lemma number_like_blank_na x : number_like (blank_na x) = number_like x.
Proof.
  unfold blank_na. destruct (isna x) eqn:E; [|reflexivity].
  rewrite <- coerce_number_like_spec, coerce_empty.
  unfold number_like. now rewrite E.
Qed.

End CoerceFacts.

(* ================================================================== *)
(** * The canonical row *)
(* ================================================================== *)

Section CanonFacts.
Context {FL : PyFloat}.

(** Every target of the table is an output key. *)
Lemma canon_target_is_out_key lk k :
  dict_get CANON_MAP lk = Some k -> In k OUT_KEYS.
Proof.
  unfold CANON_MAP. cbn [dict_get].
  repeat (destruct (_ =? lk)%string;
          [intros H; inversion H; subst k; simpl; tauto|]).
  discriminate.
Qed.

Lemma canon_step_keys out kv :
  dict_keys out = OUT_KEYS -> dict_keys (canon_step out kv) = OUT_KEYS.
Proof.
  intros H. unfold canon_step.
  destruct (dict_get CANON_MAP (fst kv)) as [k|] eqn:E; [|exact H].
  rewrite dict_keys_set_present; [exact H|].
  rewrite H. exact (canon_target_is_out_key _ _ E).
Qed.

Lemma fold_canon_step_keys l out :
  dict_keys out = OUT_KEYS -> dict_keys (fold_left canon_step l out) = OUT_KEYS.
Proof.
  revert out. induction l as [|kv r IH]; simpl; intros out H; [exact H|].
  apply IH, canon_step_keys, H.
Qed.

Lemma mapped_fields_keys raw : dict_keys (mapped_fields raw) = OUT_KEYS.
Proof. apply fold_canon_step_keys. reflexivity. Qed.

(** A dictionary with the nine output keys, spelled out. *)
Lemma out_keys_shape (d : dict value) :
  dict_keys d = OUT_KEYS ->
  d = [ ("BANK", item d "BANK"); ("IFSC", item d "IFSC");
        ("BRANCH", item d "BRANCH"); ("ADDRESS", item d "ADDRESS");
        ("CITY1", item d "CITY1"); ("CITY2", item d "CITY2");
        ("STATE", item d "STATE"); ("STD CODE", item d "STD CODE");
        ("PHONE", item d "PHONE") ].
Proof.
  unfold dict_keys, OUT_KEYS. intros H.
  do 9 (destruct d as [|[? ?] d]; [discriminate H|];
        simpl in H; injection H as -> H).
  destruct d; [|discriminate H]. reflexivity.
Qed.

Lemma to_output_row_finish raw :
  to_output_row raw = finish (item (mapped_fields raw)).
Proof.
  unfold to_output_row. fold (mapped_fields raw).
  generalize (out_keys_shape _ (mapped_fields_keys raw)).
  generalize (mapped_fields raw). intros d Hd.
  set (b := item d "BANK") in *. set (i := item d "IFSC") in *.
  set (br := item d "BRANCH") in *. set (a := item d "ADDRESS") in *.
  set (c1 := item d "CITY1") in *. set (c2 := item d "CITY2") in *.
  set (st := item d "STATE") in *. set (sc := item d "STD CODE") in *.
  set (ph := item d "PHONE") in *.
  unfold finish. fold b i br a c1 c2 st sc ph.
  clearbody b i br a c1 c2 st sc ph. subst d.
  unfold text_like.
  destruct (py_bool c1 && negb (py_bool c2)); reflexivity.
Qed.

(** The mapping loop, entry by entry: a field keeps its default unless
    an entry maps to it, and then holds the value of one such entry. *)
Lemma fold_canon_step_source l out k :
  ((forall lk v, In (lk, v) l -> dict_get CANON_MAP lk <> Some k) /\
   item (fold_left canon_step l out) k = item out k)
  \/ exists lk v, In (lk, v) l /\ dict_get CANON_MAP lk = Some k /\
                  item (fold_left canon_step l out) k = blank_na v.
Proof.
  revert out. induction l as [|[lk0 v0] r IH]; intros out.
  - left. split; [intros ? ? []|reflexivity].
  - cbn [fold_left].
    assert (Hs : canon_step out (lk0, v0) =
                 match dict_get CANON_MAP lk0 with
                 | Some k0 => dict_set out k0 (blank_na v0)
                 | None => out
                 end) by reflexivity.
    destruct (IH (canon_step out (lk0, v0))) as [[Hn He]|(lk & v & Hi & Hc & He)].
    + rewrite Hs in He at 2. clear Hs.
      destruct (dict_get CANON_MAP lk0) as [k0|] eqn:E0.
      * destruct (string_dec k0 k) as [->|Hk].
        -- right. exists lk0, v0. split; [now left|]. split; [exact E0|].
           rewrite He. unfold item. now rewrite dict_get_set_same.
        -- left. split.
           ++ intros lk v [H|H]; [|exact (Hn lk v H)].
              inversion H; subst. rewrite E0. congruence.
           ++ rewrite He. unfold item. now rewrite dict_get_set_other.
      * left. split; [|exact He].
        intros lk v [H|H]; [|exact (Hn lk v H)].
        inversion H; subst. rewrite E0. discriminate.
    + right. exists lk, v. split; [now right|]. now split.
Qed.

Lemma item_defaults k :
  In k OUT_KEYS -> item (map (fun k => (k, VStr "")) OUT_KEYS) k = VStr "".
Proof.
  simpl. intros H. repeat (destruct H as [<-|H]; [reflexivity|]). destruct H.
Qed.

(** What the mapping loop leaves in a field: the default when no header
    of the raw row feeds it, and else a value that feeds it. *)
Lemma mapped_fields_source raw k :
  In k OUT_KEYS ->
  ((forall x, ~ feeds raw k x) /\ item (mapped_fields raw) k = VStr "")
  \/ exists x, feeds raw k x /\ item (mapped_fields raw) k = blank_na x.
Proof.
  intros Hk. unfold mapped_fields.
  destruct (fold_canon_step_source (lowered_items raw)
              (map (fun k => (k, VStr "")) OUT_KEYS) k)
    as [[Hn He]|(lk & v & Hi & Hc & He)].
  - left. split; [|now rewrite He, item_defaults].
    intros x (key & Hin & Hc). unfold canon_field in Hc.
    assert (Hkey : In (lower (strip key)) (dict_keys (lowered_items raw))).
    { unfold lowered_items. rewrite dict_keys_of_items, map_map.
      apply in_map_iff. now exists (key, x). }
    unfold dict_keys in Hkey. apply in_map_iff in Hkey as ([lk v] & Hlk & Hin').
    simpl in Hlk. subst lk. exact (Hn _ _ Hin' Hc).
  - right. exists v. split; [|exact He].
    unfold lowered_items in Hi. apply in_dict_of_items in Hi.
    apply in_map_iff in Hi as ([key x] & Heq & Hin). simpl in Heq.
    inversion Heq; subst. now exists key.
Qed.

(** The mapping loop sees the table's headers only. *)
Lemma fold_canon_step_filter l out :
  fold_left canon_step l out =
  fold_left canon_step (filter (fun kv => dict_mem CANON_MAP (fst kv)) l) out.
Proof.
  revert out. induction l as [|kv r IH]; intros out; [reflexivity|].
  cbn [fold_left filter]. unfold dict_mem at 1.
  destruct (dict_get CANON_MAP (fst kv)) eqn:E.
  - cbn [fold_left]. apply IH.
  - rewrite <- IH. unfold canon_step. now rewrite E.
Qed.

Lemma mapped_fields_filter raw :
  mapped_fields raw =
  mapped_fields
    (filter (fun kv => dict_mem CANON_MAP (lower (strip (fst kv)))) raw).
Proof.
  unfold mapped_fields, lowered_items.
  rewrite fold_canon_step_filter.
  rewrite (filter_dict_of_items _ (fun k => dict_mem CANON_MAP k)).
  rewrite (filter_map_fst _ _ (fun k => dict_mem CANON_MAP k)).
  reflexivity.
Qed.

Lemma text_like_blank_na x : text_like (blank_na x) = text_like x.
Proof.
  unfold blank_na, text_like. destruct (isna x) eqn:E; [reflexivity|].
  now rewrite E.
Qed.

End CanonFacts.

(* ================================================================== *)
(** * Properties of the schema normaliser *)
(* ================================================================== *)

Section FieldFacts.
Context {FL : PyFloat}.
Hypothesis FL_ok : PyFloatLaws FL.

Lemma item_finish c k :
  In k OUT_KEYS ->
  item (finish c) k =
  if (k =? "CITY2")%string
  then text_like (if py_bool (c "CITY1") && negb (py_bool (c "CITY2"))
                  then c "CITY1" else c "CITY2")
  else if (k =? "STD CODE")%string || (k =? "PHONE")%string
       then coerce_number_like (c k)
       else if (k =? "IFSC")%string then value_upper (text_like (c k))
            else text_like (c k).
Proof.
  simpl. intros H. repeat (destruct H as [<-|H]; [reflexivity|]). destruct H.
Qed.

Lemma render_default k : In k OUT_KEYS -> render k (VStr "") = VStr "".
Proof.
  assert (Hn : number_like (VStr "") = VStr "")
    by (rewrite <- (coerce_number_like_spec FL_ok); apply (coerce_empty FL_ok)).
  simpl. intros H.
  repeat (destruct H as [<-|H]; [try reflexivity; exact Hn|]). destruct H.
Qed.

Lemma render_blank_na k x : render k (blank_na x) = render k x.
Proof.
  unfold render.
  now rewrite (number_like_blank_na FL_ok), text_like_blank_na.
Qed.

(** A field other than locality-2 renders what the mapping loop left. *)
Lemma item_to_output_row raw k :
  In k OUT_KEYS -> k <> "CITY2" ->
  item (to_output_row raw) k = render k (item (mapped_fields raw) k).
Proof.
  intros Hk Hc. rewrite to_output_row_finish, (item_finish _ _ Hk).
  apply String.eqb_neq in Hc. rewrite Hc. unfold render.
  now rewrite (coerce_number_like_spec FL_ok).
Qed.

(** Locality-2 renders its own value, or locality-1's when it has none. *)
Lemma item_to_output_row_city2 raw :
  item (to_output_row raw) "CITY2" =
  text_like (if py_bool (item (mapped_fields raw) "CITY1")
                && negb (py_bool (item (mapped_fields raw) "CITY2"))
             then item (mapped_fields raw) "CITY1"
             else item (mapped_fields raw) "CITY2").
Proof. now rewrite to_output_row_finish. Qed.

(** Every field is the default, or the rendering of a value that feeds
    it (locality-2 may be fed through locality-1). *)
Lemma field_source raw k :
  In k OUT_KEYS ->
  ((forall x, ~ feeds raw k x) /\
   (k = "CITY2" -> forall x, ~ feeds raw "CITY1" x) /\
   item (to_output_row raw) k = VStr "")
  \/ item (to_output_row raw) k = VStr ""
  \/ exists x, (feeds raw k x \/ k = "CITY2" /\ feeds raw "CITY1" x) /\
               item (to_output_row raw) k = render k x.
Proof.
  intros Hk. destruct (string_dec k "CITY2") as [->|Hc].
  - rewrite item_to_output_row_city2.
    destruct (mapped_fields_source raw "CITY1") as [[Hn1 He1]|(x1 & Hf1 & He1)];
      [simpl; tauto| |];
    (destruct (mapped_fields_source raw "CITY2") as [[Hn2 He2]|(x2 & Hf2 & He2)];
      [simpl; tauto| |]); rewrite He1, He2.
    + left. repeat split; auto.
    + right. right. exists x2. split; [now left|].
      change (py_bool (VStr "")) with false. cbn [andb].
      apply text_like_blank_na.
    + destruct (py_bool (blank_na x1) && negb (py_bool (VStr ""))).
      * right. right. exists x1. split; [right; now split|].
        apply text_like_blank_na.
      * right. now left.
    + right. right.
      destruct (py_bool (blank_na x1) && negb (py_bool (blank_na x2))).
      * exists x1. split; [right; now split|]. apply text_like_blank_na.
      * exists x2. split; [now left|]. apply text_like_blank_na.
  - rewrite (item_to_output_row raw k Hk Hc).
    destruct (mapped_fields_source raw k Hk) as [[Hn He]|(x & Hf & He)]; rewrite He.
    + left. split; [exact Hn|]. split; [intros ->; contradiction|].
      now apply render_default.
    + right. right. exists x. split; [now left|]. apply render_blank_na.
Qed.

End FieldFacts.

Section NormaliserClaims.
Context {FL : PyFloat}.
Hypothesis FL_ok : PyFloatLaws FL.

(** C1 (amended).  The area-dial-code and contact-number fields of an
    output row hold the default empty string when no header of the raw
    row feeds them, and else the rendering of a value [x] that feeds
    them: the empty string when [x] is missing; the integer itself (a
    number, not its text) when [x] parses as a float equal to its own
    truncation, or when the trimmed text of [x] ends in [.0] and parses
    as such a float; and the trimmed text of [x] in every other case. *)
Theorem number_fields_are_coerced (raw : list (string * value)) (k : string) :
  In k ["STD CODE"; "PHONE"] ->
  ((forall x, ~ feeds raw k x) /\ item (to_output_row raw) k = VStr "")
  \/ exists x,
       feeds raw k x /\
       item (to_output_row raw) k =
       if isna x then VStr ""
       else
         match integral_value x with
         | Some n => VInt n
         | None =>
             let s := strip (py_str x) in
             match (if endswith s ".0" then integral_value (VStr s)
                    else None) with
             | Some n => VInt n
             | None => VStr s
             end
         end.
Proof.
  intros Hk.
  assert (Hout : In k OUT_KEYS) by (simpl in *; tauto).
  assert (Hc : k <> "CITY2") by (destruct Hk as [<-|[<-|[]]]; discriminate).
  rewrite (item_to_output_row FL_ok raw k Hout Hc).
  destruct (mapped_fields_source raw k Hout) as [[Hn He]|(x & Hf & He)]; rewrite He.
  - left. split; [exact Hn|]. now apply render_default.
  - right. exists x. split; [exact Hf|].
    rewrite (render_blank_na FL_ok).
    destruct Hk as [<-|[<-|[]]]; reflexivity.
Qed.

(** C9.  The output row has exactly the nine fields entity name, code,
    sub-entity name, address, locality-1, locality-2, region,
    area-dial-code and contact-number, in this order; a field that no
    header of the raw row feeds (for locality-2: neither its own headers
    nor, through the locality copy, those of locality-1) is the empty
    string. *)
Theorem output_row_has_nine_fields (raw : list (string * value)) :
  dict_keys (to_output_row raw) =
    ["BANK"; "IFSC"; "BRANCH"; "ADDRESS"; "CITY1"; "CITY2"; "STATE";
     "STD CODE"; "PHONE"]
  /\ forall k, In k OUT_KEYS ->
       (forall x, ~ feeds raw k x) ->
       (k = "CITY2" -> forall x, ~ feeds raw "CITY1" x) ->
       item (to_output_row raw) k = VStr "".
Proof.
  split; [now rewrite to_output_row_finish|].
  intros k Hk Hn Hn1.
  destruct (field_source FL_ok raw k Hk) as [(_ & _ & H)|[H|(x & [Hf|[-> Hf]] & _)]];
    try exact H.
  - now destruct (Hn x).
  - now destruct (Hn1 eq_refl x).
Qed.

Lemma in_finish c k v :
  In (k, v) (finish c) -> In k OUT_KEYS /\ v = item (finish c) k.
Proof.
  unfold finish. intros H.
  repeat (destruct H as [H|H];
          [inversion H; subst; split; [simpl; tauto|reflexivity]|]).
  destruct H.
Qed.

(** C10.  A raw key whose trimmed, lower-cased form is not in the table
    contributes nothing: the output row is the one computed from the
    raw row without such keys.  And every field value of the output row
    is the empty string or the rendering of a raw value whose key the
    table maps to that field (for locality-2, possibly to locality-1). *)
Theorem unmapped_keys_contribute_nothing (raw : list (string * value)) :
  to_output_row raw =
    to_output_row
      (filter (fun kv => dict_mem CANON_MAP (lower (strip (fst kv)))) raw)
  /\ forall k v, In (k, v) (to_output_row raw) ->
       v = VStr ""
       \/ exists x, (feeds raw k x \/ k = "CITY2" /\ feeds raw "CITY1" x) /\
                    v = render k x.
Proof.
  split.
  - now rewrite !to_output_row_finish, <- mapped_fields_filter.
  - intros k v H.
    assert (H' := H). rewrite to_output_row_finish in H'.
    apply in_finish in H' as [Hk Hv].
    rewrite <- to_output_row_finish in Hv. subst v.
    destruct (field_source FL_ok raw k Hk) as [(_ & _ & H0)|[H0|H0]]; auto.
Qed.

End NormaliserClaims.

(** C8.  [find_role_column] returns the first column whose trimmed,
    lower-cased name equals the role's token, whatever columns that
    merely contain the token stand before or after it; when no column
    equals the token it returns the first column that contains it; and
    nothing when no column contains it. *)
Theorem find_role_column_two_tier (cols : list string) (r : role) :
  let token := role_token r in
  let exact c := (lower (strip c) =? token)%string in
  let fuzzy c := contains (lower (strip c)) token in
  (forall pre e post,
      cols = (pre ++ e :: post)%list -> exact e = true ->
      (forall x, In x pre -> exact x = false) ->
      find_role_column cols r = Some e)
  /\ ((forall x, In x cols -> exact x = false) ->
      (forall pre e post,
          cols = (pre ++ e :: post)%list -> fuzzy e = true ->
          (forall x, In x pre -> fuzzy x = false) ->
          find_role_column cols r = Some e)
      /\ ((forall x, In x cols -> fuzzy x = false) ->
          find_role_column cols r = None)).
Proof.
  intros token exact fuzzy.
  assert (Hdef : find_role_column cols r = find_column token cols)
    by now destruct r.
  rewrite Hdef. unfold find_column. fold exact. fold fuzzy.
  assert (Hfirst : forall (p : string -> bool) pre e post,
             p e = true -> (forall x, In x pre -> p x = false) ->
             filter p (pre ++ e :: post)%list = e :: filter p post).
  { intros p pre e post He Hpre. induction pre as [|a pre IH]; simpl.
    - now rewrite He.
    - rewrite (Hpre a (or_introl eq_refl)). apply IH.
      intros x Hx. apply Hpre. now right. }
  assert (Hnone : forall (p : string -> bool) l,
             (forall x, In x l -> p x = false) -> filter p l = []).
  { intros p l Hl. induction l as [|a l IH]; simpl; [reflexivity|].
    rewrite (Hl a (or_introl eq_refl)). apply IH.
    intros x Hx. apply Hl. now right. }
  split.
  - intros pre e post -> He Hpre. now rewrite (Hfirst exact pre e post He Hpre).
  - intros Hex. rewrite (Hnone exact cols Hex). split.
    + intros pre e post -> He Hpre. now rewrite (Hfirst fuzzy pre e post He Hpre).
    + intros Hfz. now rewrite (Hnone fuzzy cols Hfz).
Qed.

(* ================================================================== *)
(** * Properties of the link cache, the index build and the lookups *)
(* ================================================================== *)

Section ServiceFacts.
Context {FL : PyFloat} {W : World}.
Import PyStrFacts.
Local Open Scope monad_scope.

Lemma bind_ok A B (m : M A) (k : A -> M B) s a s1 :
  m s = (Ok a, s1) -> bind m k s = k a s1.
Proof. intros H. unfold bind. now rewrite H. Qed.

Lemma fetch_xls_links_state s : snd (fetch_xls_links s) = after_get_page s.
Proof.
  unfold fetch_xls_links, bind, get_state, log, lift. simpl.
  destruct (get_page (trace s)) as [anchors|]; simpl; [|reflexivity].
  now destruct (flat_map link_of_anchor anchors).
Qed.

Lemma get_cached_links_eq s :
  get_cached_links s =
  if (time_time (trace s) - links_ts s >? CACHE_TTL_SECONDS)
     || match links_data s with [] => true | _ => false end
  then
    match fetch_xls_links s with
    | (Ok items, s1) =>
        (Ok items, State (time_time (trace s)) items (index_on_disk s1) (trace s1))
    | (Raise e, s1) => (Raise e, s1)
    end
  else (Ok (links_data s), s).
Proof.
  unfold get_cached_links, bind, get_state.
  destruct ((time_time (trace s) - links_ts s >? CACHE_TTL_SECONDS)
            || match links_data s with [] => true | _ => false end).
  - destruct (fetch_xls_links s) as [[items|e] s1]; reflexivity.
  - reflexivity.
Qed.

(** C4.  [get_cached_links] requests the listing exactly when the cache
    is stale ([now - ts > TTL]) or empty.  When the request succeeds the
    entries and the time stamp are both replaced and the new entries are
    returned; when it fails the failure is raised and the cached time
    stamp and entries are as they were.  When no request is made the
    cached entries are returned and the state is untouched. *)
Theorem link_cache_refresh_policy (s : state) :
  let now := time_time (trace s) in
  let stale :=
    (now - links_ts s >? CACHE_TTL_SECONDS)
    || match links_data s with [] => true | _ => false end in
  if stale then
    match fst (fetch_xls_links s) with
    | Ok items =>
        get_cached_links s =
        (Ok items, State now items (index_on_disk s) (GetPage :: trace s))
    | Raise e =>
        get_cached_links s =
        (Raise e,
         State (links_ts s) (links_data s) (index_on_disk s) (GetPage :: trace s))
    end
  else get_cached_links s = (Ok (links_data s), s).
Proof.
  intros now stale. rewrite get_cached_links_eq. fold now. fold stale.
  destruct stale; [|reflexivity].
  pose proof (fetch_xls_links_state s) as Hs.
  destruct (fetch_xls_links s) as [[items|e] s1]; simpl in *; now subst s1.
Qed.

(** C3.  A blank query is rejected by [by_bank], and a code whose trimmed,
    upper-cased form has fewer than 11 characters (the empty one
    included) is rejected by [by_ifsc], both with the flow's [404], and
    both at once: the process state is returned as it was, so that no
    page was requested, no file downloaded, no index built or written. *)
Theorem invalid_query_rejected_at_once (q : string) (s : state) :
  (all_space q = true ->
   by_bank q s = (Raise (HTTPException 404 NO_BANK), s))
  /\ ((String.length (upper (strip q)) < 11)%nat ->
      by_ifsc q s = (Raise (HTTPException 404 NO_IFSC), s)).
Proof.
  split.
  - intros H. apply strip_empty in H. unfold by_bank. now rewrite H.
  - intros H. unfold by_ifsc, len.
    destruct (Z.ltb_spec (Z.of_nat (String.length (upper (strip q)))) 11);
      [reflexivity|lia].
Qed.

(** ** The index build *)

Lemma stream_download_state u s r s1 :
  stream_download u s = (r, s1) ->
  s1 = State (links_ts s) (links_data s) (index_on_disk s) (Download u :: trace s).
Proof.
  unfold stream_download, bind, get_state, log, lift. simpl.
  destruct (get_stream (trace s) u); simpl; intros H; now inversion H.
Qed.

Lemma lift_ok A (o : option A) s a s1 :
  lift o s = (Ok a, s1) -> o = Some a /\ s1 = s.
Proof. destruct o; simpl; unfold ret, raise; intros H; inversion H; auto. Qed.

(** What a successful scan has gone through. *)
Lemma scan_candidate_ok it s e s1 :
  scan_candidate it s = (Ok e, s1) ->
  exists data,
    stream_download (url it) s = (Ok data, s1) /\
    ((excel_sheet_names data (detect_engine (url it)) = Some [] /\
      e = empty_record it)
     \/ exists first_sheet others head_df bank_val ifsc_val,
          excel_sheet_names data (detect_engine (url it))
            = Some (first_sheet :: others) /\
          read_excel data first_sheet (detect_engine (url it)) (Some 1%nat)
            = Some head_df /\
          first_row_value (normalize_columns head_df)
            (find_bank_column (columns (normalize_columns head_df)))
            = Some bank_val /\
          first_row_value (normalize_columns head_df)
            (find_ifsc_column (columns (normalize_columns head_df)))
            = Some ifsc_val /\
          e = IndexRecord (title it) (url it) bank_val
                (if len ifsc_val >=? 4 then take 4 ifsc_val else "")).
Proof.
  unfold scan_candidate. intros H.
  unfold bind at 1 in H.
  destruct (stream_download (url it) s) as [[data|x] s0] eqn:Ed; [|discriminate].
  exists data.
  unfold bind at 1 in H.
  destruct (lift (excel_sheet_names data (detect_engine (url it))) s0)
    as [[names|x] s0'] eqn:En; [|discriminate].
  apply lift_ok in En as [En ->].
  destruct names as [|first_sheet others].
  - inversion H; subst. split; [reflexivity|]. now left.
  - unfold bind at 1 in H.
    destruct (lift (read_excel data first_sheet (detect_engine (url it)) (Some 1%nat)) s0)
      as [[head_df|x] s0'] eqn:Er; [|discriminate].
    apply lift_ok in Er as [Er ->].
    unfold bind at 1 in H.
    destruct (lift (first_row_value (normalize_columns head_df)
                      (find_bank_column (columns (normalize_columns head_df)))) s0)
      as [[bank_val|x] s0'] eqn:Eb; [|discriminate].
    apply lift_ok in Eb as [Eb ->].
    unfold bind at 1 in H.
    destruct (lift (first_row_value (normalize_columns head_df)
                      (find_ifsc_column (columns (normalize_columns head_df)))) s0)
      as [[ifsc_val|x] s0'] eqn:Ei; [|discriminate].
    apply lift_ok in Ei as [Ei ->].
    inversion H; subst. split; [reflexivity|]. right.
    now exists first_sheet, others, head_df, bank_val, ifsc_val.
Qed.

Lemma index_candidate_total it s :
  exists e s1,
    index_candidate it s = (Ok e, s1) /\
    (scan_candidate it s = (Ok e, s1)
     \/ exists x, scan_candidate it s = (Raise x, s1) /\ e = empty_record it).
Proof.
  unfold index_candidate, try_except.
  destruct (scan_candidate it s) as [[e|x] s1] eqn:E.
  - exists e, s1. split; [reflexivity|now left].
  - exists (empty_record it), s1. split; [reflexivity|]. right. now exists x.
Qed.

Lemma index_candidates_indexed items acc s :
  exists recs s1,
    index_candidates items acc s = (Ok (acc ++ recs)%list, s1) /\
    indexed items s recs s1.
Proof.
  revert acc s. induction items as [|it r IH]; intros acc s.
  - exists [], s. rewrite app_nil_r. split; [reflexivity|constructor].
  - destruct (index_candidate_total it s) as (e & s0 & He & Hs).
    destruct (IH (acc ++ [e])%list s0) as (recs & s1 & Hr & Hi).
    exists (e :: recs), s1.
    simpl. rewrite (bind_ok _ _ _ _ _ _ _ He), Hr, <- app_assoc.
    split; [reflexivity|].
    destruct Hs as [Hs|(x & Hs & ->)].
    + eapply indexed_scanned; eauto.
    + eapply indexed_failed; eauto.
Qed.

Lemma indexed_meta items s recs s1 :
  indexed items s recs s1 ->
  length recs = length items /\
  map rec_title recs = map title items /\
  map rec_url recs = map url items.
Proof.
  induction 1 as [s|it r s e s1 es s2 Hs _ (IH1 & IH2 & IH3)
                   |it r s x s1 es s2 Hs _ (IH1 & IH2 & IH3)]; simpl.
  - auto.
  - apply scan_candidate_ok in Hs as (data & _ & [[_ ->]|(? & ? & ? & ? & ? & _ & _ & _ & _ & ->)]);
      simpl; rewrite IH1, IH2, IH3; auto.
  - rewrite IH1, IH2, IH3; auto.
Qed.

Lemma build_index_file_eq s items s1 :
  get_cached_links s = (Ok items, s1) ->
  build_index_file s =
  match index_candidates items [] s1 with
  | (Ok index, s2) =>
      match write_file (trace s2) with
      | Written =>
          (Ok index,
           State (links_ts s2) (links_data s2) (Some (Stored index)) (trace s2))
      | NotOpened => (Raise OtherError, s2)
      | Cut =>
          (Raise OtherError,
           State (links_ts s2) (links_data s2) (Some Unreadable) (trace s2))
      end
  | (Raise e, s2) => (Raise e, s2)
  end.
Proof.
  intros H. unfold build_index_file.
  rewrite (bind_ok _ _ _ _ _ _ _ H). unfold bind at 1.
  destruct (index_candidates items [] s1) as [[index|e] s2]; [|reflexivity].
  unfold write_index, bind, get_state.
  now destruct (write_file (trace s2)).
Qed.

(** C2 (amended).  Whatever the candidate list, the loop of the build
    goes through: it yields an index with one record per candidate, in
    the order of the list and with the candidate's title and URL.  The
    record of a candidate is the one its scan yields, or, when anything
    in its download, parse or sheet access raises, the record with empty
    entity name and empty code prefix ([indexed]).  The build returns
    this index once it has written it to the index file; when that write
    raises, which no handler catches, the build raises and returns no
    index. *)
Theorem index_build_is_total (s : state) (items : list link) (s1 : state) :
  get_cached_links s = (Ok items, s1) ->
  exists index s2,
    index_candidates items [] s1 = (Ok index, s2)
    /\ indexed items s1 index s2
    /\ length index = length items
    /\ map rec_title index = map title items
    /\ map rec_url index = map url items
    /\ build_index_file s =
       match write_file (trace s2) with
       | Written =>
           (Ok index,
            State (links_ts s2) (links_data s2) (Some (Stored index)) (trace s2))
       | NotOpened => (Raise OtherError, s2)
       | Cut =>
           (Raise OtherError,
            State (links_ts s2) (links_data s2) (Some Unreadable) (trace s2))
       end.
Proof.
  intros H. destruct (index_candidates_indexed items [] s1) as (index & s2 & Hr & Hi).
  exists index, s2. rewrite (build_index_file_eq _ _ _ H), Hr.
  split; [reflexivity|]. split; [exact Hi|].
  destruct (indexed_meta _ _ _ _ Hi) as (H1 & H2 & H3). now repeat split.
Qed.

Lemma positions_from_in c cols : forall i,
  In c cols -> positions_from i c cols <> [].
Proof.
  induction cols as [|c' r IH]; intros i []; cbn [positions_from].
  - subst c'. rewrite String.eqb_refl. discriminate.
  - destruct (c' =? c)%string; [discriminate|now apply IH].
Qed.

Lemma find_column_in token cols c :
  find_column token cols = Some c -> In c cols.
Proof.
  unfold find_column.
  destruct (filter (fun c => (lower (strip c) =? token)%string) cols)
    as [|c0 l0] eqn:E1.
  - destruct (filter (fun c => contains (lower (strip c)) token) cols)
      as [|c1 l1] eqn:E2; [discriminate|].
    intros [= <-].
    assert (Hin : In c1 (filter (fun c => contains (lower (strip c)) token) cols))
      by (rewrite E2; now left).
    now apply filter_In in Hin.
  - intros [= <-].
    assert (Hin : In c0 (filter (fun c => (lower (strip c) =? token)%string) cols))
      by (rewrite E1; now left).
    now apply filter_In in Hin.
Qed.

(** The first row of a sheet that has one yields a value under every
    label that role matching finds. *)
Lemma first_row_value_some (df : frame string) token :
  rows df <> [] ->
  exists v, first_row_value df (find_column token (columns df)) = Some v.
Proof.
  intros Hr. unfold first_row_value.
  destruct (find_column token (columns df)) as [c|] eqn:Ec; [|now exists ""].
  destruct (c =? "")%string; [now exists ""|].
  unfold first_row_str. destruct (rows df) as [|row r]; [contradiction|].
  pose proof (positions_from_in c (columns df) 0%nat (find_column_in _ _ _ Ec)) as Hp.
  fold (positions c (columns df)) in Hp.
  destruct (positions c (columns df)) as [|i [|j l]]; [contradiction|..];
    cbn; eexists; reflexivity.
Qed.

(** A sheet with no row yields the empty value, or none at all. *)
Lemma first_row_value_no_row (df : frame string) col v :
  rows df = [] -> first_row_value df col = Some v -> v = "".
Proof.
  intros Hr. unfold first_row_value.
  destruct col as [c|]; [|now intros [= <-]].
  destruct (c =? "")%string; [now intros [= <-]|].
  unfold first_row_str. rewrite Hr. discriminate.
Qed.

(** What the scan makes of a detected code value. *)
Lemma scan_candidate_detected it s v r s1 :
  detected_code it s v -> scan_candidate it s = (r, s1) ->
  match r with
  | Ok e => ifsc_prefix e = if len v >=? 4 then take 4 v else ""
  | Raise _ => v = ""
  end.
Proof.
  intros (data & s' & sh & others & df & Hd & Hn & Hr & Hv).
  unfold scan_candidate. rewrite (bind_ok _ _ _ _ _ _ _ Hd), Hn.
  cbn [lift]. unfold bind at 1, ret at 1. rewrite Hr.
  cbn [lift]. unfold bind at 1, ret at 1.
  destruct (first_row_value (normalize_columns df)
              (find_bank_column (columns (normalize_columns df)))) as [bv|] eqn:Eb.
  - cbn [lift]. unfold bind at 1, ret at 1. rewrite Hv.
    cbn [lift]. unfold bind at 1, ret at 1. unfold ret.
    intros H. inversion H. reflexivity.
  - cbn [lift]. unfold bind at 1, raise at 1. intros H. inversion H.
    destruct (rows (normalize_columns df)) as [|row rs] eqn:Er.
    + exact (first_row_value_no_row _ _ _ Er Hv).
    + destruct (first_row_value_some (normalize_columns df) "bank") as [x Hx].
      * rewrite Er. discriminate.
      * unfold find_bank_column in Eb. congruence.
Qed.

(** The code prefix of the record of one candidate. *)
Lemma index_candidate_prefix it s :
  (forall e s1, scan_candidate it s = (Ok e, s1) -> prefix_rule it s e)
  /\ (forall x s1, scan_candidate it s = (Raise x, s1) ->
      prefix_rule it s (empty_record it)).
Proof.
  split.
  - intros e s1 H. pose proof H as H0.
    apply scan_candidate_ok in H0
      as (data & Hd & [[_ ->]|(sh & others & df & bv & iv & Hn & Hr & _ & Hi & ->)]).
    + split; [now left|]. split; [|intros Hne; now destruct Hne].
      intros v Hv. pose proof (scan_candidate_detected _ _ _ _ _ Hv H) as Hp.
      cbn [ifsc_prefix empty_record] in *. unfold len in Hp.
      split; intros Hl.
      * destruct (Z.geb_spec (Z.of_nat (String.length v)) 4); [exact Hp|lia].
      * reflexivity.
    + assert (Hdet : detected_code it s iv) by now exists data, s1, sh, others, df.
      cbn [ifsc_prefix]. unfold len.
      split; [|split].
      * destruct (Z.geb_spec (Z.of_nat (String.length iv)) 4);
          [right; apply take_length; lia|now left].
      * intros v Hv. pose proof (scan_candidate_detected _ _ _ _ _ Hv H) as Hp.
        cbn [ifsc_prefix] in Hp. unfold len in Hp. rewrite Hp. split; intros Hl.
        -- destruct (Z.geb_spec (Z.of_nat (String.length v)) 4); [reflexivity|lia].
        -- destruct (Z.geb_spec (Z.of_nat (String.length v)) 4); [lia|reflexivity].
      * intros Hne. exists iv. split; [exact Hdet|].
        destruct (Z.geb_spec (Z.of_nat (String.length iv)) 4);
          [split; [lia|reflexivity]|now destruct Hne].
  - intros x s1 H. split; [now left|]. split; [|intros Hne; now destruct Hne].
    intros v Hv. pose proof (scan_candidate_detected _ _ _ _ _ Hv H) as Hp.
    cbn in Hp. subst v. cbn [empty_record ifsc_prefix]. split; [cbn; lia|reflexivity].
Qed.

Lemma scan_candidate_state it s r s1 :
  scan_candidate it s = (r, s1) -> s1 = after_download (url it) s.
Proof.
  unfold scan_candidate. unfold bind at 1.
  destruct (stream_download (url it) s) as [[data|x] s0] eqn:Ed;
    apply stream_download_state in Ed; fold (after_download (url it) s) in Ed;
    subst s0; [|intros H; now inversion H].
  unfold bind at 1.
  destruct (excel_sheet_names data (detect_engine (url it))) as [[|sh l]|];
    cbn [lift]; unfold ret, raise; try (intros H; now inversion H).
  unfold bind at 1.
  destruct (read_excel data sh (detect_engine (url it)) (Some 1%nat)) as [df|];
    cbn [lift]; unfold ret, raise; [|intros H; now inversion H].
  unfold bind at 1.
  destruct (first_row_value (normalize_columns df)
              (find_bank_column (columns (normalize_columns df)))) as [bv|];
    cbn [lift]; unfold ret, raise; [|intros H; now inversion H].
  unfold bind at 1.
  destruct (first_row_value (normalize_columns df)
              (find_ifsc_column (columns (normalize_columns df)))) as [iv|];
    cbn [lift]; unfold ret, raise; intros H; now inversion H.
Qed.

Lemma indexed_prefix_rule items s recs s1 :
  indexed items s recs s1 ->
  Forall2 (fun c e => rec_url e = url (fst c) /\ prefix_rule (fst c) (snd c) e)
    (combine items (scan_states items s)) recs.
Proof.
  induction 1 as [s|it r s e s1 es s2 Hs _ IH|it r s x s1 es s2 Hs _ IH];
    cbn [scan_states combine].
  - constructor.
  - pose proof (scan_candidate_state _ _ _ _ Hs) as ->.
    constructor; [|exact IH]. cbn [fst snd]. split.
    + apply scan_candidate_ok in Hs
        as (data & _ & [[_ ->]|(? & ? & ? & ? & ? & _ & _ & _ & _ & ->)]);
        reflexivity.
    + exact (proj1 (index_candidate_prefix it s) _ _ Hs).
  - pose proof (scan_candidate_state _ _ _ _ Hs) as ->.
    constructor; [|exact IH]. cbn [fst snd]. split; [reflexivity|].
    exact (proj2 (index_candidate_prefix it s) _ _ Hs).
Qed.

(** C7.  Every record of the index that the loop of the build yields,
    and so of every index a build returns, has a code prefix that is
    empty or exactly four characters long.  The prefix is decided by the
    code value detected in the file of the record's candidate (the
    trimmed, upper-cased value of the code column in the first row of
    the first sheet, as the file stands when the loop reaches the
    candidate): the first four characters of a value of four characters
    or more, and empty for a shorter one; a non-empty prefix is always
    the first four characters of such a detected value. *)
Theorem code_prefix_is_empty_or_four_chars
    (s : state) (items : list link) (s1 : state) :
  get_cached_links s = (Ok items, s1) ->
  exists index s2,
    index_candidates items [] s1 = (Ok index, s2) /\
    (forall index' s', build_index_file s = (Ok index', s') -> index' = index) /\
    Forall2 (fun c e =>
               rec_url e = url (fst c) /\
               (ifsc_prefix e = "" \/ String.length (ifsc_prefix e) = 4%nat) /\
               (forall v, detected_code (fst c) (snd c) v ->
                  ((4 <= String.length v)%nat -> ifsc_prefix e = take 4 v) /\
                  ((String.length v < 4)%nat -> ifsc_prefix e = "")) /\
               (ifsc_prefix e <> "" ->
                exists v, detected_code (fst c) (snd c) v /\
                          (4 <= String.length v)%nat /\
                          ifsc_prefix e = take 4 v))
      (combine items (scan_states items s1)) index.
Proof.
  intros H. destruct (index_candidates_indexed items [] s1) as (index & s2 & Hr & Hi).
  exists index, s2. split; [exact Hr|]. split.
  - intros index' s' Hb. rewrite (build_index_file_eq _ _ _ H), Hr in Hb.
    destruct (write_file (trace s2)); now inversion Hb.
  - exact (indexed_prefix_rule _ _ _ _ Hi).
Qed.

(** ** The lookup flows *)

Lemma find_filter (p : index_record -> bool) l :
  match find p l with
  | Some e => exists rest, filter p l = e :: rest
  | None => filter p l = []
  end.
Proof.
  induction l as [|a r IH]; simpl; [reflexivity|].
  destruct (p a); [now exists (filter p r)|exact IH].
Qed.

Lemma select_candidates_resolved p detail s index entry s1 :
  resolves p s index entry s1 ->
  exists rest, select_candidates p detail s = (Ok (entry :: rest), s1).
Proof.
  unfold select_candidates.
  intros [[Hl Hf]|(index0 & s0 & Hl & Hf0 & Hb & Hf)];
    rewrite (bind_ok _ _ _ _ _ _ _ Hl).
  - pose proof (find_filter p index) as H. rewrite Hf in H.
    destruct H as [rest ->]. now exists rest.
  - pose proof (find_filter p index0) as H0. rewrite Hf0 in H0. rewrite H0.
    rewrite (bind_ok _ _ _ _ _ _ _ Hb).
    pose proof (find_filter p index) as H. rewrite Hf in H.
    destruct H as [rest ->]. now exists rest.
Qed.

Lemma canon_rows_of_records (df : frame string) :
  map to_output_row (to_records (fillna df)) =
  map (canon_row (columns df)) (rows df).
Proof.
  unfold to_records, fillna, canon_row. cbn [columns rows].
  now rewrite !map_map.
Qed.

Lemma frame_where_rows (df : frame string) (f : value -> bool) i :
  rows (frame_where df (map f (map (fun row => cell row i) (rows df)))) =
  filter (fun row => f (cell row i)) (rows df).
Proof.
  unfold frame_where. cbn [rows].
  induction (rows df) as [|row r IH]; simpl; [reflexivity|].
  destruct (f (cell row i)); simpl; now rewrite IH.
Qed.

Lemma mask_any (f : value -> bool) i (l : list (list value)) :
  existsb (fun b => b) (map f (map (fun row => cell row i) l)) =
  match filter (fun row => f (cell row i)) l with [] => false | _ => true end.
Proof.
  induction l as [|row r IH]; simpl; [reflexivity|].
  destruct (f (cell row i)); simpl; [reflexivity|exact IH].
Qed.

(** The column that role matching finds has a name. *)
Lemma found_code_column_named cols col :
  find_ifsc_column cols = Some col -> (col =? "")%string = false.
Proof.
  intros Ecol. apply String.eqb_neq. intros ->.
  unfold find_ifsc_column, find_column in Ecol.
  destruct (filter (fun c => (lower (strip c) =? "ifsc")%string) cols)
    as [|c0 l0] eqn:E1.
  - destruct (filter (fun c => contains (lower (strip c)) "ifsc") cols)
      as [|c1 l1] eqn:E2; [discriminate|].
    inversion Ecol; subst c1.
    assert (Hin : In "" (filter (fun c => contains (lower (strip c)) "ifsc") cols))
      by (rewrite E2; now left).
    apply filter_In in Hin as [_ Hin]. discriminate.
  - inversion Ecol; subst c0.
    assert (Hin : In "" (filter (fun c => (lower (strip c) =? "ifsc")%string) cols))
      by (rewrite E1; now left).
    apply filter_In in Hin as [_ Hin]. discriminate.
Qed.

(** The candidates a flow goes on with are never none. *)
Lemma select_candidates_nonempty p detail s cands s1 :
  select_candidates p detail s = (Ok cands, s1) -> cands <> [].
Proof.
  unfold select_candidates, bind. intros H.
  destruct (load_index s) as [[index|x] s0]; [|discriminate].
  destruct (filter p index) as [|e r] eqn:E.
  - destruct (build_index_file s0) as [[index'|x] s0']; [|discriminate].
    destruct (filter p index') as [|e r] eqn:E'; [discriminate|].
    inversion H. discriminate.
  - inversion H. discriminate.
Qed.

(** C6.  Once the first record of the index in use whose entity name
    contains the upper-cased query is resolved and its first sheet is
    read, [by_bank] returns the canonical row of every data row of that
    sheet, in order and with no filtering by the query. *)
Theorem by_bank_returns_every_row
    (q : string) (s : state) (index : list index_record)
    (entry : index_record) (s1 : state) (df : frame value) (s2 : state) :
  let query := upper (strip q) in
  query <> "" ->
  resolves (fun e => contains (upper (bank e)) query) s index entry s1 ->
  open_first_sheet entry NO_BANK s1 = (Ok df, s2) ->
  by_bank q s =
    (Ok (map (canon_row (columns (normalize_columns df))) (rows df)), s2).
Proof.
  intros query Hq Hres Hopen. unfold by_bank. fold query.
  apply String.eqb_neq in Hq. rewrite Hq.
  destruct (select_candidates_resolved _ NO_BANK _ _ _ _ Hres) as [rest Hsel].
  rewrite (bind_ok _ _ _ _ _ _ _ Hsel).
  unfold try_except. rewrite (bind_ok _ _ _ _ _ _ _ Hopen).
  unfold ret. now rewrite canon_rows_of_records.
Qed.

(** The by-code lookup on a sheet in which one column bears the label
    that role matching finds.  Once the flow has resolved a record and
    read its first sheet: when role matching finds no code column the
    flow fails with its [404]; when it finds one, borne by the single
    column [i], the flow fails with its [404] if no row has an
    upper-cased value in that column equal to the query code, and
    otherwise returns the canonical rows of exactly the rows that have,
    duplicates included. *)
Theorem by_ifsc_returns_exact_rows
    (q : string) (s : state) (index : list index_record)
    (entry : index_record) (s1 : state) (df : frame value) (s2 : state) :
  let code := upper (strip q) in
  let ndf := normalize_columns df in
  (11 <= String.length code)%nat ->
  resolves (fun e => (ifsc_prefix e =? take 4 code)%string) s index entry s1 ->
  open_first_sheet entry NO_IFSC s1 = (Ok df, s2) ->
  match find_role_column (columns ndf) Code with
  | None => by_ifsc q s = (Raise (HTTPException 404 NO_IFSC), s2)
  | Some col =>
      forall i, positions col (columns ndf) = [i] ->
        by_ifsc q s =
        (match filter (fun row => (upper (py_str (cell row i)) =? code)%string)
                 (rows ndf) with
         | [] => Raise (HTTPException 404 NO_IFSC)
         | hits => Ok (map (canon_row (columns ndf)) hits)
         end, s2)
  end.
Proof.
  intros code ndf Hlen Hres Hopen. unfold by_ifsc. fold code.
  assert (Hlt : (len code <? 11) = false)
    by (unfold len; apply Z.ltb_ge; lia).
  rewrite Hlt.
  destruct (select_candidates_resolved _ NO_IFSC _ _ _ _ Hres) as [rest Hsel].
  rewrite (bind_ok _ _ _ _ _ _ _ Hsel).
  unfold try_except. rewrite (bind_ok _ _ _ _ _ _ _ Hopen). fold ndf.
  cbn [find_role_column].
  destruct (find_ifsc_column (columns ndf)) as [col|] eqn:Ecol; [|reflexivity].
  intros i Hi.
  pose proof (found_code_column_named _ _ Ecol) as Hne.
  rewrite Hne. unfold series. rewrite Hi. cbn [lift].
  unfold bind at 1. unfold ret at 1.
  rewrite (mask_any (fun v => (upper (py_str v) =? code)%string) i (rows ndf)).
  destruct (filter (fun row => (upper (py_str (cell row i)) =? code)%string) (rows ndf))
    as [|h hs] eqn:Ef; [reflexivity|].
  cbn [negb]. unfold ret. rewrite canon_rows_of_records.
  cbn [columns frame_where]. 
  change (rows {| columns := columns ndf;
                  rows := map snd (filter fst (combine
                     (map (fun v => (upper (py_str v) =? code)%string)
                        (map (fun row => cell row i) (rows ndf))) (rows ndf))) |})
    with (rows (frame_where ndf (map (fun v => (upper (py_str v) =? code)%string)
                        (map (fun row => cell row i) (rows ndf))))).
  now rewrite frame_where_rows, Ef.
Qed.

(** When the label that role matching finds is borne by several columns
    of the sheet, line 284 raises, and the flow fails with its [404]
    like on any other exception. *)
Lemma by_ifsc_ambiguous_code_column
    (q : string) (s : state) (index : list index_record)
    (entry : index_record) (s1 : state) (df : frame value) (s2 : state)
    (col : string) :
  (11 <= String.length (upper (strip q)))%nat ->
  resolves (fun e => (ifsc_prefix e =? take 4 (upper (strip q)))%string)
    s index entry s1 ->
  open_first_sheet entry NO_IFSC s1 = (Ok df, s2) ->
  find_ifsc_column (columns (normalize_columns df)) = Some col ->
  (2 <= length (positions col (columns (normalize_columns df))))%nat ->
  by_ifsc q s = (Raise (HTTPException 404 NO_IFSC), s2).
Proof.
  intros Hlen Hres Hopen Ecol Hamb. unfold by_ifsc.
  assert (Hlt : (len (upper (strip q)) <? 11) = false)
    by (unfold len; apply Z.ltb_ge; lia).
  rewrite Hlt.
  destruct (select_candidates_resolved _ NO_IFSC _ _ _ _ Hres) as [rest Hsel].
  rewrite (bind_ok _ _ _ _ _ _ _ Hsel).
  unfold try_except. rewrite (bind_ok _ _ _ _ _ _ _ Hopen).
  rewrite Ecol, (found_code_column_named _ _ Ecol). unfold series.
  destruct (positions col (columns (normalize_columns df))) as [|i [|j l]];
    simpl in Hamb; try lia; reflexivity.
Qed.

End ServiceFacts.

(* ================================================================== *)
(** * The properties at work on the demo world *)
(* ================================================================== *)

Module DemoFacts.
Import Demo.
#[local] Existing Instance dec_float.
#[local] Existing Instance Demo.world.

(** The design's examples of coercion, on the program: the text [11.0]
    and the float [14.0] become the integers 11 and 14, which are not the
    strings ["11"] and ["14"]. *)
Lemma number_field_is_int_not_text :
  item (to_output_row [("STD Code", VStr "11.0");
                       ("Phone", f false (D1 (D4 Nil)) (D0 Nil))]) "STD CODE"
    = VInt 11
  /\ item (to_output_row [("STD Code", VStr "11.0");
                          ("Phone", f false (D1 (D4 Nil)) (D0 Nil))]) "PHONE"
    = VInt 14
  /\ coerce_number_like (VStr "11.0") <> VStr "11"
  /\ coerce_number_like (f false (D1 (D4 Nil)) (D0 Nil)) <> VStr "14".
Proof.
  split; [vm_compute; reflexivity|].
  split; [vm_compute; reflexivity|].
  split; vm_compute; discriminate.
Qed.

Example coerce_passes_text : coerce_number_like (VStr " abc ") = VStr "abc".
Proof. vm_compute. reflexivity. Qed.

Example coerce_keeps_fraction :
  coerce_number_like (f false (D1 (D4 Nil)) (D5 Nil)) = VStr "14.5".
Proof. vm_compute. reflexivity. Qed.

Lemma number_fields_are_coerced_witness :
  In "STD CODE" ["STD CODE"; "PHONE"]
  /\ (((forall x, ~ feeds raw2 "STD CODE" x)
       /\ item (to_output_row raw2) "STD CODE" = VStr "")
      \/ exists x,
           feeds raw2 "STD CODE" x /\
           item (to_output_row raw2) "STD CODE" =
           if isna x then VStr ""
           else
             match integral_value x with
             | Some n => VInt n
             | None =>
                 let s := strip (py_str x) in
                 match (if endswith s ".0" then integral_value (VStr s)
                        else None) with
                 | Some n => VInt n
                 | None => VStr s
                 end
             end).
Proof.
  assert (H : In "STD CODE" ["STD CODE"; "PHONE"]) by (simpl; tauto).
  exact (conj H (number_fields_are_coerced DecFloatFacts.dec_float_laws
                   raw2 "STD CODE" H)).
Defined.

(** A text padded with the separator FS is no float literal as it
    stands: trimmed, it is coerced when it ends in [.0], and kept as text
    when it does not. *)
Example coerce_after_trimming :
  float_of_string (String (ascii_of_nat 28) "11.0") = None
  /\ coerce_number_like (VStr (String (ascii_of_nat 28) "11.0")) = VInt 11
  /\ coerce_number_like (VStr (String (ascii_of_nat 28) "11")) = VStr "11"
  /\ coerce_number_like (VStr " 11") = VInt 11.
Proof. repeat split; vm_compute; reflexivity. Qed.

Lemma output_row_has_nine_fields_witness :
  dict_keys (to_output_row raw2) =
    ["BANK"; "IFSC"; "BRANCH"; "ADDRESS"; "CITY1"; "CITY2"; "STATE";
     "STD CODE"; "PHONE"]
  /\ forall k, In k OUT_KEYS ->
       (forall x, ~ feeds raw2 k x) ->
       (k = "CITY2" -> forall x, ~ feeds raw2 "CITY1" x) ->
       item (to_output_row raw2) k = VStr "".
Proof. exact (output_row_has_nine_fields DecFloatFacts.dec_float_laws raw2). Defined.

Example output_row_of_raw2 : to_output_row raw2 = row2.
Proof. vm_compute. reflexivity. Qed.

Lemma unmapped_keys_contribute_nothing_witness :
  to_output_row raw2 =
    to_output_row
      (filter (fun kv => dict_mem CANON_MAP (lower (strip (fst kv)))) raw2)
  /\ forall k v, In (k, v) (to_output_row raw2) ->
       v = VStr ""
       \/ exists x, (feeds raw2 k x \/ k = "CITY2" /\ feeds raw2 "CITY1" x) /\
                    v = render k x.
Proof. exact (unmapped_keys_contribute_nothing DecFloatFacts.dec_float_laws raw2). Defined.

Example remarks_are_dropped :
  filter (fun kv => dict_mem CANON_MAP (lower (strip (fst kv)))) raw2 =
  [("BANK", VStr "Other Bank"); ("IFSC", VStr "EXB00099999");
   ("Branch", VNone); ("Centre", VStr "Agra"); ("STD Code", VStr "11.0");
   ("Contact", VFloat DecFloat.Nan)].
Proof. vm_compute. reflexivity. Qed.

(** An exact match wins over a substring match that stands before it. *)
Lemma find_role_column_two_tier_witness :
  find_role_column ["Bank Branch"; " BANK "; "bank"] Entity = Some " BANK "
  /\ find_role_column ["Sr"; "IFSC Code"; "Ifsc2"] Code = Some "IFSC Code"
  /\ find_role_column ["Sr"; "Name"] Code = None.
Proof.
  split; [|split].
  - apply (proj1 (find_role_column_two_tier ["Bank Branch"; " BANK "; "bank"] Entity)
             ["Bank Branch"] " BANK " ["bank"]); [reflexivity..|].
    intros x [<-|[]]. reflexivity.
  - apply (proj1 (proj2 (find_role_column_two_tier ["Sr"; "IFSC Code"; "Ifsc2"] Code)
                    ltac:(intros x [<-|[<-|[<-|[]]]]; reflexivity))
             ["Sr"] "IFSC Code" ["Ifsc2"]); [reflexivity..|].
    intros x [<-|[]]. reflexivity.
  - apply (proj2 (find_role_column_two_tier ["Sr"; "Name"] Code)
             ltac:(intros x [<-|[<-|[]]]; reflexivity)).
    intros x [<-|[<-|[]]]; reflexivity.
Defined.

(** The cache is empty at start: the listing is requested, and cached. *)
Lemma link_cache_refresh_policy_witness :
  get_cached_links start = (Ok listed, listed_state).
Proof.
  pose proof (link_cache_refresh_policy start) as H.
  vm_compute in H |- *. exact H.
Defined.

(** A second call within the TTL answers from the cache. *)
Example cached_links_reused :
  get_cached_links listed_state = (Ok listed, listed_state).
Proof. vm_compute. reflexivity. Qed.

Lemma invalid_query_rejected_at_once_witness :
  by_bank "  " start = (Raise (HTTPException 404 NO_BANK), start)
  /\ by_ifsc "SHORT" start = (Raise (HTTPException 404 NO_IFSC), start).
Proof.
  split.
  - apply (proj1 (invalid_query_rejected_at_once "  " start)).
    vm_compute. reflexivity.
  - apply (proj2 (invalid_query_rejected_at_once "SHORT" start)).
    apply Nat.ltb_lt. vm_compute. reflexivity.
Defined.

Lemma index_build_is_total_witness :
  get_cached_links start = (Ok listed, listed_state)
  /\ exists index s2,
       index_candidates listed [] listed_state = (Ok index, s2)
       /\ indexed listed listed_state index s2
       /\ length index = length listed
       /\ map rec_title index = map title listed
       /\ map rec_url index = map url listed
       /\ build_index_file start =
          match write_file (trace s2) with
          | Written =>
              (Ok index,
               State (links_ts s2) (links_data s2) (Some (Stored index)) (trace s2))
          | NotOpened => (Raise OtherError, s2)
          | Cut =>
              (Raise OtherError,
               State (links_ts s2) (links_data s2) (Some Unreadable) (trace s2))
          end.
Proof.
  assert (H : get_cached_links start = (Ok listed, listed_state))
    by (vm_compute; reflexivity).
  exact (conj H (index_build_is_total start listed listed_state H)).
Defined.

(** Where the index file cannot be opened for writing, the build of the
    two listed candidates scans both and then raises: it produces no
    index, and leaves no index file. *)
Lemma build_fails_when_index_cannot_be_written :
  @get_cached_links _ Demo2.ro_world start = (Ok listed, listed_state)
  /\ @index_candidates _ Demo2.ro_world listed [] listed_state
     = (Ok [exb_record; gone_record], Demo2.unwritten_state)
  /\ @build_index_file _ Demo2.ro_world start
     = (Raise OtherError, Demo2.unwritten_state)
  /\ index_on_disk Demo2.unwritten_state = None.
Proof. repeat split; vm_compute; reflexivity. Qed.

(** The file that cannot be fetched still has its record. *)
Example build_on_demo_world :
  fst (build_index_file start) = Ok [exb_record; gone_record].
Proof. vm_compute. reflexivity. Qed.

(** The code value of the readable file is detected when the loop
    reaches it. *)
Example code_of_exb_detected :
  detected_code (Link "Example Bank" exb_url) listed_state "EXB00012345".
Proof.
  exists [Byte.x50; Byte.x4b; Byte.x03],
         (State 1000000 listed None [Download exb_url; GetPage]),
         "Sheet1", ["Sheet2"], (head (Some 1%nat) sheet).
  repeat split; vm_compute; reflexivity.
Qed.

(** The record of the readable file gets the first four characters of
    the code detected in it. *)
Lemma code_prefix_is_empty_or_four_chars_witness :
  get_cached_links start = (Ok listed, listed_state)
  /\ exists index s2,
       index_candidates listed [] listed_state = (Ok index, s2) /\
       exists e rest, index = e :: rest /\ ifsc_prefix e = "EXB0".
Proof.
  assert (H : get_cached_links start = (Ok listed, listed_state))
    by (vm_compute; reflexivity).
  split; [exact H|].
  destruct (code_prefix_is_empty_or_four_chars start listed listed_state H)
    as (index & s2 & Hr & _ & HF).
  exists index, s2. split; [exact Hr|].
  unfold listed in HF. cbn [scan_states combine] in HF.
  destruct index as [|e rest]; [inversion HF|].
  exists e, rest. split; [reflexivity|].
  assert (He : forall v,
             detected_code (Link "Example Bank" exb_url) listed_state v ->
             ((4 <= String.length v)%nat -> ifsc_prefix e = take 4 v) /\
             ((String.length v < 4)%nat -> ifsc_prefix e = ""))
    by (inversion HF as [|c e0 cs rest0 Hc Hrest]; exact (proj1 (proj2 (proj2 Hc)))).
  apply (proj1 (He "EXB00012345" code_of_exb_detected)).
  apply Nat.leb_le. vm_compute. reflexivity.
Defined.

Lemma resolves_exb_by_name :
  resolves (fun e => contains (upper (bank e)) "EXAMPLE")
    indexed_start stored_index exb_record indexed_start.
Proof. left. split; vm_compute; reflexivity. Qed.

Lemma resolves_exb_by_prefix :
  resolves (fun e => (ifsc_prefix e =? "EXB0")%string)
    indexed_start stored_index exb_record indexed_start.
Proof. left. split; vm_compute; reflexivity. Qed.

(** The query names the first bank of the sheet only; the row of the
    other bank is returned as well. *)
Lemma by_bank_returns_every_row_witness :
  by_bank "example" indexed_start = (Ok [row1; row2], fetched_state).
Proof.
  assert (Hq : upper (strip "example") <> "") by (vm_compute; discriminate).
  assert (Ho : open_first_sheet exb_record NO_BANK indexed_start
               = (Ok sheet, fetched_state)) by (vm_compute; reflexivity).
  pose proof (by_bank_returns_every_row "example" indexed_start stored_index
                exb_record indexed_start sheet fetched_state Hq
                resolves_exb_by_name Ho) as H.
  vm_compute in H |- *. exact H.
Defined.

Lemma by_ifsc_returns_exact_rows_witness :
  by_ifsc "exb00099999" indexed_start = (Ok [row2], fetched_state).
Proof.
  assert (Hl : (11 <= String.length (upper (strip "exb00099999")))%nat)
    by (apply Nat.leb_le; vm_compute; reflexivity).
  assert (Ho : open_first_sheet exb_record NO_IFSC indexed_start
               = (Ok sheet, fetched_state)) by (vm_compute; reflexivity).
  pose proof (by_ifsc_returns_exact_rows "exb00099999" indexed_start
                stored_index exb_record indexed_start sheet fetched_state Hl
                resolves_exb_by_prefix Ho) as H.
  assert (Hc : find_role_column (columns (normalize_columns sheet)) Code
               = Some "IFSC") by (vm_compute; reflexivity).
  rewrite Hc in H.
  assert (Hp : positions "IFSC" (columns (normalize_columns sheet)) = [1%nat])
    by (vm_compute; reflexivity).
  specialize (H 1%nat Hp).
  vm_compute in H |- *. exact H.
Defined.

(** Eleven characters with the right prefix and no row of that code. *)
Example by_ifsc_no_such_code :
  by_ifsc "EXB0001234X" indexed_start =
  (Raise (HTTPException 404 NO_IFSC), fetched_state).
Proof. vm_compute. reflexivity. Qed.

End DemoFacts.

(* ================================================================== *)
(** * More facts about the string operations *)
(* ================================================================== *)

Module CaseFacts.
Import PyStrFacts.

Lemma is_space_upper_char c : is_space (upper_char c) = is_space c.
Proof. destruct c as [[|] [|] [|] [|] [|] [|] [|] [|]]; reflexivity. Qed.

Lemma upper_char_idem c : upper_char (upper_char c) = upper_char c.
Proof. destruct c as [[|] [|] [|] [|] [|] [|] [|] [|]]; reflexivity. Qed.

Lemma lower_upper_char c : lower_char (upper_char c) = lower_char c.
Proof. destruct c as [[|] [|] [|] [|] [|] [|] [|] [|]]; reflexivity. Qed.

Lemma map_chars_map_chars f g s :
  map_chars f (map_chars g s) = map_chars (fun c => f (g c)) s.
Proof. induction s as [|c r IH]; simpl; [reflexivity|now rewrite IH]. Qed.

Lemma map_chars_ext f g s :
  (forall c, f c = g c) -> map_chars f s = map_chars g s.
Proof. intros H. induction s as [|c r IH]; simpl; [reflexivity|now rewrite H, IH]. Qed.

Lemma upper_idem s : upper (upper s) = upper s.
Proof.
  unfold upper. rewrite map_chars_map_chars.
  apply map_chars_ext, upper_char_idem.
Qed.

Lemma lower_upper s : lower (upper s) = lower s.
Proof.
  unfold lower, upper. rewrite map_chars_map_chars.
  apply map_chars_ext, lower_upper_char.
Qed.

(** Trimming commutes with a case mapping, which moves no white space. *)
Lemma lstrip_map_chars f s :
  (forall c, is_space (f c) = is_space c) ->
  lstrip (map_chars f s) = map_chars f (lstrip s).
Proof.
  intros Hf. induction s as [|c r IH]; simpl; [reflexivity|].
  rewrite Hf. now destruct (is_space c).
Qed.

Lemma rstrip_map_chars f s :
  (forall c, is_space (f c) = is_space c) ->
  rstrip (map_chars f s) = map_chars f (rstrip s).
Proof.
  intros Hf. induction s as [|c r IH]; simpl; [reflexivity|].
  rewrite IH, Hf. destruct (rstrip r); simpl; [now destruct (is_space c)|reflexivity].
Qed.

Lemma strip_map_chars f s :
  (forall c, is_space (f c) = is_space c) ->
  strip (map_chars f s) = map_chars f (strip s).
Proof.
  intros Hf. unfold strip.
  now rewrite lstrip_map_chars, rstrip_map_chars.
Qed.

Lemma strip_upper s : strip (upper s) = upper (strip s).
Proof. apply strip_map_chars, is_space_upper_char. Qed.

Lemma prefix_refl s : String.prefix s s = true.
Proof.
  induction s as [|c r IH]; simpl; [reflexivity|].
  destruct (ascii_dec c c); [exact IH|contradiction].
Qed.

Lemma contains_refl s : contains s s = true.
Proof. destruct s; cbn [contains]; now rewrite prefix_refl. Qed.

End CaseFacts.

(* ================================================================== *)
(** * More properties of the schema normaliser *)
(* ================================================================== *)

Section PaddingFacts.
Import PyStrFacts.

Lemma lstrip_app_space p s : all_space p = true -> lstrip (p ++ s) = lstrip s.
Proof.
  induction p as [|c r IH]; simpl; [reflexivity|].
  intros H. apply andb_true_iff in H as [Hc Hr]. rewrite Hc. now apply IH.
Qed.

Lemma rstrip_app_space s p : all_space p = true -> rstrip (s ++ p) = rstrip s.
Proof.
  intros Hp. induction s as [|c r IH]; simpl.
  - now apply rstrip_empty.
  - now rewrite IH.
Qed.

Lemma lstrip_app s p :
  lstrip s <> "" -> lstrip (s ++ p) = lstrip s ++ p.
Proof.
  induction s as [|c r IH]; simpl; [congruence|].
  destruct (is_space c); [exact IH|reflexivity].
Qed.

Lemma lstrip_all_space s : all_space s = true -> lstrip s = "".
Proof.
  induction s as [|c r IH]; simpl; [reflexivity|].
  intros H. apply andb_true_iff in H as [Hc Hr]. rewrite Hc. now apply IH.
Qed.

Lemma all_space_app a b :
  all_space a = true -> all_space b = true -> all_space (a ++ b) = true.
Proof.
  induction a as [|c r IH]; simpl; [easy|].
  intros H Hb. apply andb_true_iff in H as [Hc Hr]. now rewrite Hc, IH.
Qed.

(** White space around a string is trimmed away with its own. *)
Lemma strip_padded p1 s p2 :
  all_space p1 = true -> all_space p2 = true ->
  strip (p1 ++ s ++ p2) = strip s.
Proof.
  intros H1 H2. unfold strip. rewrite (lstrip_app_space _ _ H1).
  destruct (string_dec (lstrip s) "") as [E|E].
  - rewrite E. assert (Hs : all_space s = true).
    { rewrite <- all_space_lstrip, E. reflexivity. }
    now rewrite (lstrip_all_space _ (all_space_app _ _ Hs H2)).
  - now rewrite (lstrip_app _ p2 E), rstrip_app_space.
Qed.

End PaddingFacts.

Section DictOrderFacts.
Variable V : Type.

Lemma dict_set_fresh (d : dict V) k v :
  ~ In k (dict_keys d) -> dict_set d k v = (d ++ [(k, v)])%list.
Proof.
  induction d as [|[k' v'] r IH]; cbn; [reflexivity|].
  intros H. destruct (String.eqb_spec k' k) as [->|_]; [tauto|].
  rewrite IH; [reflexivity|tauto].
Qed.

Lemma dict_of_items_from_nodup (l : list (string * V)) : forall acc,
  NoDup (dict_keys acc ++ map fst l) ->
  fold_left (fun d kv => dict_set d (fst kv) (snd kv)) l acc = (acc ++ l)%list.
Proof.
  induction l as [|[k v] r IH]; intros acc H; cbn [fold_left fst snd].
  - now rewrite app_nil_r.
  - cbn [map fst] in H.
    assert (Hk : ~ In k (dict_keys acc)).
    { apply NoDup_remove_2 in H. intros Hin. apply H, in_or_app. now left. }
    rewrite (dict_set_fresh _ _ _ Hk), IH.
    + now rewrite <- app_assoc.
    + unfold dict_keys in *. rewrite map_app, <- app_assoc. exact H.
Qed.

(** Items with distinct keys make the dictionary that lists them. *)
Lemma dict_of_items_nodup (l : list (string * V)) :
  NoDup (map fst l) -> dict_of_items l = l.
Proof. intros H. unfold dict_of_items. now rewrite dict_of_items_from_nodup. Qed.

End DictOrderFacts.

Section NormaliserExtras.
Context {FL : PyFloat}.
Import PyStrFacts CaseFacts.

Lemma text_like_trimmed (v : value) :
  exists s, text_like v = VStr s /\ strip s = s.
Proof.
  unfold text_like. destruct (isna v).
  - now exists "".
  - exists (strip (py_str v)). split; [reflexivity|apply strip_idem].
Qed.

Lemma coerce_number_like_shape (x : value) :
  (exists s, coerce_number_like x = VStr s /\ strip s = s)
  \/ exists n, coerce_number_like x = VInt n.
Proof.
  assert (Hs : forall s, exists t, @VStr float (strip s) = VStr t /\ strip t = t)
    by (intros s; exists (strip s); split; [reflexivity|apply strip_idem]).
  unfold coerce_number_like. destruct (isna x); [left; now exists ""|].
  destruct (match py_float x with
            | Some f => if float_is_integer f then int_of_float f else None
            | None => None
            end) as [n|]; [right; now exists n|].
  destruct (endswith (strip (py_str x)) ".0"); [|left; apply Hs].
  destruct (float_of_string (strip (py_str x))) as [f|]; [|left; apply Hs].
  destruct (int_of_float f) as [n|]; [right; now exists n|left; apply Hs].
Qed.

(** X1.  Every value of an output row is a [str] with no white space
    around it, or an [int]: whatever the cells held, no float, no missing
    value and no bool comes out.  An [int] occurs in the area-dial-code
    and contact-number fields only, and the code field is in upper
    case. *)
Theorem output_values_are_text_or_int
    (raw : list (string * value)) (k : string) (v : value) :
  In (k, v) (to_output_row raw) ->
  In k OUT_KEYS /\
  ((exists s, v = VStr s /\ strip s = s /\ (k = "IFSC" -> upper s = s))
   \/ exists n, v = VInt n /\ (k = "STD CODE" \/ k = "PHONE")).
Proof.
  rewrite to_output_row_finish.
  set (c := item (mapped_fields raw)).
  assert (Hup : forall v0, exists s,
             value_upper (text_like v0) = VStr s /\ strip s = s /\
             ("IFSC" = "IFSC" -> upper s = s)).
  { intros v0. destruct (text_like_trimmed v0) as (s & -> & Hs).
    exists (upper s). split; [reflexivity|].
    split; [now rewrite strip_upper, Hs|intros _; apply upper_idem]. }
  assert (Hplain : forall v0 k', k' <> "IFSC" -> exists s,
             text_like v0 = VStr s /\ strip s = s /\ (k' = "IFSC" -> upper s = s)).
  { intros v0 k' Hne. destruct (text_like_trimmed v0) as (s & -> & Hs).
    exists s. repeat split; [exact Hs|]. intros ->. contradiction. }
  assert (Hnum : forall x k', k' = "STD CODE" \/ k' = "PHONE" ->
             (exists s, coerce_number_like x = VStr s /\ strip s = s /\
                        (k' = "IFSC" -> upper s = s))
             \/ exists n, coerce_number_like x = VInt n /\
                          (k' = "STD CODE" \/ k' = "PHONE")).
  { intros x k' Hk'. destruct (coerce_number_like_shape x) as [(s & -> & Hs)|(n & ->)].
    - left. exists s. repeat split; [exact Hs|].
      intros ->. destruct Hk'; discriminate.
    - right. now exists n. }
  unfold finish. intros H.
  repeat (destruct H as [H|H];
          [inversion H; subst k v; clear H;
           split; [unfold OUT_KEYS; simpl; tauto|];
           first [ left; apply Hplain; discriminate
                 | left; apply Hup
                 | apply Hnum; tauto ]|]).
  destruct H.
Qed.

(** X2.  For raw headers of ASCII characters, the output row does not
    depend on the case of the headers nor on white space around them:
    the headers in upper case and padded with white space give the same
    row.  (Outside ASCII [str.upper] and [str.lower] do not undo each
    other, and the property fails.) *)
Theorem headers_case_and_padding_ignored
    (raw : list (string * value)) (p1 p2 : string) :
  Forall (fun kv => ascii_only (fst kv) = true) raw ->
  all_space p1 = true -> all_space p2 = true ->
  to_output_row (map (fun kv => (p1 ++ upper (fst kv) ++ p2, snd kv)) raw)
  = to_output_row raw.
Proof.
  intros _ H1 H2. unfold to_output_row.
  assert (Hl : lowered_items
                 (map (fun kv => (p1 ++ upper (fst kv) ++ p2, snd kv)) raw)
               = lowered_items raw).
  { unfold lowered_items. rewrite map_map. f_equal.
    apply map_ext. intros [k v]. cbn [fst snd].
    now rewrite (strip_padded _ _ _ H1 H2), strip_upper, lower_upper. }
  now rewrite Hl.
Qed.

Section WithLaws.
Hypothesis FL_ok : PyFloatLaws FL.

(** X3.  When the headers of a raw row that the table maps to a field
    (locality-2 apart) all carry the same value, the field holds that
    value as rendered for the field: the mapping loses nothing and
    mixes nothing in. *)
Theorem field_of_single_value
    (raw : list (string * value)) (k : string) (x : value) :
  In k OUT_KEYS -> k <> "CITY2" ->
  feeds raw k x -> (forall y, feeds raw k y -> y = x) ->
  item (to_output_row raw) k = render k x.
Proof.
  intros Hk Hc Hx Huniq.
  rewrite (item_to_output_row FL_ok raw k Hk Hc).
  destruct (mapped_fields_source raw k Hk) as [[Hn _]|(y & Hy & ->)].
  - now destruct (Hn x).
  - rewrite (render_blank_na FL_ok). now rewrite (Huniq y Hy).
Qed.

(** X4.  Among the headers that the table maps to one field
    (locality-2 apart), the one that stands last in the row wins: in a
    row whose headers are distinct once trimmed and lower-cased, the
    field holds the rendering of the value under the last such header. *)
Theorem last_alias_wins
    (raw1 : list (string * value)) (key : string) (x : value)
    (raw2 : list (string * value)) (k : string) :
  NoDup (map (fun kv => lower (strip (fst kv))) (raw1 ++ (key, x) :: raw2)) ->
  k <> "CITY2" ->
  canon_field key = Some k ->
  (forall key' y, In (key', y) raw2 -> canon_field key' <> Some k) ->
  item (to_output_row (raw1 ++ (key, x) :: raw2)) k = render k x.
Proof.
  intros Hnd Hc Hkey Hlast.
  assert (Hk : In k OUT_KEYS) by exact (canon_target_is_out_key _ _ Hkey).
  rewrite (item_to_output_row FL_ok _ k Hk Hc).
  transitivity (render k (blank_na x)); [|apply (render_blank_na FL_ok)].
  f_equal. unfold mapped_fields, lowered_items.
  rewrite dict_of_items_nodup; [|now rewrite map_map].
  rewrite map_app, fold_left_app. cbn [map fold_left fst snd].
  set (out1 := fold_left canon_step (map _ raw1) _).
  destruct (fold_canon_step_source
              (map (fun kv => (lower (strip (fst kv)), snd kv)) raw2)
              (canon_step out1 (lower (strip key), x)) k)
    as [[_ He]|(lk & y & Hin & Hlk & _)].
  - rewrite He. unfold canon_step. cbn [fst snd].
    unfold canon_field in Hkey. rewrite Hkey.
    unfold item. now rewrite dict_get_set_same.
  - apply in_map_iff in Hin as ([key' y'] & Heq & Hin). cbn in Heq.
    inversion Heq; subst. now destruct (Hlast key' y Hin).
Qed.

End WithLaws.

(** X5.  The locality copy: when no header feeds locality-2 and every
    value that feeds locality-1 is text or missing, the two locality
    fields of the output row are equal. *)
Theorem city2_copies_city1 (raw : list (string * value)) :
  (forall x, ~ feeds raw "CITY2" x) ->
  (forall x, feeds raw "CITY1" x -> isna x = true \/ exists s, x = VStr s) ->
  item (to_output_row raw) "CITY2" = item (to_output_row raw) "CITY1".
Proof.
  intros Hn2 Hstr. rewrite !to_output_row_finish. cbn.
  assert (H2 : item (mapped_fields raw) "CITY2" = VStr "").
  { destruct (mapped_fields_source raw "CITY2") as [[_ H]|(x & Hx & _)];
      [simpl; tauto|exact H|now destruct (Hn2 x)]. }
  rewrite H2.
  assert (H1 : exists s, item (mapped_fields raw) "CITY1" = VStr s).
  { destruct (mapped_fields_source raw "CITY1") as [[_ H]|(x & Hx & H)];
      [simpl; tauto|now exists ""|].
    rewrite H. unfold blank_na.
    destruct (Hstr x Hx) as [Hna|[s ->]].
    - rewrite Hna. now exists "".
    - cbn. now exists s. }
  destruct H1 as [s ->]. cbn.
  now destruct (s =? "")%string eqn:E; [apply String.eqb_eq in E; subst|].
Qed.

End NormaliserExtras.

(** X6.  Role matching is sound and complete: the column it returns is
    one of the columns and contains the role's token, and it returns
    nothing exactly when no column contains the token. *)
Theorem find_role_column_sound_complete (cols : list string) (r : role) :
  (forall c, find_role_column cols r = Some c ->
     In c cols /\ contains (lower (strip c)) (role_token r) = true)
  /\ (find_role_column cols r = None <->
      forall c, In c cols -> contains (lower (strip c)) (role_token r) = false).
Proof.
  assert (Hdef : find_role_column cols r = find_column (role_token r) cols)
    by now destruct r.
  rewrite Hdef. unfold find_column.
  set (token := role_token r).
  destruct (filter (fun c => (lower (strip c) =? token)%string) cols)
    as [|e l] eqn:E1.
  - destruct (filter (fun c => contains (lower (strip c)) token) cols)
      as [|e l] eqn:E2.
    + split; [discriminate|]. split; [|reflexivity]. intros _ c Hc.
      destruct (contains (lower (strip c)) token) eqn:Ec; [|reflexivity].
      assert (Hin : In c (filter (fun c => contains (lower (strip c)) token) cols))
        by (apply filter_In; now split).
      rewrite E2 in Hin. destruct Hin.
    + assert (Hin : In e (filter (fun c => contains (lower (strip c)) token) cols))
        by (rewrite E2; now left).
      apply filter_In in Hin as [Hin He].
      split; [intros c [= <-]; now split|].
      split; [discriminate|]. intros H. rewrite (H e Hin) in He. discriminate.
  - assert (Hin : In e (filter (fun c => (lower (strip c) =? token)%string) cols))
      by (rewrite E1; now left).
    apply filter_In in Hin as [Hin He]. apply String.eqb_eq in He.
    assert (Hc : contains (lower (strip e)) token = true)
      by (rewrite He; apply CaseFacts.contains_refl).
    split; [intros c [= <-]; now split|].
    split; [discriminate|]. intros H. rewrite (H e Hin) in Hc. discriminate.
Qed.

(* ================================================================== *)
(** * More properties of the download, the cache and the index *)
(* ================================================================== *)

Section ServiceExtras.
Context {FL : PyFloat} {W : World}.
Local Open Scope monad_scope.

(** ** The bounded download *)

Lemma payload_cons_chunk b cs : payload (Chunk b :: cs) = (b ++ payload cs)%list.
Proof. reflexivity. Qed.

Lemma read_chunks_ok cs : forall buf total data,
  read_chunks cs buf total = Ok data ->
  total = Z.of_nat (length buf) -> total <= MAX_DOWNLOAD_BYTES ->
  data = (buf ++ payload cs)%list /\
  Z.of_nat (length data) <= MAX_DOWNLOAD_BYTES /\ ~ In Broken cs.
Proof.
  induction cs as [|c r IH]; intros buf total data H Ht Hle.
  - cbn in H. inversion H; subst. rewrite app_nil_r. repeat split; auto.
  - destruct c as [b|]; [|discriminate].
    cbn [read_chunks] in H. rewrite payload_cons_chunk.
    destruct b as [|x b].
    + destruct (IH _ _ _ H Ht Hle) as (Hd & Hl & Hb).
      repeat split; auto. intros [Hc|Hc]; [discriminate|contradiction].
    + destruct (Z.gtb_spec (total + Z.of_nat (length (x :: b))) MAX_DOWNLOAD_BYTES);
        [discriminate|].
      assert (Hlen : total + Z.of_nat (length (x :: b))
                     = Z.of_nat (length (buf ++ x :: b)%list))
        by (rewrite length_app; lia).
      destruct (IH _ _ _ H Hlen ltac:(lia)) as (Hd & Hl & Hb).
      rewrite <- app_assoc in Hd. repeat split; auto.
      intros [Hc|Hc]; [discriminate|contradiction].
Qed.

Lemma read_chunks_complete cs : forall buf total,
  ~ In Broken cs -> total = Z.of_nat (length buf) ->
  total + Z.of_nat (length (payload cs)) <= MAX_DOWNLOAD_BYTES ->
  read_chunks cs buf total = Ok (buf ++ payload cs)%list.
Proof.
  induction cs as [|c r IH]; intros buf total Hb Ht Hle.
  - cbn. now rewrite app_nil_r.
  - destruct c as [b|]; [|destruct Hb; now left].
    assert (Hr : ~ In Broken r) by (intros Hc; apply Hb; now right).
    rewrite payload_cons_chunk in *. rewrite length_app in Hle.
    cbn [read_chunks]. destruct b as [|x b].
    + apply IH; auto.
    + destruct (Z.gtb_spec (total + Z.of_nat (length (x :: b))) MAX_DOWNLOAD_BYTES);
        [lia|].
      rewrite (IH (buf ++ x :: b)%list (total + Z.of_nat (length (x :: b)))); auto.
      * now rewrite <- app_assoc.
      * rewrite length_app. lia.
      * lia.
Qed.

Lemma read_chunks_raise cs : forall buf total e,
  read_chunks cs buf total = Raise e -> total <= MAX_DOWNLOAD_BYTES ->
  (e = HTTPException 413 "File too large." /\
   exists pre c post,
     cs = (pre ++ Chunk c :: post)%list /\ ~ In Broken pre /\
     total + Z.of_nat (length (payload pre)) <= MAX_DOWNLOAD_BYTES /\
     MAX_DOWNLOAD_BYTES
       < total + Z.of_nat (length (payload pre)) + Z.of_nat (length c))
  \/ (e = OtherError /\
      exists pre post,
        cs = (pre ++ Broken :: post)%list /\ ~ In Broken pre /\
        total + Z.of_nat (length (payload pre)) <= MAX_DOWNLOAD_BYTES).
Proof.
  induction cs as [|c r IH]; intros buf total e H Hle.
  - discriminate.
  - destruct c as [b|].
    + cbn [read_chunks] in H.
      assert (Hstep : forall buf' total',
                read_chunks r buf' total' = Raise e ->
                total' = total + Z.of_nat (length b) ->
                total' <= MAX_DOWNLOAD_BYTES ->
                (e = HTTPException 413 "File too large." /\
                 exists pre c post,
                   Chunk b :: r = (pre ++ Chunk c :: post)%list /\ ~ In Broken pre /\
                   total + Z.of_nat (length (payload pre)) <= MAX_DOWNLOAD_BYTES /\
                   MAX_DOWNLOAD_BYTES
                     < total + Z.of_nat (length (payload pre)) + Z.of_nat (length c))
                \/ (e = OtherError /\
                    exists pre post,
                      Chunk b :: r = (pre ++ Broken :: post)%list /\ ~ In Broken pre /\
                      total + Z.of_nat (length (payload pre)) <= MAX_DOWNLOAD_BYTES)).
      { intros buf' total' Hr -> Hle'.
        destruct (IH _ _ _ Hr Hle')
          as [(He & pre & c & post & -> & Hb & H1 & H2)
             |(He & pre & post & -> & Hb & H1)].
        - left. split; [exact He|]. exists (Chunk b :: pre), c, post.
          rewrite payload_cons_chunk, length_app.
          split; [reflexivity|]. split; [|lia].
          intros [Hc|Hc]; [discriminate|contradiction].
        - right. split; [exact He|]. exists (Chunk b :: pre), post.
          rewrite payload_cons_chunk, length_app.
          split; [reflexivity|]. split; [|lia].
          intros [Hc|Hc]; [discriminate|contradiction]. }
      destruct b as [|x b].
      * apply (Hstep _ _ H); [cbn; lia|exact Hle].
      * destruct (Z.gtb_spec (total + Z.of_nat (length (x :: b))) MAX_DOWNLOAD_BYTES).
        -- inversion H. left. split; [reflexivity|].
           exists [], (x :: b), r. cbn [app payload flat_map length] in *.
           split; [reflexivity|]. split; [intros []|]. lia.
        -- apply (Hstep _ _ H); [reflexivity|lia].
    + inversion H. right. split; [reflexivity|]. exists [], r.
      cbn [app payload flat_map length]. split; [reflexivity|].
      split; [intros []|lia].
Qed.

Lemma stream_download_eq u s :
  stream_download u s =
  match get_stream (trace s) u with
  | Some cs => (read_chunks cs [] 0, after_download u s)
  | None => (Raise OtherError, after_download u s)
  end.
Proof.
  unfold stream_download, bind, get_state, log, lift. cbn.
  now destruct (get_stream (trace s) u).
Qed.

Lemma stream_download_raise_kind u s e s' :
  stream_download u s = (Raise e, s') ->
  e = HTTPException 413 "File too large." \/ e = OtherError.
Proof.
  rewrite stream_download_eq.
  destruct (get_stream (trace s) u) as [cs|]; intros H; inversion H as [[Hr Hs]].
  - destruct (read_chunks_raise cs [] 0 e Hr) as [[He _]|[He _]]; auto.
    unfold MAX_DOWNLOAD_BYTES. lia.
  - now right.
Qed.

(** X7.  A download succeeds exactly when the stream arrives whole and
    holds no more than [MAX_DOWNLOAD_BYTES] bytes; what it returns is
    then the bytes of the chunks end to end, and the only mark it leaves
    on the process is the record of the request. *)
Theorem stream_download_whole_and_bounded
    (u : string) (s : state) (data : bytes) (s' : state) :
  stream_download u s = (Ok data, s') <->
  s' = after_download u s /\
  exists cs,
    get_stream (trace s) u = Some cs /\ ~ In Broken cs /\
    data = payload cs /\ Z.of_nat (length data) <= MAX_DOWNLOAD_BYTES.
Proof.
  rewrite stream_download_eq. split.
  - destruct (get_stream (trace s) u) as [cs|]; [|discriminate].
    intros H. inversion H as [[Hr Hs]]. split; [reflexivity|].
    destruct (read_chunks_ok cs [] 0 data Hr eq_refl) as (Hd & Hl & Hb);
      [unfold MAX_DOWNLOAD_BYTES; lia|].
    exists cs. now repeat split.
  - intros (-> & cs & -> & Hb & -> & Hl).
    now rewrite (read_chunks_complete cs [] 0 Hb eq_refl Hl).
Qed.

(** X8.  A download fails in two ways only.  With the [413] "File too
    large.": the stream then arrived unbroken up to a chunk with which
    the bytes received pass the cap, the bytes before that chunk being
    within it.  Or with another exception: the request failed, or the
    stream broke while the bytes received were within the cap.  The
    request is on record either way, and nothing else has changed. *)
Theorem stream_download_failures
    (u : string) (s : state) (e : exn) (s' : state) :
  stream_download u s = (Raise e, s') ->
  s' = after_download u s /\
  ((e = HTTPException 413 "File too large." /\
    exists pre c post,
      get_stream (trace s) u = Some (pre ++ Chunk c :: post)%list /\
      ~ In Broken pre /\
      Z.of_nat (length (payload pre)) <= MAX_DOWNLOAD_BYTES /\
      MAX_DOWNLOAD_BYTES
        < Z.of_nat (length (payload pre)) + Z.of_nat (length c))
   \/ (e = OtherError /\
       (get_stream (trace s) u = None
        \/ exists pre post,
             get_stream (trace s) u = Some (pre ++ Broken :: post)%list /\
             ~ In Broken pre /\
             Z.of_nat (length (payload pre)) <= MAX_DOWNLOAD_BYTES))).
Proof.
  rewrite stream_download_eq.
  destruct (get_stream (trace s) u) as [cs|]; intros H; inversion H as [[Hr Hs]].
  - split; [reflexivity|].
    destruct (read_chunks_raise cs [] 0 e Hr)
      as [(He & pre & c & post & -> & Hb & H1 & H2)
         |(He & pre & post & -> & Hb & H1)];
      [unfold MAX_DOWNLOAD_BYTES; lia| |].
    + left. split; [exact He|]. exists pre, c, post.
      split; [reflexivity|]. split; [exact Hb|]. lia.
    + right. split; [exact He|]. right. exists pre, post.
      split; [reflexivity|]. split; [exact Hb|]. lia.
  - split; [reflexivity|]. right. split; [reflexivity|now left].
Qed.

(** ** The link cache *)

Lemma fetch_xls_links_nonempty s items s' :
  fetch_xls_links s = (Ok items, s') -> items <> [].
Proof.
  unfold fetch_xls_links, bind, get_state, log, lift. cbn.
  destruct (get_page (trace s)) as [anchors|]; cbn; [|discriminate].
  destruct (flat_map link_of_anchor anchors); [discriminate|].
  intros H. inversion H. discriminate.
Qed.

(** X9.  A list of candidates that [get_cached_links] returns is never
    empty and is the list the cache holds from then on; the index file
    is not touched; and a further call made before the TTL has run out
    returns the same list and changes nothing (no request is made). *)
Theorem cached_links_are_primed (s : state) (items : list link) (s1 : state) :
  get_cached_links s = (Ok items, s1) ->
  items <> [] /\ links_data s1 = items /\
  index_on_disk s1 = index_on_disk s /\
  (time_time (trace s1) - links_ts s1 <= CACHE_TTL_SECONDS ->
   get_cached_links s1 = (Ok items, s1)).
Proof.
  rewrite get_cached_links_eq. intros H.
  assert (Hmain : items <> [] /\ links_data s1 = items /\
                  index_on_disk s1 = index_on_disk s).
  { destruct ((time_time (trace s) - links_ts s >? CACHE_TTL_SECONDS)
              || match links_data s with [] => true | _ => false end) eqn:E.
    - pose proof (fetch_xls_links_state s) as Hs.
      destruct (fetch_xls_links s) as [[its|x] s0] eqn:Ef; [|discriminate].
      inversion H; subst. cbn in Hs. subst s0.
      split; [exact (fetch_xls_links_nonempty _ _ _ Ef)|]. now split.
    - inversion H; subst. apply orb_false_iff in E as [_ E].
      split; [|now split]. destruct (links_data s1); [discriminate|discriminate]. }
  destruct Hmain as (Hne & Hd & Hi). repeat split; auto.
  intros Hfresh. rewrite get_cached_links_eq, Hd.
  destruct (Z.gtb_spec (time_time (trace s1) - links_ts s1) CACHE_TTL_SECONDS);
    [lia|].
  destruct items; [contradiction|reflexivity].
Qed.

End ServiceExtras.

Section IndexExtras.
Context {FL : PyFloat} {W : World}.
Import PyStrFacts CaseFacts.
Local Open Scope monad_scope.

(** ** The index build *)

(** The requests of a build, latest first. *)
Lemma indexed_state items s recs s1 :
  indexed items s recs s1 ->
  s1 = State (links_ts s) (links_data s) (index_on_disk s)
         (List.rev (map (fun it => Download (url it)) items) ++ trace s).
Proof.
  induction 1 as [s|it r s e s1 es s2 Hs _ IH|it r s x s1 es s2 Hs _ IH].
  - now destruct s.
  - apply scan_candidate_state in Hs. subst s1. rewrite IH. cbn.
    now rewrite <- app_assoc.
  - apply scan_candidate_state in Hs. subst s1. rewrite IH. cbn.
    now rewrite <- app_assoc.
Qed.

Lemma first_row_value_normalised df col v :
  first_row_value df col = Some v -> strip v = v /\ upper v = v.
Proof.
  unfold first_row_value. destruct col as [c|].
  - destruct (c =? "")%string.
    + intros H. inversion H. now split.
    + destruct (first_row_str df c) as [t|]; [|discriminate].
      cbn. intros H. inversion H.
      split; [now rewrite strip_upper, strip_idem|apply upper_idem].
  - intros H. inversion H. now split.
Qed.

Lemma indexed_names items s recs s1 :
  indexed items s recs s1 ->
  Forall (fun e => strip (bank e) = bank e /\ upper (bank e) = bank e) recs.
Proof.
  induction 1 as [s|it r s e s1 es s2 Hs _ IH|it r s x s1 es s2 Hs _ IH].
  - constructor.
  - constructor; [|exact IH].
    apply scan_candidate_ok in Hs
      as (data & _ & [[_ ->]|(? & ? & ? & bv & ? & _ & _ & Hb & _ & ->)]).
    + now split.
    + exact (first_row_value_normalised _ _ _ Hb).
  - constructor; [now split|exact IH].
Qed.

Lemma build_index_file_ok s index s' :
  build_index_file s = (Ok index, s') ->
  exists items s1 s2,
    get_cached_links s = (Ok items, s1) /\ indexed items s1 index s2 /\
    s' = State (links_ts s2) (links_data s2) (Some (Stored index)) (trace s2).
Proof.
  intros H. destruct (get_cached_links s) as [[items|x] s1] eqn:Eg.
  - rewrite (build_index_file_eq _ _ _ Eg) in H.
    destruct (index_candidates_indexed items [] s1) as (recs & s2 & Hr & Hi).
    rewrite Hr in H. destruct (write_file (trace s2)); [|discriminate..].
    inversion H; subst. now exists items, s1, s2.
  - unfold build_index_file in H. unfold bind at 1 in H. rewrite Eg in H.
    discriminate.
Qed.

(** X10.  A build that is handed the candidate list requests the file of
    every candidate exactly once, in list order and whether or not the
    scan of the one before went through, and makes no other request; it
    leaves the link cache as it found it.  This holds whatever the build
    then returns or raises: it returns an index, which the index file
    then holds; or the write of the index file raises, the build raises
    with it, and the file is as it was or left unreadable. *)
Theorem build_requests_each_candidate_once
    (s : state) (items : list link) (s1 : state) :
  get_cached_links s = (Ok items, s1) ->
  exists r s',
    build_index_file s = (r, s') /\
    links_ts s' = links_ts s1 /\ links_data s' = links_data s1 /\
    trace s' = (List.rev (map (fun it => Download (url it)) items) ++ trace s1)%list /\
    match r with
    | Ok index => index_on_disk s' = Some (Stored index)
    | Raise e =>
        e = OtherError /\
        (index_on_disk s' = index_on_disk s1
         \/ index_on_disk s' = Some Unreadable)
    end.
Proof.
  intros H. destruct (index_candidates_indexed items [] s1) as (index & s2 & Hr & Hi).
  rewrite (build_index_file_eq _ _ _ H), Hr.
  pose proof (indexed_state _ _ _ _ Hi) as Hs.
  destruct (write_file (trace s2)); eexists; eexists;
    (split; [reflexivity|]); subst s2; cbn; repeat split; auto.
Qed.

(** X11.  In an index that a build returns, every entity name is
    trimmed and upper-case (the empty name of a file that could not be
    scanned included). *)
Theorem built_names_are_normalised
    (s : state) (index : list index_record) (s' : state) :
  build_index_file s = (Ok index, s') ->
  Forall (fun e => strip (bank e) = bank e /\ upper (bank e) = bank e) index.
Proof.
  intros H. apply build_index_file_ok in H as (items & s1 & s2 & _ & Hi & _).
  exact (indexed_names _ _ _ _ Hi).
Qed.

(** ** Loading the index *)

Lemma load_index_stored s index :
  index_on_disk s = Some (Stored index) -> load_index s = (Ok index, s).
Proof. intros H. unfold load_index, bind, get_state. now rewrite H. Qed.

Lemma load_index_cases s :
  (exists index, index_on_disk s = Some (Stored index) /\
                 load_index s = (Ok index, s))
  \/ ((index_on_disk s = None \/ index_on_disk s = Some Unreadable) /\
      load_index s = build_index_file s).
Proof.
  unfold load_index, bind, get_state.
  destruct (index_on_disk s) as [[|index]|] eqn:E.
  - right. split; [now right|reflexivity].
  - left. now exists index.
  - right. split; [now left|reflexivity].
Qed.

Lemma load_index_ok s index s' :
  load_index s = (Ok index, s') -> index_on_disk s' = Some (Stored index).
Proof.
  destruct (load_index_cases s) as [(index0 & Hd & ->)|[_ ->]]; intros H.
  - inversion H; subst. exact Hd.
  - apply build_index_file_ok in H as (? & ? & ? & _ & _ & ->). reflexivity.
Qed.

(** X12.  [load_index] returns a readable index file as it is, with no
    request and no write; it builds the index only when the file is
    missing or unreadable; and in both cases the index it returns is the
    one the file holds afterwards, so that loading again returns the same
    index and changes nothing. *)
Theorem load_index_settles (s : state) (index : list index_record) (s' : state) :
  load_index s = (Ok index, s') ->
  index_on_disk s' = Some (Stored index) /\
  load_index s' = (Ok index, s') /\
  ((index_on_disk s = Some (Stored index) /\ s' = s)
   \/ ((index_on_disk s = None \/ index_on_disk s = Some Unreadable) /\
       build_index_file s = (Ok index, s'))).
Proof.
  intros H. pose proof (load_index_ok _ _ _ H) as Hd.
  split; [exact Hd|]. split; [exact (load_index_stored _ _ Hd)|].
  destruct (load_index_cases s) as [(index0 & Hd0 & E)|[Hm E]]; rewrite E in H.
  - inversion H; subst. left. now split.
  - right. now split.
Qed.

(** ** The candidates of a lookup *)

Lemma filter_head_find (p : index_record -> bool) l e r :
  filter p l = e :: r -> find p l = Some e.
Proof.
  intros H. pose proof (find_filter p l) as Hf.
  destruct (find p l) as [e'|].
  - destruct Hf as [rest Hf]. rewrite Hf in H. now inversion H.
  - rewrite Hf in H. discriminate.
Qed.

Lemma select_candidates_ok p detail s cands s' :
  select_candidates p detail s = (Ok cands, s') ->
  exists index entry rest,
    resolves p s index entry s' /\ cands = entry :: rest /\
    filter p index = cands /\ index_on_disk s' = Some (Stored index).
Proof.
  unfold select_candidates. unfold bind at 1. intros H.
  destruct (load_index s) as [[index0|x] s0] eqn:El; [|discriminate].
  destruct (filter p index0) as [|e r] eqn:E.
  - unfold bind at 1 in H.
    destruct (build_index_file s0) as [[index|x] s1] eqn:Eb; [|discriminate].
    destruct (filter p index) as [|e r] eqn:E'; [discriminate|].
    inversion H; subst. exists index, e, r.
    split; [|split; [reflexivity|split; [exact E'|]]].
    + right. exists index0, s0. repeat split; auto.
      * pose proof (find_filter p index0) as Hf.
        destruct (find p index0); [destruct Hf as [? Hf]; congruence|reflexivity].
      * exact (filter_head_find _ _ _ _ E').
    + apply build_index_file_ok in Eb as (? & ? & ? & _ & _ & ->). reflexivity.
  - inversion H; subst. exists index0, e, r.
    split; [|split; [reflexivity|split; [exact E|]]].
    + left. split; [exact El|exact (filter_head_find _ _ _ _ E)].
    + exact (load_index_ok _ _ _ El).
Qed.

(** ** Reading the sheet of the selected file *)

Lemma open_first_sheet_state entry detail s r s' :
  open_first_sheet entry detail s = (r, s') ->
  s' = after_download (rec_url entry) s.
Proof.
  unfold open_first_sheet. unfold bind at 1.
  destruct (stream_download (rec_url entry) s) as [[data|x] s0] eqn:Ed;
    apply stream_download_state in Ed; fold (after_download (rec_url entry) s) in Ed;
    subst s0; [|intros H; now inversion H].
  unfold bind at 1.
  destruct (excel_sheet_names data (detect_engine (rec_url entry))) as [[|sh l]|];
    cbn [lift]; unfold ret, raise; try (intros H; now inversion H).
  unfold bind at 1.
  destruct (read_excel data sh (detect_engine (rec_url entry)) None) as [df|];
    cbn [lift]; unfold ret, raise; [|intros H; now inversion H].
  destruct (frame_empty df); intros H; now inversion H.
Qed.

Lemma open_first_sheet_ok entry detail s df s' :
  open_first_sheet entry detail s = (Ok df, s') ->
  exists data first_sheet others,
    stream_download (rec_url entry) s = (Ok data, s') /\
    excel_sheet_names data (detect_engine (rec_url entry))
      = Some (first_sheet :: others) /\
    read_excel data first_sheet (detect_engine (rec_url entry)) None = Some df /\
    rows df <> [] /\ columns df <> [].
Proof.
  unfold open_first_sheet. unfold bind at 1.
  destruct (stream_download (rec_url entry) s) as [[data|x] s0] eqn:Ed;
    [|discriminate].
  unfold bind at 1.
  destruct (excel_sheet_names data (detect_engine (rec_url entry)))
    as [[|sh l]|] eqn:En;
    cbn [lift]; unfold ret, raise; try discriminate.
  unfold bind at 1.
  destruct (read_excel data sh (detect_engine (rec_url entry)) None)
    as [df0|] eqn:Er;
    cbn [lift]; unfold ret, raise; [|discriminate].
  destruct (frame_empty df0) eqn:Ee; [discriminate|].
  intros H. inversion H; subst. exists data, sh, l.
  split; [reflexivity|]. split; [exact En|]. split; [exact Er|].
  unfold frame_empty in Ee.
  split; intros Hx; rewrite Hx in Ee; [|destruct (rows df)]; discriminate.
Qed.

Lemma open_first_sheet_raise entry detail s e s' :
  open_first_sheet entry detail s = (Raise e, s') ->
  e = HTTPException 404 detail \/ e = OtherError
  \/ (e = HTTPException 413 "File too large." /\
      stream_download (rec_url entry) s = (Raise e, s')).
Proof.
  unfold open_first_sheet. unfold bind at 1.
  destruct (stream_download (rec_url entry) s) as [[data|x] s0] eqn:Ed.
  - unfold bind at 1.
    destruct (excel_sheet_names data (detect_engine (rec_url entry))) as [[|sh l]|];
      cbn [lift]; unfold ret, raise;
      try (intros H; inversion H; auto; fail).
    unfold bind at 1.
    destruct (read_excel data sh (detect_engine (rec_url entry)) None) as [df0|];
      cbn [lift]; unfold ret, raise;
      [|intros H; inversion H; auto].
    destruct (frame_empty df0); intros H; inversion H; auto.
  - intros H. inversion H; subst.
    destruct (stream_download_raise_kind _ _ _ _ Ed) as [->| ->]; auto.
Qed.

(** ** The lookups, read backwards *)

Lemma canon_rows_keys cols (l : list (list value)) :
  Forall (fun r => dict_keys r = OUT_KEYS) (map (canon_row cols) l).
Proof.
  apply Forall_forall. intros r Hr. apply in_map_iff in Hr as (row & <- & _).
  unfold canon_row. now rewrite to_output_row_finish.
Qed.

Lemma collapse_raise A detail e s :
  exists e', @collapse A detail e s = (Raise e', s) /\
             (e = OtherError -> e' = HTTPException 404 detail) /\
             (e <> OtherError -> e' = e).
Proof.
  destruct e as [c d|]; cbn; eexists; (split; [reflexivity|]); split; congruence.
Qed.

(** X13.  When [by_bank] returns rows, the query was not blank; the rows
    are the canonical rows of all the data rows, in order, of the first
    sheet of the file of one record: the first record whose entity name
    contains the upper-cased query, in the index that the index file
    holds when the flow ends.  There is at least one row, and every row
    has the nine output keys in their order. *)
Theorem by_bank_rows_come_from_first_match
    (q : string) (s : state) (rows_out : list (dict value)) (s' : state) :
  by_bank q s = (Ok rows_out, s') ->
  upper (strip q) <> "" /\
  exists index entry s1 df,
    resolves (fun e => contains (upper (bank e)) (upper (strip q))) s index entry s1 /\
    index_on_disk s' = Some (Stored index) /\
    open_first_sheet entry NO_BANK s1 = (Ok df, s') /\
    rows_out = map (canon_row (columns (normalize_columns df))) (rows df) /\
    rows_out <> [] /\
    Forall (fun r => dict_keys r = OUT_KEYS) rows_out.
Proof.
  unfold by_bank. intros H.
  destruct (upper (strip q) =? "")%string eqn:Eq; [discriminate|].
  apply String.eqb_neq in Eq. split; [exact Eq|].
  unfold bind at 1 in H.
  destruct (select_candidates _ NO_BANK s) as [[cands|x] s1] eqn:Es; [|discriminate].
  apply select_candidates_ok in Es as (index & entry & rest & Hres & -> & _ & Hd).
  unfold try_except in H. unfold bind at 1 in H.
  destruct (open_first_sheet entry NO_BANK s1) as [[df|x] s2] eqn:Eo.
  - unfold ret in H. inversion H; subst s2. clear H.
    pose proof (open_first_sheet_state _ _ _ _ _ Eo) as Hs.
    pose proof (open_first_sheet_ok _ _ _ _ _ Eo) as (_ & _ & _ & _ & _ & _ & Hr & _).
    exists index, entry, s1, df.
    split; [exact Hres|]. split; [subst s'; exact Hd|]. split; [exact Eo|].
    rewrite canon_rows_of_records. split; [reflexivity|].
    split; [|apply canon_rows_keys].
    cbn [normalize_columns rows]. destruct (rows df); [contradiction|discriminate].
  - destruct (collapse_raise (list (dict value)) NO_BANK x s2) as (e' & He & _).
    rewrite He in H. discriminate.
Qed.

(** X14.  When [by_ifsc] returns rows, the trimmed, upper-cased code had
    11 characters or more; role matching found a code column in the
    first sheet of the file of the first record whose prefix is the
    code's first four characters, and one column bears its label; the
    rows are the canonical rows of exactly the data rows whose
    upper-cased value in that column equals the code, in sheet order.
    There is at least one row, and every row has the nine output keys. *)
Theorem by_ifsc_rows_are_the_matching_rows
    (q : string) (s : state) (rows_out : list (dict value)) (s' : state) :
  by_ifsc q s = (Ok rows_out, s') ->
  (11 <= String.length (upper (strip q)))%nat /\
  exists index entry s1 df col i,
    resolves (fun e => (ifsc_prefix e =? take 4 (upper (strip q)))%string)
      s index entry s1 /\
    index_on_disk s' = Some (Stored index) /\
    open_first_sheet entry NO_IFSC s1 = (Ok df, s') /\
    find_ifsc_column (columns (normalize_columns df)) = Some col /\
    positions col (columns (normalize_columns df)) = [i] /\
    rows_out =
      map (canon_row (columns (normalize_columns df)))
        (filter (fun row => (upper (py_str (cell row i)) =? upper (strip q))%string)
           (rows df)) /\
    rows_out <> [] /\
    Forall (fun r => dict_keys r = OUT_KEYS) rows_out.
Proof.
  unfold by_ifsc. intros H.
  destruct (Z.ltb_spec (len (upper (strip q))) 11) as [|Hlen]; [discriminate|].
  split; [unfold len in Hlen; lia|].
  unfold bind at 1 in H.
  destruct (select_candidates _ NO_IFSC s) as [[cands|x] s1] eqn:Es; [|discriminate].
  apply select_candidates_ok in Es as (index & entry & rest & Hres & -> & _ & Hd).
  unfold try_except in H. unfold bind at 1 in H.
  destruct (open_first_sheet entry NO_IFSC s1) as [[df|x] s2] eqn:Eo.
  - set (ndf := normalize_columns df) in *.
    destruct (find_ifsc_column (columns ndf)) as [col|] eqn:Ecol; [|discriminate].
    rewrite (found_code_column_named _ _ Ecol) in H. unfold series in H.
    destruct (positions col (columns ndf)) as [|i [|j l]] eqn:Ep; try discriminate.
    cbn [lift] in H. unfold bind at 1 in H. unfold ret at 1 in H.
    rewrite (mask_any (fun v => (upper (py_str v) =? upper (strip q))%string)
               i (rows ndf)) in H.
    destruct (filter (fun row => (upper (py_str (cell row i)) =? upper (strip q))%string)
                (rows ndf)) as [|h hs] eqn:Ef; [discriminate|].
    cbn [negb] in H. unfold ret in H. rewrite canon_rows_of_records in H.
    cbn [columns frame_where] in H.
    change (rows {| columns := columns ndf;
                    rows := map snd (filter fst (combine
                       (map (fun v => (upper (py_str v) =? upper (strip q))%string)
                          (map (fun row => cell row i) (rows ndf))) (rows ndf))) |})
      with (rows (frame_where ndf
                    (map (fun v => (upper (py_str v) =? upper (strip q))%string)
                       (map (fun row => cell row i) (rows ndf))))) in H.
    rewrite frame_where_rows, Ef in H. injection H as Hrows Hst.
    subst s2 rows_out.
    pose proof (open_first_sheet_state _ _ _ _ _ Eo) as Hs.
    exists index, entry, s1, df, col, i.
    split; [exact Hres|]. split; [rewrite Hs; exact Hd|]. split; [exact Eo|].
    split; [exact Ecol|]. split; [exact Ep|].
    change (rows df) with (rows ndf). rewrite Ef.
    split; [reflexivity|].
    split; [discriminate|apply (canon_rows_keys _ (h :: hs))].
  - destruct (collapse_raise (list (dict value)) NO_IFSC x s2) as (e' & He & _).
    rewrite He in H. discriminate.
Qed.

(** ** What a lookup can raise once it has its record *)

Lemma flow_tail_state A (entry : index_record) detail
    (body : frame value -> M A) s r s' :
  (forall df s1 x s2, body df s1 = (x, s2) -> s2 = s1) ->
  try_except (df <- open_first_sheet entry detail ;; body df) (collapse detail) s
    = (r, s') ->
  s' = after_download (rec_url entry) s.
Proof.
  intros Hbody. unfold try_except, bind.
  destruct (open_first_sheet entry detail s) as [[df|y] s3] eqn:Eo;
    apply open_first_sheet_state in Eo; subst s3.
  - destruct (body df (after_download (rec_url entry) s)) as [[a|x] s2] eqn:Eb;
      apply Hbody in Eb; subst s2.
    + intros H. now inversion H.
    + destruct (collapse_raise A detail x (after_download (rec_url entry) s))
        as (e' & He & _). rewrite He. intros H. now inversion H.
  - destruct (collapse_raise A detail y (after_download (rec_url entry) s))
      as (e' & He & _). rewrite He. intros H. now inversion H.
Qed.

Lemma flow_tail_raise A (entry : index_record) detail
    (body : frame value -> M A) s e s' :
  (forall df s1 x s2, body df s1 = (Raise x, s2) ->
     x = HTTPException 404 detail \/ x = OtherError) ->
  try_except (df <- open_first_sheet entry detail ;; body df) (collapse detail) s
    = (Raise e, s') ->
  e = HTTPException 404 detail
  \/ (e = HTTPException 413 "File too large." /\
      stream_download (rec_url entry) s = (Raise e, s')).
Proof.
  intros Hbody. unfold try_except.
  destruct ((df <- open_first_sheet entry detail ;; body df) s)
    as [[a|x] s2] eqn:E; [discriminate|].
  intros H.
  assert (Hx : x = HTTPException 404 detail \/ x = OtherError
               \/ (x = HTTPException 413 "File too large." /\
                   stream_download (rec_url entry) s = (Raise x, s2))).
  { unfold bind in E.
    destruct (open_first_sheet entry detail s) as [[df|y] s3] eqn:Eo.
    - destruct (Hbody _ _ _ _ E); auto.
    - inversion E; subst. exact (open_first_sheet_raise _ _ _ _ _ Eo). }
  destruct Hx as [->|[->|[-> Hd]]]; cbn in H; inversion H; subst; auto.
Qed.

(** X15.  Once [by_bank] has its record (the first match of the loaded
    index, or of the index rebuilt after a miss), it can fail in two
    ways only: with its [404] "No files matched the given bank.", which
    is also what every exception of the download, the parse and the
    sheet access that is no [HTTPException] is turned into; or with the
    [413] "File too large." that the download of the record's file
    raised, which is passed on as it is.  Either way the file of the
    record, and nothing else, has been requested since. *)
Theorem by_bank_failures
    (q : string) (s : state) (index : list index_record)
    (entry : index_record) (s1 : state) (e : exn) (s' : state) :
  upper (strip q) <> "" ->
  resolves (fun e => contains (upper (bank e)) (upper (strip q))) s index entry s1 ->
  by_bank q s = (Raise e, s') ->
  s' = after_download (rec_url entry) s1 /\
  (e = HTTPException 404 NO_BANK
   \/ (e = HTTPException 413 "File too large." /\
       stream_download (rec_url entry) s1 = (Raise e, s'))).
Proof.
  intros Hq Hres. unfold by_bank. apply String.eqb_neq in Hq. rewrite Hq.
  destruct (select_candidates_resolved _ NO_BANK _ _ _ _ Hres) as [rest Hsel].
  rewrite (bind_ok _ _ _ _ _ _ _ Hsel). intros H. split.
  - revert H. apply flow_tail_state. intros df s2 x s3 Hb. now inversion Hb.
  - revert H. apply flow_tail_raise. intros df s2 x s3 Hb. inversion Hb.
Qed.

(** X16.  Once [by_ifsc] has its record, it can fail in two ways only:
    with its [404] "No rows found for the given IFSC.", which is also
    what every exception of the download, the parse, the sheet access
    and the search that is no [HTTPException] is turned into; or with
    the [413] "File too large." that the download of the record's file
    raised, which is passed on as it is.  Either way the file of the
    record, and nothing else, has been requested since. *)
Theorem by_ifsc_failures
    (q : string) (s : state) (index : list index_record)
    (entry : index_record) (s1 : state) (e : exn) (s' : state) :
  (11 <= String.length (upper (strip q)))%nat ->
  resolves (fun e => (ifsc_prefix e =? take 4 (upper (strip q)))%string)
    s index entry s1 ->
  by_ifsc q s = (Raise e, s') ->
  s' = after_download (rec_url entry) s1 /\
  (e = HTTPException 404 NO_IFSC
   \/ (e = HTTPException 413 "File too large." /\
       stream_download (rec_url entry) s1 = (Raise e, s'))).
Proof.
  intros Hlen Hres. unfold by_ifsc.
  assert (Hlt : (len (upper (strip q)) <? 11) = false)
    by (unfold len; apply Z.ltb_ge; lia).
  rewrite Hlt.
  destruct (select_candidates_resolved _ NO_IFSC _ _ _ _ Hres) as [rest Hsel].
  rewrite (bind_ok _ _ _ _ _ _ _ Hsel). intros H. split.
  - revert H. apply flow_tail_state. intros df s2 x s3.
    destruct (find_ifsc_column (columns (normalize_columns df))) as [col|];
      [|intros Hb; now inversion Hb].
    destruct (col =? "")%string; [intros Hb; now inversion Hb|].
    unfold bind.
    destruct (series (normalize_columns df) col) as [codes|]; cbn [lift];
      unfold ret, raise; [|intros Hb; now inversion Hb].
    destruct (negb _); intros Hb; now inversion Hb.
  - revert H. apply flow_tail_raise. intros df s2 x s3.
    destruct (find_ifsc_column (columns (normalize_columns df))) as [col|];
      [|intros Hb; inversion Hb; now left].
    destruct (col =? "")%string; [intros Hb; inversion Hb; now left|].
    unfold bind.
    destruct (series (normalize_columns df) col) as [codes|]; cbn [lift];
      unfold ret, raise; [|intros Hb; inversion Hb; now right].
    destruct (negb _); intros Hb; inversion Hb. now left.
Qed.

(** ** What a lookup requests *)

Lemma select_candidates_hit p detail s index entry :
  index_on_disk s = Some (Stored index) -> find p index = Some entry ->
  exists rest, select_candidates p detail s = (Ok (entry :: rest), s).
Proof.
  intros Hd Hf. apply select_candidates_resolved with (index := index).
  left. split; [exact (load_index_stored _ _ Hd)|exact Hf].
Qed.

(** X17.  A lookup that is served by the index file as it stands makes
    one request and no other change: whatever [by_bank] or [by_ifsc]
    then returns or raises, the process is left as it was but for the
    download of the file of the first matching record.  The listing page
    is not requested, no other file is downloaded, and the link cache
    and the index file keep their contents. *)
Theorem lookup_hit_requests_one_file
    (q : string) (s : state) (index : list index_record) (entry : index_record)
    (r : result (list (dict value))) (s' : state) :
  index_on_disk s = Some (Stored index) ->
  (upper (strip q) <> "" ->
   find (fun e => contains (upper (bank e)) (upper (strip q))) index = Some entry ->
   by_bank q s = (r, s') -> s' = after_download (rec_url entry) s)
  /\ ((11 <= String.length (upper (strip q)))%nat ->
      find (fun e => (ifsc_prefix e =? take 4 (upper (strip q)))%string) index
        = Some entry ->
      by_ifsc q s = (r, s') -> s' = after_download (rec_url entry) s).
Proof.
  intros Hd. split.
  - intros Hq Hf. unfold by_bank. apply String.eqb_neq in Hq. rewrite Hq.
    destruct (select_candidates_hit _ NO_BANK _ _ _ Hd Hf) as [rest Hsel].
    rewrite (bind_ok _ _ _ _ _ _ _ Hsel).
    apply flow_tail_state. intros df s1 x s2 Hb. now inversion Hb.
  - intros Hlen Hf. unfold by_ifsc.
    assert (Hlt : (len (upper (strip q)) <? 11) = false)
      by (unfold len; apply Z.ltb_ge; lia).
    rewrite Hlt.
    destruct (select_candidates_hit _ NO_IFSC _ _ _ Hd Hf) as [rest Hsel].
    rewrite (bind_ok _ _ _ _ _ _ _ Hsel).
    apply flow_tail_state. intros df s1 x s2.
    destruct (find_ifsc_column (columns (normalize_columns df))) as [col|];
      [|intros Hb; now inversion Hb].
    destruct (col =? "")%string; [intros Hb; now inversion Hb|].
    unfold bind.
    destruct (series (normalize_columns df) col) as [codes|]; cbn [lift];
      unfold ret, raise; [|intros Hb; now inversion Hb].
    destruct (negb _); intros Hb; now inversion Hb.
Qed.

(** X18.  A miss is retried once and no more: when neither the loaded
    index nor the index rebuilt after the miss has a matching record,
    the flow raises its [404] and leaves the process as the rebuild left
    it, without opening any file for the rows. *)
Theorem lookup_miss_rebuilds_once
    (q : string) (s : state) (index0 : list index_record) (s0 : state)
    (index : list index_record) (s1 : state) :
  load_index s = (Ok index0, s0) ->
  build_index_file s0 = (Ok index, s1) ->
  (upper (strip q) <> "" ->
   find (fun e => contains (upper (bank e)) (upper (strip q))) index0 = None ->
   find (fun e => contains (upper (bank e)) (upper (strip q))) index = None ->
   by_bank q s = (Raise (HTTPException 404 NO_BANK), s1))
  /\ ((11 <= String.length (upper (strip q)))%nat ->
      find (fun e => (ifsc_prefix e =? take 4 (upper (strip q)))%string) index0
        = None ->
      find (fun e => (ifsc_prefix e =? take 4 (upper (strip q)))%string) index
        = None ->
      by_ifsc q s = (Raise (HTTPException 404 NO_IFSC), s1)).
Proof.
  intros Hl Hb.
  assert (Hsel : forall p detail,
            find p index0 = None -> find p index = None ->
            select_candidates p detail s = (Raise (HTTPException 404 detail), s1)).
  { intros p detail H0 H1. unfold select_candidates.
    rewrite (bind_ok _ _ _ _ _ _ _ Hl).
    pose proof (find_filter p index0) as F0. rewrite H0 in F0. rewrite F0.
    rewrite (bind_ok _ _ _ _ _ _ _ Hb).
    pose proof (find_filter p index) as F1. rewrite H1 in F1. now rewrite F1. }
  split.
  - intros Hq H0 H1. unfold by_bank. apply String.eqb_neq in Hq. rewrite Hq.
    unfold bind. now rewrite (Hsel _ NO_BANK H0 H1).
  - intros Hlen H0 H1. unfold by_ifsc.
    assert (Hlt : (len (upper (strip q)) <? 11) = false)
      by (unfold len; apply Z.ltb_ge; lia).
    rewrite Hlt. unfold bind. now rewrite (Hsel _ NO_IFSC H0 H1).
Qed.

End IndexExtras.

(* ================================================================== *)
(** * Properties of the listing, the engine choice and the bank list *)
(* ================================================================== *)

Section WordFacts.
Import PyStrFacts.

Lemma rstrip_last s c :
  last_char s = Some c -> is_space c = false -> rstrip s = s.
Proof.
  induction s as [|d r IH]; [discriminate|].
  intros Hl Hc. destruct r as [|d' r'].
  - cbn in Hl. inversion Hl; subst. cbn. now rewrite Hc.
  - change (last_char (String d (String d' r'))) with (last_char (String d' r')) in Hl.
    specialize (IH Hl Hc). cbn [rstrip]. cbn [rstrip] in IH. now rewrite IH.
Qed.

Lemma no_space_last w :
  w <> "" -> no_space w = true ->
  exists c, last_char w = Some c /\ is_space c = false.
Proof.
  induction w as [|d r IH]; [contradiction|].
  intros _ H. cbn in H. apply andb_true_iff in H as [Hd Hr].
  destruct r as [|d' r'].
  - exists d. split; [reflexivity|]. now destruct (is_space d).
  - destruct (IH ltac:(discriminate) Hr) as (c & Hl & Hc). now exists c.
Qed.

Lemma no_space_lstrip w t :
  w <> "" -> no_space w = true -> lstrip (w ++ t) = w ++ t.
Proof.
  destruct w as [|d r]; [contradiction|].
  intros _ H. cbn in H. apply andb_true_iff in H as [Hd _].
  cbn. now destruct (is_space d).
Qed.

Lemma split_ws_words s : forall cur,
  no_space cur = true ->
  Forall (fun w => w <> "" /\ no_space w = true) (split_ws s cur).
Proof.
  induction s as [|c r IH]; intros cur Hcur; cbn [split_ws].
  - destruct (cur =? "")%string eqn:E; [constructor|].
    apply String.eqb_neq in E. now repeat constructor.
  - destruct (is_space c) eqn:Ec.
    + destruct (cur =? "")%string eqn:E; [now apply IH|].
      apply String.eqb_neq in E. constructor; [now split|now apply IH].
    + apply IH, no_space_app; [exact Hcur|]. cbn. now rewrite Ec.
Qed.

Lemma split_ws_nil s : forall cur,
  split_ws s cur = [] <-> cur = "" /\ all_space s = true.
Proof.
  induction s as [|c r IH]; intros cur; cbn [split_ws all_space].
  - destruct (cur =? "")%string eqn:E.
    + apply String.eqb_eq in E. tauto.
    + apply String.eqb_neq in E. split; [discriminate|tauto].
  - destruct (is_space c) eqn:Ec; cbn [andb].
    + destruct (cur =? "")%string eqn:E.
      * apply String.eqb_eq in E. rewrite IH. tauto.
      * apply String.eqb_neq in E. split; [discriminate|tauto].
    + rewrite IH. split; [|intros [_ H]; discriminate].
      intros [H _]. destruct cur; discriminate.
Qed.

Lemma concat_words ws :
  Forall (fun w => w <> "" /\ no_space w = true) ws -> ws <> [] ->
  String.concat " " ws <> "" /\
  lstrip (String.concat " " ws) = String.concat " " ws /\
  exists c, last_char (String.concat " " ws) = Some c /\ is_space c = false.
Proof.
  induction 1 as [|w l [Hw Hn] Hl IH]; [contradiction|]. intros _.
  destruct l as [|w2 l2].
  - cbn [String.concat]. split; [exact Hw|].
    split; [|exact (no_space_last _ Hw Hn)].
    destruct w as [|d r]; [contradiction|].
    cbn in Hn. apply andb_true_iff in Hn as [Hd _].
    cbn. now destruct (is_space d).
  - destruct (IH ltac:(discriminate)) as (Hne & _ & c & Hc & Hs).
    assert (Hcat : String.concat " " (w :: w2 :: l2) =
                   w ++ String " " (String.concat " " (w2 :: l2))) by reflexivity.
    rewrite Hcat. clear Hcat IH Hl.
    remember (String.concat " " (w2 :: l2)) as t eqn:Et. clear Et.
    split; [destruct w; [contradiction|discriminate]|].
    split; [now apply no_space_lstrip|].
    exists c. split; [|exact Hs].
    rewrite last_char_app; [|discriminate].
    destruct t; [contradiction|exact Hc].
Qed.

(** The join of the words of a text: empty when the text is blank, and
    else trimmed. *)
Lemma joined_words text :
  if all_space text
  then String.concat " " (split_ws text "") = ""
  else String.concat " " (split_ws text "") <> "" /\
       strip (String.concat " " (split_ws text "")) =
       String.concat " " (split_ws text "").
Proof.
  destruct (all_space text) eqn:E.
  - assert (H : split_ws text "" = []) by (apply split_ws_nil; now split).
    now rewrite H.
  - assert (H : split_ws text "" <> []).
    { intros H. apply split_ws_nil in H as [_ H]. congruence. }
    destruct (concat_words _ (split_ws_words text "" eq_refl) H)
      as (Hne & Hl & c & Hc & Hs).
    split; [exact Hne|]. unfold strip. rewrite Hl.
    exact (rstrip_last _ _ Hc Hs).
Qed.

End WordFacts.

Section ListingExtras.
Context {FL : PyFloat} {W : World}.
Import PyStrFacts CaseFacts.
Local Open Scope monad_scope.

Lemma link_of_anchor_spec a l :
  In l (link_of_anchor a) ->
  (endswith (lower (strip (fst a))) ".xls" = true
   \/ endswith (lower (strip (fst a))) ".xlsx" = true) /\
  url l = (if startswith (lower (strip (fst a))) "http://"
              || startswith (lower (strip (fst a))) "https://"
           then strip (fst a) else urljoin RBI_BASE (strip (fst a))) /\
  (if all_space (snd a) then title l = last_segment (url l)
   else title l = String.concat " " (split_ws (snd a) "") /\
        title l <> "" /\ strip (title l) = title l).
Proof.
  unfold link_of_anchor.
  destruct (endswith (lower (strip (fst a))) ".xls"
            || endswith (lower (strip (fst a))) ".xlsx") eqn:E; [|intros []].
  intros [<-|[]]. cbn [url title].
  split; [now apply orb_true_iff in E|]. split; [reflexivity|].
  pose proof (joined_words (snd a)) as H.
  destruct (all_space (snd a)).
  - now rewrite H.
  - destruct H as [Hne Hs]. apply String.eqb_neq in Hne. rewrite Hne.
    apply String.eqb_neq in Hne. now repeat split.
Qed.

(** X19.  The links that [fetch_xls_links] returns are at least one;
    each comes from an anchor of the page whose trimmed [href] ends in
    [.xls] or [.xlsx], whatever the case; its URL is that [href] when it
    starts with [http://] or [https://] (whatever the case) and else the
    [href] joined to the site's base; and its title is the text of the
    anchor with every run of white space made one blank and none left at
    either end, or, when the text is blank, the last segment of the URL.
    The listing page has been requested once. *)
Theorem listed_links_come_from_excel_anchors
    (s : state) (items : list link) (s' : state) :
  fetch_xls_links s = (Ok items, s') ->
  items <> [] /\ s' = after_get_page s /\
  exists anchors,
    get_page (trace s) = Some anchors /\
    forall l, In l items ->
      exists a, In a anchors /\
        (endswith (lower (strip (fst a))) ".xls" = true
         \/ endswith (lower (strip (fst a))) ".xlsx" = true) /\
        url l = (if startswith (lower (strip (fst a))) "http://"
                    || startswith (lower (strip (fst a))) "https://"
                 then strip (fst a) else urljoin RBI_BASE (strip (fst a))) /\
        (if all_space (snd a) then title l = last_segment (url l)
         else title l = String.concat " " (split_ws (snd a) "") /\
              title l <> "" /\ strip (title l) = title l).
Proof.
  intros H. split; [exact (fetch_xls_links_nonempty _ _ _ H)|].
  split; [pose proof (fetch_xls_links_state s) as Hs; now rewrite H in Hs|].
  unfold fetch_xls_links, bind, get_state, log, lift in H. cbn in H.
  destruct (get_page (trace s)) as [anchors|]; cbn in H; [|discriminate].
  exists anchors. split; [reflexivity|].
  destruct (flat_map link_of_anchor anchors) as [|l0 ls] eqn:E; [discriminate|].
  inversion H; subst items. intros l Hl. rewrite <- E in Hl.
  apply in_flat_map in Hl as (a & Ha & Hl). exists a. split; [exact Ha|].
  exact (link_of_anchor_spec _ _ Hl).
Qed.

(** ** The list of entity names *)

Lemma in_seen_In b seen : in_seen b seen = true <-> In b seen.
Proof.
  unfold in_seen. rewrite existsb_exists. split.
  - intros (x & Hx & E). apply String.eqb_eq in E. now subst.
  - intros H. exists b. split; [exact H|apply String.eqb_refl].
Qed.

Lemma banks_loop_fresh index : forall seen out,
  banks_loop index seen out =
  (out ++ map (fun b => [("bank", b)]) (fresh_names index seen))%list.
Proof.
  induction index as [|e r IH]; intros seen out; cbn [banks_loop fresh_names].
  - now rewrite app_nil_r.
  - destruct (negb (upper (strip (bank e)) =? "")%string
              && negb (in_seen (upper (strip (bank e))) seen)).
    + rewrite IH, <- app_assoc. reflexivity.
    + apply IH.
Qed.

Lemma fresh_names_spec index : forall seen,
  NoDup (fresh_names index seen) /\
  forall b, In b (fresh_names index seen) <->
            ~ In b seen /\ b <> "" /\
            exists e, In e index /\ b = upper (strip (bank e)).
Proof.
  induction index as [|e r IH]; intros seen; cbn [fresh_names].
  - split; [constructor|]. intros b. split; [intros []|].
    intros (_ & _ & e & [] & _).
  - set (b0 := upper (strip (bank e))).
    destruct (b0 =? "")%string eqn:E0; cbn [negb andb].
    + apply String.eqb_eq in E0. destruct (IH seen) as [Hnd Hin].
      split; [exact Hnd|]. intros b. rewrite Hin. split.
      * intros (Hs & Hb & e' & He' & Hbe). repeat split; auto.
        exists e'. split; [now right|exact Hbe].
      * intros (Hs & Hb & e' & [<-|He'] & Hbe); [fold b0 in Hbe; congruence|].
        repeat split; auto. now exists e'.
    + apply String.eqb_neq in E0.
      destruct (in_seen b0 seen) eqn:Es; cbn [negb].
      * apply in_seen_In in Es. destruct (IH seen) as [Hnd Hin].
        split; [exact Hnd|]. intros b. rewrite Hin. split.
        -- intros (Hs & Hb & e' & He' & Hbe). repeat split; auto.
           exists e'. split; [now right|exact Hbe].
        -- intros (Hs & Hb & e' & [<-|He'] & Hbe);
             [fold b0 in Hbe; subst b; contradiction|].
           repeat split; auto. now exists e'.
      * assert (Hns : ~ In b0 seen).
        { intros H. apply in_seen_In in H. congruence. }
        destruct (IH (b0 :: seen)) as [Hnd Hin]. split.
        -- constructor; [|exact Hnd]. rewrite Hin. intros (H & _). apply H. now left.
        -- intros b. cbn [In]. rewrite Hin. split.
           ++ intros [<-|(Hs & Hb & e' & He' & Hbe)].
              ** repeat split; auto. exists e. split; [now left|reflexivity].
              ** repeat split; auto.
                 --- intros H. apply Hs. now right.
                 --- exists e'. split; [now right|exact Hbe].
           ++ intros (Hs & Hb & e' & He' & Hbe).
              destruct (string_dec b0 b) as [Heq|Hneq]; [now left|right].
              repeat split; auto.
              ** intros [H|H]; contradiction.
              ** destruct He' as [<-|He']; [fold b0 in Hbe; congruence|].
                 now exists e'.
Qed.

(** X22.  [banks] answers from the index that [load_index] returns: it
    lists the trimmed, upper-cased entity names of its records, each
    non-empty name once and none else, in the order in which the names
    first occur, one [{"bank": name}] per name; when the index has no
    non-empty name it raises the [404] "No banks found.".  It makes no
    request and no write of its own. *)
Theorem banks_lists_each_name_once
    (s : state) (index : list index_record) (s' : state) :
  load_index s = (Ok index, s') ->
  NoDup (fresh_names index []) /\
  (forall b, In b (fresh_names index []) <->
             b <> "" /\ exists e, In e index /\ b = upper (strip (bank e))) /\
  banks s =
    (match fresh_names index [] with
     | [] => Raise (HTTPException 404 NO_BANKS)
     | names => Ok (map (fun b => [("bank", b)]) names)
     end, s').
Proof.
  intros H. destruct (fresh_names_spec index []) as [Hnd Hin].
  split; [exact Hnd|]. split.
  - intros b. rewrite Hin. cbn [In]. tauto.
  - unfold banks. rewrite (bind_ok _ _ _ _ _ _ _ H), banks_loop_fresh.
    cbn [app]. now destruct (fresh_names index []).
Qed.

End ListingExtras.

(* ================================================================== *)
(** * These properties at work on the demo world *)
(* ================================================================== *)

Module MoreDemoFacts.
Import Demo Demo2.
#[local] Existing Instance dec_float.
#[local] Existing Instance Demo.world.

Example output_row_of_raw3 :
  to_output_row raw3 =
  [("BANK", VStr "abc ltd"); ("IFSC", VStr "ABCD0123456"); ("BRANCH", VStr "");
   ("ADDRESS", VStr ""); ("CITY1", VStr "Pune"); ("CITY2", VStr "Pune");
   ("STATE", VStr ""); ("STD CODE", VInt 20); ("PHONE", VStr "")].
Proof. vm_compute. reflexivity. Qed.

(** The padded, lower-case code of [raw3] comes out trimmed and in
    upper case. *)
Lemma output_values_are_text_or_int_witness :
  In ("IFSC", VStr "ABCD0123456") (to_output_row raw3)
  /\ In "IFSC" OUT_KEYS
  /\ ((exists s, VStr "ABCD0123456" = @VStr float s /\ strip s = s /\
                 ("IFSC" = "IFSC" -> upper s = s))
      \/ exists n, VStr "ABCD0123456" = @VInt float n /\
                   ("IFSC" = "STD CODE" \/ "IFSC" = "PHONE")).
Proof.
  assert (H : In ("IFSC", VStr "ABCD0123456") (to_output_row raw3))
    by (vm_compute; auto).
  exact (conj H (output_values_are_text_or_int raw3 "IFSC" _ H)).
Defined.

Lemma headers_case_and_padding_ignored_witness :
  Forall (fun kv => ascii_only (fst kv) = true) raw3
  /\ to_output_row (map (fun kv => (" " ++ upper (fst kv) ++ "  ", snd kv)) raw3)
     = to_output_row raw3.
Proof.
  assert (H : Forall (fun kv => ascii_only (fst kv) = true) raw3)
    by (repeat constructor).
  exact (conj H (headers_case_and_padding_ignored raw3 " " "  " H eq_refl eq_refl)).
Defined.

(** One header of [raw2] feeds the area-dial-code field. *)
Lemma field_of_single_value_witness :
  item (to_output_row raw2) "STD CODE" = render "STD CODE" (VStr "11.0").
Proof.
  apply (field_of_single_value DecFloatFacts.dec_float_laws raw2 "STD CODE"
           (VStr "11.0")).
  - unfold OUT_KEYS. simpl. tauto.
  - discriminate.
  - exists "STD Code". split; [unfold raw2; simpl; tauto|vm_compute; reflexivity].
  - intros y (key & Hin & Hc). unfold raw2 in Hin. simpl in Hin.
    repeat (destruct Hin as [Hin|Hin];
            [inversion Hin; subst;
             first [vm_compute in Hc; discriminate | reflexivity]|]).
    destruct Hin.
Defined.

(** Two headers feed the contact number: the second one wins. *)
Lemma last_alias_wins_witness :
  item (to_output_row [("Phone", VStr "111"); ("Mobile", VInt 222)]) "PHONE"
  = render "PHONE" (VInt 222).
Proof.
  apply (last_alias_wins DecFloatFacts.dec_float_laws
           [("Phone", VStr "111")] "Mobile" (VInt 222) [] "PHONE").
  - cbn. repeat constructor; cbn; intuition discriminate.
  - discriminate.
  - vm_compute. reflexivity.
  - intros key' y [].
Defined.

(** [raw3] has one locality, under the header [CENTRE]. *)
Lemma city2_copies_city1_witness :
  item (to_output_row raw3) "CITY2" = item (to_output_row raw3) "CITY1".
Proof.
  apply (city2_copies_city1 raw3).
  - intros x (key & Hin & Hc). unfold raw3 in Hin. simpl in Hin.
    repeat (destruct Hin as [Hin|Hin];
            [inversion Hin; subst; vm_compute in Hc; discriminate|]).
    destruct Hin.
  - intros x (key & Hin & Hc). unfold raw3 in Hin. simpl in Hin.
    repeat (destruct Hin as [Hin|Hin];
            [inversion Hin; subst;
             first [vm_compute in Hc; discriminate
                   | right; eexists; reflexivity]|]).
    destruct Hin.
Defined.

(** The readable file arrives whole, in three chunks of which one is
    empty. *)
Example download_of_exb :
  stream_download exb_url start =
  (Ok [Byte.x50; Byte.x4b; Byte.x03], after_download exb_url start).
Proof. vm_compute. reflexivity. Qed.

(** The other file cannot be requested. *)
Lemma stream_download_failures_witness :
  exists e s',
    stream_download gone_url start = (Raise e, s') /\
    s' = after_download gone_url start /\
    ((e = HTTPException 413 "File too large." /\
      exists pre c post,
        get_stream (trace start) gone_url = Some (pre ++ Chunk c :: post)%list /\
        ~ In Broken pre /\
        Z.of_nat (length (payload pre)) <= MAX_DOWNLOAD_BYTES /\
        MAX_DOWNLOAD_BYTES
          < Z.of_nat (length (payload pre)) + Z.of_nat (length c))
     \/ (e = OtherError /\
         (get_stream (trace start) gone_url = None
          \/ exists pre post,
               get_stream (trace start) gone_url = Some (pre ++ Broken :: post)%list /\
               ~ In Broken pre /\
               Z.of_nat (length (payload pre)) <= MAX_DOWNLOAD_BYTES))).
Proof.
  exists OtherError, (after_download gone_url start).
  assert (H : stream_download gone_url start
              = (Raise OtherError, after_download gone_url start))
    by (vm_compute; reflexivity).
  exact (conj H (stream_download_failures gone_url start OtherError _ H)).
Defined.

Lemma cached_links_are_primed_witness :
  get_cached_links start = (Ok listed, listed_state)
  /\ listed <> []
  /\ get_cached_links listed_state = (Ok listed, listed_state).
Proof.
  assert (H : get_cached_links start = (Ok listed, listed_state))
    by (vm_compute; reflexivity).
  destruct (cached_links_are_primed start listed listed_state H)
    as (Hne & _ & _ & Hagain).
  split; [exact H|]. split; [exact Hne|].
  apply Hagain. vm_compute. discriminate.
Defined.

(** Both listed files are requested, the one that cannot be fetched
    included, also where the index file cannot be written. *)
Lemma build_requests_each_candidate_once_witness :
  (exists r s',
     build_index_file start = (r, s') /\
     links_ts s' = 1000000 /\ links_data s' = listed /\
     trace s' = [Download gone_url; Download exb_url; GetPage] /\
     match r with
     | Ok index => index_on_disk s' = Some (Stored index)
     | Raise e =>
         e = OtherError /\
         (index_on_disk s' = None \/ index_on_disk s' = Some Unreadable)
     end)
  /\ (exists r s',
        @build_index_file _ ro_world start = (r, s') /\
        links_ts s' = 1000000 /\ links_data s' = listed /\
        trace s' = [Download gone_url; Download exb_url; GetPage] /\
        match r with
        | Ok index => index_on_disk s' = Some (Stored index)
        | Raise e =>
            e = OtherError /\
            (index_on_disk s' = None \/ index_on_disk s' = Some Unreadable)
        end).
Proof.
  split.
  - assert (H : get_cached_links start = (Ok listed, listed_state))
      by (vm_compute; reflexivity).
    exact (build_requests_each_candidate_once start listed listed_state H).
  - assert (H : @get_cached_links _ ro_world start = (Ok listed, listed_state))
      by (vm_compute; reflexivity).
    exact (@build_requests_each_candidate_once _ ro_world start listed listed_state H).
Defined.

Example build_from_start :
  build_index_file start = (Ok [exb_record; gone_record], built_state).
Proof. vm_compute. reflexivity. Qed.

Lemma built_names_are_normalised_witness :
  Forall (fun e => strip (bank e) = bank e /\ upper (bank e) = bank e)
    [exb_record; gone_record].
Proof.
  assert (H : build_index_file start = (Ok [exb_record; gone_record], built_state))
    by (vm_compute; reflexivity).
  exact (built_names_are_normalised start _ _ H).
Defined.

(** With no index file the index is built; it is then loaded as it is. *)
Lemma load_index_settles_witness :
  load_index start = (Ok [exb_record; gone_record], built_state)
  /\ load_index built_state = (Ok [exb_record; gone_record], built_state).
Proof.
  assert (H : load_index start = (Ok [exb_record; gone_record], built_state))
    by (vm_compute; reflexivity).
  destruct (load_index_settles start _ _ H) as (_ & Hagain & _).
  exact (conj H Hagain).
Defined.

Lemma by_bank_rows_come_from_first_match_witness :
  by_bank "example" indexed_start = (Ok [row1; row2], fetched_state)
  /\ exists index entry s1 df,
       resolves (fun e => contains (upper (bank e)) (upper (strip "example")))
         indexed_start index entry s1 /\
       index_on_disk fetched_state = Some (Stored index) /\
       open_first_sheet entry NO_BANK s1 = (Ok df, fetched_state) /\
       [row1; row2] = map (canon_row (columns (normalize_columns df))) (rows df) /\
       [row1; row2] <> [] /\
       Forall (fun r => dict_keys r = OUT_KEYS) [row1; row2].
Proof.
  assert (H : by_bank "example" indexed_start = (Ok [row1; row2], fetched_state))
    by (vm_compute; reflexivity).
  exact (conj H (proj2 (by_bank_rows_come_from_first_match "example" indexed_start
                          [row1; row2] fetched_state H))).
Defined.

Lemma by_ifsc_rows_are_the_matching_rows_witness :
  by_ifsc "exb00099999" indexed_start = (Ok [row2], fetched_state)
  /\ (11 <= String.length (upper (strip "exb00099999")))%nat.
Proof.
  assert (H : by_ifsc "exb00099999" indexed_start = (Ok [row2], fetched_state))
    by (vm_compute; reflexivity).
  exact (conj H (proj1 (by_ifsc_rows_are_the_matching_rows "exb00099999"
                          indexed_start [row2] fetched_state H))).
Defined.

Lemma resolves_gone_by_name :
  resolves (fun e => contains (upper (bank e)) (upper (strip "gone")))
    named_start named_index gone_named named_start.
Proof. left. split; vm_compute; reflexivity. Qed.

Lemma resolves_gone_by_prefix :
  resolves (fun e => (ifsc_prefix e =? take 4 (upper (strip "gone0123456")))%string)
    named_start named_index gone_named named_start.
Proof. left. split; vm_compute; reflexivity. Qed.

(** The first record that matches names the file that cannot be fetched:
    the failure of its download comes out as the flow's [404]. *)
Lemma by_bank_failures_witness :
  by_bank "gone" named_start
    = (Raise (HTTPException 404 NO_BANK), after_download gone_url named_start)
  /\ after_download gone_url named_start
     = after_download (rec_url gone_named) named_start
  /\ (HTTPException 404 NO_BANK = HTTPException 404 NO_BANK
      \/ (HTTPException 404 NO_BANK = HTTPException 413 "File too large." /\
          stream_download (rec_url gone_named) named_start
            = (Raise (HTTPException 404 NO_BANK),
               after_download gone_url named_start))).
Proof.
  assert (Hq : upper (strip "gone") <> "") by (vm_compute; discriminate).
  assert (H : by_bank "gone" named_start
              = (Raise (HTTPException 404 NO_BANK),
                 after_download gone_url named_start))
    by (vm_compute; reflexivity).
  exact (conj H (by_bank_failures "gone" named_start named_index gone_named
                   named_start _ _ Hq resolves_gone_by_name H)).
Defined.

Lemma by_ifsc_failures_witness :
  by_ifsc "gone0123456" named_start
    = (Raise (HTTPException 404 NO_IFSC), after_download gone_url named_start)
  /\ after_download gone_url named_start
     = after_download (rec_url gone_named) named_start
  /\ (HTTPException 404 NO_IFSC = HTTPException 404 NO_IFSC
      \/ (HTTPException 404 NO_IFSC = HTTPException 413 "File too large." /\
          stream_download (rec_url gone_named) named_start
            = (Raise (HTTPException 404 NO_IFSC),
               after_download gone_url named_start))).
Proof.
  assert (Hl : (11 <= String.length (upper (strip "gone0123456")))%nat)
    by (apply Nat.leb_le; vm_compute; reflexivity).
  assert (H : by_ifsc "gone0123456" named_start
              = (Raise (HTTPException 404 NO_IFSC),
                 after_download gone_url named_start))
    by (vm_compute; reflexivity).
  exact (conj H (by_ifsc_failures "gone0123456" named_start named_index gone_named
                   named_start _ _ Hl resolves_gone_by_prefix H)).
Defined.

(** Both flows are served by the stored index: one file is requested. *)
Lemma lookup_hit_requests_one_file_witness :
  by_bank "example" indexed_start = (Ok [row1; row2], fetched_state)
  /\ fetched_state = after_download (rec_url exb_record) indexed_start.
Proof.
  assert (H : by_bank "example" indexed_start = (Ok [row1; row2], fetched_state))
    by (vm_compute; reflexivity).
  split; [exact H|].
  apply (proj1 (lookup_hit_requests_one_file "example" indexed_start stored_index
                  exb_record (Ok [row1; row2]) fetched_state eq_refl)).
  - vm_compute. discriminate.
  - vm_compute. reflexivity.
  - exact H.
Defined.

(** No record names the bank, before or after the rebuild. *)
Lemma lookup_miss_rebuilds_once_witness :
  by_bank "nobody" indexed_start = (Raise (HTTPException 404 NO_BANK), built_state).
Proof.
  assert (Hl : load_index indexed_start = (Ok stored_index, indexed_start))
    by (vm_compute; reflexivity).
  assert (Hb : build_index_file indexed_start
               = (Ok [exb_record; gone_record], built_state))
    by (vm_compute; reflexivity).
  apply (proj1 (lookup_miss_rebuilds_once "nobody" indexed_start stored_index
                  indexed_start [exb_record; gone_record] built_state Hl Hb)).
  - vm_compute. discriminate.
  - vm_compute. reflexivity.
  - vm_compute. reflexivity.
Defined.

(** The page has three anchors, two of them to Excel files; the text of
    the first is padded and the second has none. *)
Lemma listed_links_come_from_excel_anchors_witness :
  fetch_xls_links start = (Ok listed, after_get_page start)
  /\ listed <> []
  /\ exists anchors,
       get_page (trace start) = Some anchors /\
       forall l, In l listed ->
         exists a, In a anchors /\
           (endswith (lower (strip (fst a))) ".xls" = true
            \/ endswith (lower (strip (fst a))) ".xlsx" = true) /\
           url l = (if startswith (lower (strip (fst a))) "http://"
                       || startswith (lower (strip (fst a))) "https://"
                    then strip (fst a) else urljoin RBI_BASE (strip (fst a))) /\
           (if all_space (snd a) then title l = last_segment (url l)
            else title l = String.concat " " (split_ws (snd a) "") /\
                 title l <> "" /\ strip (title l) = title l).
Proof.
  assert (H : fetch_xls_links start = (Ok listed, after_get_page start))
    by (vm_compute; reflexivity).
  destruct (listed_links_come_from_excel_anchors start listed _ H)
    as (Hne & _ & Hl).
  exact (conj H (conj Hne Hl)).
Defined.

(** C5.  The by-code lookup misses a row that bears the code when two
    labels of the sheet are the same once trimmed.  Role matching finds
    the code column [IFSC], the only data row has the query code under
    it, and the index record has the code's prefix; yet [df[col]] is
    then no Series, line 284 raises, and the flow answers with its
    [404] where the claim has it return the row. *)
Lemma by_ifsc_misses_row_under_twin_labels :
  find_ifsc_column (columns (normalize_columns dup_sheet)) = Some "IFSC"
  /\ positions "IFSC" (columns (normalize_columns dup_sheet)) = [1; 2]%nat
  /\ map (fun row => upper (py_str (cell row 1))) (rows dup_sheet)
     = ["DUPB0000001"]
  /\ @by_ifsc _ dup_world "DUPB0000001" dup_start
     = (Raise (HTTPException 404 NO_IFSC), after_download dup_url dup_start).
Proof. repeat split; vm_compute; reflexivity. Qed.

(** The third record names the bank of the second, in lower case and
    padded: it is listed once. *)
Lemma banks_lists_each_name_once_witness :
  banks named_start =
  (Ok [[("bank", "GONE BANK")]; [("bank", "EXAMPLE BANK")]], named_start).
Proof.
  assert (H : load_index named_start = (Ok named_index, named_start))
    by (vm_compute; reflexivity).
  destruct (banks_lists_each_name_once named_start named_index named_start H)
    as (_ & _ & Hb).
  vm_compute in Hb |- *. exact Hb.
Defined.

(** With no name in the index there is nothing to list. *)
Example banks_none :
  banks indexed_start = (Ok [[("bank", "EXAMPLE BANK")]], indexed_start)
  /\ banks (State 0 [] (Some (Stored [gone_record])) [])
     = (Raise (HTTPException 404 NO_BANKS), State 0 [] (Some (Stored [gone_record])) []).
Proof. split; vm_compute; reflexivity. Qed.

End MoreDemoFacts.
